(** * Market seasonality explorer: the data-derivation pipeline

    A shallow embedding of the TypeScript sources

    - [hooks/use-market-data.ts]   (kline fetcher, volatility enhancer, hook),
    - [lib/binance-api.ts]         (rate limiter, API calls, trading pairs,
                                    symbol validation, price change),
    - [components/calendar.tsx]    (weekly and monthly aggregation, clicks,
                                    keyboard navigation),
    - [components/pattern-analyzer.tsx] (pattern detectors),
    - [components/alert-system.tsx]     (alert evaluation and operations),
    - [components/comparison-dialog.tsx] (kline fetcher, metrics),
    - [components/data-dashboard.tsx]    (selection, metrics),
    - [app/page.tsx]               (history for the pattern analysis),

    together with the properties the specification states about them, and
    further properties of the code.

    ** Numbers

    A JavaScript [number] is modelled by [num]: an exact rational, or one of
    the three special values NaN, +Infinity and -Infinity, with the IEEE-754
    rules for the special values written out.  Rounding, overflow of finite
    values and the sign of zero are not modelled: arithmetic on finite values
    is exact.  [Math.sqrt] has no exact rational counterpart and is a
    parameter of the definitions that use it.  Where the rounding of an
    addition decides a property, the weekly totals, the reduction is given
    on IEEE-754 doubles as well ([Doubles], on Rocq's primitive floats). *)

From Stdlib Require Import QArith Qcanon Qround ZArith Lia List Bool Ascii String Sorted PrimFloat.
From stdpp Require Import base tactics option list strings numbers.

Local Open Scope Z_scope.

(** ** Canonical rationals: boolean comparisons *)

Definition Qcltb (x y : Qc) : bool :=
  match (x ?= y)%Qc with Lt => true | _ => false end.

Definition Qcleb (x y : Qc) : bool :=
  match (x ?= y)%Qc with Gt => false | _ => true end.

Definition Qceqb (x y : Qc) : bool :=
  match (x ?= y)%Qc with Eq => true | _ => false end.

(** The rational [n / d]. *)
Definition qc (n : Z) (d : positive) : Qc := Q2Qc (n # d).

Definition Qc_of_nat (n : nat) : Qc := Qc_of_Z (Z.of_nat n).

(** ** JavaScript numbers *)

Inductive num : Type :=
| NaN
| NInf
| Fin (q : Qc)
| PInf.

Declare Scope num_scope.
Delimit Scope num_scope with num.
Bind Scope num_scope with num.

Module JS.

Definition of_Z (z : Z) : num := Fin (Qc_of_Z z).
Definition of_nat (n : nat) : num := Fin (Qc_of_nat n).

Definition zero : num := Fin 0%Qc.

Definition isNaN (x : num) : bool :=
  match x with NaN => true | _ => false end.

Definition isFinite (x : num) : bool :=
  match x with Fin _ => true | _ => false end.

Definition neg (x : num) : num :=
  match x with
  | NaN => NaN
  | NInf => PInf
  | Fin q => Fin (- q)%Qc
  | PInf => NInf
  end.

Definition add (x y : num) : num :=
  match x, y with
  | NaN, _ | _, NaN => NaN
  | PInf, NInf | NInf, PInf => NaN
  | PInf, _ | _, PInf => PInf
  | NInf, _ | _, NInf => NInf
  | Fin a, Fin b => Fin (a + b)%Qc
  end.

Definition sub (x y : num) : num := add x (neg y).

(** Sign of a number that is not NaN. *)
Definition sign (x : num) : comparison :=
  match x with
  | NaN => Eq
  | NInf => Lt
  | Fin q => (q ?= 0)%Qc
  | PInf => Gt
  end.

Definition signed_inf (c : comparison) : num :=
  match c with Lt => NInf | Eq => NaN | Gt => PInf end.

Definition sign_mul (c d : comparison) : comparison :=
  match c, d with
  | Eq, _ | _, Eq => Eq
  | Lt, Lt | Gt, Gt => Gt
  | _, _ => Lt
  end.

Definition mul (x y : num) : num :=
  match x, y with
  | NaN, _ | _, NaN => NaN
  | Fin a, Fin b => Fin (a * b)%Qc
  | _, _ => signed_inf (sign_mul (sign x) (sign y))
  end.

(** Division.  A finite zero divisor is the positive zero. *)
Definition div (x y : num) : num :=
  match x, y with
  | NaN, _ | _, NaN => NaN
  | Fin a, Fin b =>
      if Qceqb b 0 then signed_inf (sign x) else Fin (a / b)%Qc
  | Fin _, _ => zero
  | _, Fin b => signed_inf (sign_mul (sign x) (if Qcltb b 0 then Lt else Gt))
  | _, _ => NaN
  end.

Definition ltb (x y : num) : bool :=
  match x, y with
  | NaN, _ | _, NaN => false
  | _, NInf => false
  | NInf, _ => true
  | PInf, _ => false
  | _, PInf => true
  | Fin a, Fin b => Qcltb a b
  end.

Definition leb (x y : num) : bool :=
  match x, y with
  | NaN, _ | _, NaN => false
  | NInf, _ => true
  | _, NInf => false
  | _, PInf => true
  | PInf, _ => false
  | Fin a, Fin b => Qcleb a b
  end.

Definition gtb (x y : num) : bool := ltb y x.
Definition geb (x y : num) : bool := leb y x.

(** [x || 0] on numbers: NaN and 0 are falsy. *)
Definition or_zero (x : num) : num :=
  match x with
  | NaN => zero
  | _ => x
  end.

(** [x || d] on numbers. *)
Definition or_else (x d : num) : num :=
  match x with
  | NaN => d
  | Fin q => if Qceqb q 0 then d else x
  | _ => x
  end.

(** [!x] on numbers. *)
Definition falsy (x : num) : bool :=
  match x with
  | NaN => true
  | Fin q => Qceqb q 0
  | _ => false
  end.

Definition Math_max (x y : num) : num :=
  match x, y with
  | NaN, _ | _, NaN => NaN
  | _, _ => if ltb x y then y else x
  end.

Definition Math_min (x y : num) : num :=
  match x, y with
  | NaN, _ | _, NaN => NaN
  | _, _ => if ltb y x then y else x
  end.

Definition Math_abs (x : num) : num :=
  match x with
  | NaN => NaN
  | NInf | PInf => PInf
  | Fin q => if Qcltb q 0 then Fin (- q)%Qc else Fin q
  end.

Definition Math_floor (x : num) : num :=
  match x with
  | Fin q => of_Z (Qfloor (this q))
  | _ => x
  end.

(** [Math.pow(x, 2)]. *)
Definition Math_pow2 (x : num) : num := mul x x.

(** [Math.sqrt], over a square root [sqrtQ] of the non-negative rationals. *)
Definition Math_sqrt (sqrtQ : Qc -> Qc) (x : num) : num :=
  match x with
  | NaN | NInf => NaN
  | PInf => PInf
  | Fin q => if Qcltb q 0 then NaN else Fin (sqrtQ q)
  end.

End JS.

Notation "x + y" := (JS.add x y) : num_scope.
Notation "x - y" := (JS.sub x y) : num_scope.
Notation "x * y" := (JS.mul x y) : num_scope.
Notation "x / y" := (JS.div x y) : num_scope.
Notation "x <? y" := (JS.ltb x y) : num_scope.
Notation "x <=? y" := (JS.leb x y) : num_scope.
Notation "x >? y" := (JS.gtb x y) : num_scope.
Notation "x >=? y" := (JS.geb x y) : num_scope.

(** The literals [0], [2] and [100]. *)
Definition n0 : num := JS.zero.
Definition n2 : num := JS.of_Z 2.
Definition n100 : num := JS.of_Z 100.

(** A rational square root, exact on squares of rationals, to run examples:
    the integer square root of [n * d] over [d]. *)
Definition sqrt_floor (q : Qc) : Qc :=
  let n := Qnum (this q) in
  let d := Qden (this q) in
  Q2Qc (Z.sqrt (n * Zpos d) # d).

(** * Rate limiter ([lib/binance-api.ts], class [RateLimiter])

    [Date.now()] is an integer number of milliseconds; the limiter's numbers
    are modelled in [Z].  [Math.min(...[])] is [Infinity]: the oldest request
    of an empty queue is [None]. *)

Module RateLimiter.

Record t : Type := mk {
  requests : list Z;
  maxRequests : Z;
  timeWindow : Z;
}.

(** [constructor(maxRequests = 1200, timeWindow = 60000)] *)
Definition new (maxRequests timeWindow : option Z) : t :=
  {| requests := [];
     maxRequests := default 1200 maxRequests;
     timeWindow := default 60000 timeWindow |}.

(** What a call does, in order: it may suspend the caller for a number of
  milliseconds ([None] is the delay [Infinity]), and it records a request. *)
Inductive event : Type :=
| Suspend (ms : option Z)
| Push (time : Z).

(** [Math.min(...xs)] *)
Definition Math_min (xs : list Z) : option Z :=
  match xs with
  | [] => None
  | x :: tl => Some (fold_left Z.min tl x)
  end.

Definition waitIfNeeded (now : Z) (rl : t) : list event * t :=
  let requests := List.filter (fun time => now - time <? timeWindow rl) (requests rl) in
  let suspended :=
    if Z.of_nat (length requests) >=? maxRequests rl then
      let oldestRequest := Math_min requests in
      let waitTime := option_map (fun o => timeWindow rl - (now - o) + 100) oldestRequest in
      match waitTime with
      | Some w => if w >? 0 then [Suspend (Some w)] else []
      | None => [Suspend None]
      end
    else [] in
  (suspended ++ [Push now],
   {| requests := requests ++ [now];
      maxRequests := maxRequests rl;
      timeWindow := timeWindow rl |}).

End RateLimiter.

(** * Data model ([types/market.ts]) *)

Record MarketData : Type := mkMarketData {
  date : string;
  open : num;
  high : num;
  low : num;
  close : num;
  volume : num;
  volatility : num;
}.

Definition with_volatility (item : MarketData) (v : num) : MarketData :=
  {| date := date item; open := open item; high := high item; low := low item;
     close := close item; volume := volume item; volatility := v |}.

#[local] Set Warnings "-register-all".

(** Untyped values ([any]): what a JSON body parses to. *)
Inductive any : Type :=
| Undefined
| Null
| ABool (b : bool)
| ANum (n : num)
| AStr (s : string)
| AArr (items : list any)
| AObj (fields : list (string * any)).

(** The outcome of a call that may throw. *)
Inductive result (A : Type) : Type :=
| Ok (value : A)
| Throw (message : string).
Arguments Ok {A} value.
Arguments Throw {A} message.

(** ** The host: JavaScript built-ins and date-fns

    A [Date] is modelled by its time value, a [num] of milliseconds since the
    epoch; NaN is the invalid date.  What the built-ins and the date-fns
    functions compute is not part of this repository: they are the fields of
    a class the models take as a parameter. *)
Class Host : Type := mkHost {
  (** [Number.parseFloat(x)] *)
  parseFloat : any -> num;
  (** [Number(x)] *)
  ToNumber : any -> num;
  (** [`${x}`] for a value and for a number *)
  ToString : any -> string;
  num_to_string : num -> string;
  (** [new Date(s).getTime()] for a string [s] *)
  Date_parse : string -> num;
  (** [new Date(year, monthIndex, day).getTime()], in the host's time zone *)
  Date_local : Z -> Z -> Z -> num;
  (** date-fns *)
  format : num -> string -> string;
  startOfMonth : num -> num;
  endOfMonth : num -> num;
  startOfWeek : num -> num;
  endOfWeek : num -> num;
  subDays : num -> num -> num;
  differenceInDays : num -> num -> num;
  eachWeekOfInterval : num -> num -> list num;
  getDay : num -> num;
  getDate : num -> num;
  (** [Math.sqrt] on the non-negative rationals *)
  sqrtQ : Qc -> Qc;
}.

(** [new Date(t).getTime()] for a number [t]: the time value is truncated to
    an integer and is NaN beyond 8.64e15 ms (TimeClip). *)
Definition Date_of_time (t : num) : num :=
  match t with
  | Fin q =>
      let z := Z.quot (Qnum (this q)) (Zpos (Qden (this q))) in
      if Z.abs z <=? 8640000000000000 then JS.of_Z z else NaN
  | _ => NaN
  end.

(** * Kline fetcher ([hooks/use-market-data.ts]) *)

Section Fetcher.
Context `{host : Host}.
Local Open Scope num_scope.

(** [const BINANCE_LAUNCH_DATE = new Date(2017, 6, 1)] *)
Definition BINANCE_LAUNCH_DATE : num := Date_local 2017 6 1.

(** The request [fetch] is called with: the query of the URL
    [`${BINANCE_BASE_URL}/klines?symbol=..&interval=1d&startTime=..&endTime=..&limit=1000`]. *)
Record request : Type := mkRequest {
  req_symbol : string;
  req_interval : string;
  req_startTime : num;
  req_endTime : num;
  req_limit : Z;
}.

(** What the network answers: [fetch] rejects, or resolves to a response
    whose body parses as JSON ([Some]) or does not ([None]). *)
Inductive response : Type :=
| NetworkError (message : string)
| Response (ok : bool) (status : string) (statusText : string) (json : option any).

(** [!!v] *)
Definition truthy (v : any) : bool :=
  match v with
  | Undefined | Null => false
  | ABool b => b
  | ANum n => negb (JS.falsy n)
  | AStr s => negb (String.eqb s "")
  | AArr _ | AObj _ => true
  end.

(** [errorData.msg]: [None] when reading the property throws. *)
Definition get_msg (errorData : any) : option any :=
  match errorData with
  | Undefined | Null => None
  | AObj fields =>
      Some (match List.find (fun kv => String.eqb (fst kv) "msg") fields with
            | Some kv => snd kv
            | None => Undefined
            end)
  | _ => Some Undefined
  end.

(** The callback of [klineData.map]: a record, or [null]. *)
Definition parseKline (kline : any) : option MarketData :=
  match kline with
  | AArr fields =>
      if (length fields <? 11)%nat then None else
      let openTime := nth 0 fields Undefined in
      let openPrice := parseFloat (nth 1 fields Undefined) in
      let highPrice := parseFloat (nth 2 fields Undefined) in
      let lowPrice := parseFloat (nth 3 fields Undefined) in
      let closePrice := parseFloat (nth 4 fields Undefined) in
      let volumeValue := parseFloat (nth 5 fields Undefined) in
      if JS.isNaN openPrice || JS.isNaN highPrice || JS.isNaN lowPrice
         || JS.isNaN closePrice || JS.isNaN volumeValue then None else
      if (openPrice <=? n0) || (highPrice <=? n0) || (lowPrice <=? n0)
         || (closePrice <=? n0) then None else
      if (highPrice <? JS.Math_max openPrice closePrice)
         || (lowPrice >? JS.Math_min openPrice closePrice) then None else
      let timestamp := ToNumber openTime in
      if JS.isNaN timestamp || (timestamp <=? n0) then None else
      let dailyVolatility :=
        if openPrice >? n0 then ((highPrice - lowPrice) / openPrice) * n100 else n0 in
      let date := Date_of_time timestamp in
      if JS.isNaN date then None else
      if date <? BINANCE_LAUNCH_DATE then None else
      Some {| date := format date "yyyy-MM-dd";
              open := openPrice;
              high := highPrice;
              low := lowPrice;
              close := closePrice;
              volume := volumeValue;
              volatility := JS.Math_max n0 dailyVolatility |}
  | _ => None
  end.

(** [.filter((item) => item !== null)] *)
Definition filter_not_null {A : Type} (items : list (option A)) : list A :=
  omap id items.

(** [fetchBinanceKlineData(symbol, startTime, endTime)]: the requests issued,
    in order, and the records returned or the error thrown.  [net] is the
    network. *)
Definition fetchBinanceKlineData (net : request -> response)
    (symbol : string) (startTime endTime : num)
    : list request * result (list MarketData) :=
  if JS.falsy startTime || JS.falsy endTime || (startTime >=? endTime) then
    ([], Throw "Invalid date range provided")
  else if endTime <? BINANCE_LAUNCH_DATE then
    ([], Ok [])
  else
    let adjustedStartTime := JS.Math_max startTime BINANCE_LAUNCH_DATE in
    let validStartTime := JS.Math_floor adjustedStartTime in
    let validEndTime := JS.Math_floor endTime in
    (* [toISOString] throws on an invalid date *)
    if JS.isNaN (Date_of_time validStartTime) || JS.isNaN (Date_of_time validEndTime) then
      ([], Throw "Invalid time value")
    else
      let url := {| req_symbol := symbol; req_interval := "1d";
                    req_startTime := validStartTime; req_endTime := validEndTime;
                    req_limit := 1000 |} in
      match net url with
      | NetworkError message => ([url], Throw message)
      | Response false status statusText json =>
          let errorMessage := "Binance API error: " +:+ status +:+ " " +:+ statusText in
          let errorMessage :=
            match json with
            | Some errorData =>
                match get_msg errorData with
                | Some msg =>
                    if truthy msg then "Binance API: " +:+ ToString msg else errorMessage
                | None => errorMessage
                end
            | None => errorMessage
            end in
          ([url], Throw errorMessage)
      | Response true _ _ None => ([url], Throw "Unexpected end of JSON input")
      | Response true _ _ (Some (AArr klineData)) =>
          if (length klineData =? 0)%nat then ([url], Ok [])
          else ([url], Ok (filter_not_null (List.map parseKline klineData)))
      | Response true _ _ (Some _) =>
          ([url], Throw "Invalid response format from Binance API")
      end.

End Fetcher.

(** * Volatility enhancer ([hooks/use-market-data.ts]) *)

Section Enhancer.
Context `{host : Host}.
Local Open Scope num_scope.

(** [xs.slice(start, end)] for [0 <= start]. *)
Definition slice {A : Type} (start end_ : Z) (xs : list A) : list A :=
  take (Z.to_nat (end_ - start)) (drop (Z.to_nat start) xs).

(** [typeof price === "number" && !isNaN(price) && price > 0]: the fields of
    a typed record are numbers. *)
Definition valid_price (price : num) : bool :=
  negb (JS.isNaN price) && (price >? n0).

Definition calculateVolatility (prices : list num) : num :=
  if (length prices <? 2)%nat then n0 else
  let validPrices := List.filter valid_price prices in
  if (length validPrices <? 2)%nat then n0 else
  (* [for (let i = 1; i < validPrices.length; i++)] *)
  let returns :=
    fold_left
      (fun returns i =>
         let returnValue :=
           (nth i validPrices NaN - nth (i - 1) validPrices NaN)
           / nth (i - 1) validPrices NaN in
         if negb (JS.isNaN returnValue) && JS.isFinite returnValue
         then returns ++ [returnValue] else returns)
      (seq 1 (length validPrices - 1)) [] in
  if (length returns =? 0)%nat then n0 else
  let mean :=
    fold_left (fun sum ret => sum + ret) returns n0 / JS.of_nat (length returns) in
  let variance :=
    fold_left (fun sum ret => sum + JS.Math_pow2 (ret - mean)) returns n0
    / JS.of_nat (length returns) in
  let volatility := JS.Math_sqrt sqrtQ variance * n100 in
  if JS.isNaN volatility || negb (JS.isFinite volatility) then n0 else volatility.

Definition dailyWeight : num := Fin (qc 6 10).
Definition rollingWeight : num := Fin (qc 4 10).

Definition enhanceVolatilityData (data : list MarketData) : list MarketData :=
  if (length data <? 2)%nat then data else
  imap
    (fun (i : nat) (item : MarketData) =>
       let index := Z.of_nat i in
       let windowSize := Z.min 7 (index + 1) in
       let windowStart := Z.max 0 (index - windowSize + 1) in
       let window := slice windowStart (index + 1) data in
       let validWindow := List.filter (fun d => valid_price (close d)) window in
       if (length validWindow <? 2)%nat then
         with_volatility item (JS.Math_max n0 (JS.or_zero (volatility item)))
       else
         let closePrices := List.map close validWindow in
         let rollingVolatility := calculateVolatility closePrices in
         let dailyVol := JS.Math_max n0 (JS.or_zero (volatility item)) in
         let rollingVol := JS.Math_max n0 (JS.or_zero rollingVolatility) in
         let enhancedVolatility := dailyVol * dailyWeight + rollingVol * rollingWeight in
         with_volatility item enhancedVolatility)
    data.

End Enhancer.

(** * Alert evaluation ([components/alert-system.tsx]) *)

Module AlertSystem.
Local Open Scope num_scope.

Inductive alert_type : Type := Volatility | Performance | Volume.
Inductive alert_condition : Type := Above | Below.

Record Alert : Type := mkAlert {
  id : string;
  type : alert_type;
  condition : alert_condition;
  threshold : num;
  enabled : bool;
  triggered : bool;
  lastTriggered : option num;
}.

(** [new Notification(title, { body, icon })] *)
Record Notification : Type := mkNotification {
  title : string;
  body : string;
}.

Section Evaluate.
Context `{host : Host}.

Definition type_name (t : alert_type) : string :=
  match t with
  | Volatility => "volatility"
  | Performance => "performance"
  | Volume => "volume"
  end.

Definition condition_name (c : alert_condition) : string :=
  match c with Above => "above" | Below => "below" end.

(** The value the alert watches, from the latest record. *)
Definition currentValue (latestData : MarketData) (alert : Alert) : num :=
  let performance :=
    ((close latestData - open latestData) / open latestData) * n100 in
  match type alert with
  | Volatility => volatility latestData
  | Performance => JS.Math_abs performance
  | Volume => volume latestData / JS.of_Z 1000000
  end.

Definition shouldTrigger (latestData : MarketData) (alert : Alert) : bool :=
  let currentValue := currentValue latestData alert in
  match condition alert with
  | Above => currentValue >? threshold alert
  | Below => currentValue <? threshold alert
  end.

(** The callback of [prevAlerts.map]: the notifications it shows and the
    alert it returns.  [granted] is
    ["Notification" in window && Notification.permission === "granted"] and
    [now] is [new Date()]. *)
Definition evaluateAlert (granted : bool) (now : num) (symbol : string)
    (latestData : MarketData) (alert : Alert) : list Notification * Alert :=
  if negb (enabled alert) then ([], alert) else
  if shouldTrigger latestData alert && negb (triggered alert) then
    ((if granted then
        [ {| title := "Market Alert - " +:+ symbol;
             body := type_name (type alert) +:+ " is " +:+
                     condition_name (condition alert) +:+ " " +:+
                     num_to_string (threshold alert) +:+
                     (match type alert with Volume => "M" | _ => "%" end) |} ]
      else []),
     {| id := id alert; type := type alert; condition := condition alert;
        threshold := threshold alert; enabled := enabled alert;
        triggered := true; lastTriggered := Some now |})
  else ([], alert).

(** The effect run when [data] or [symbol] changes. *)
Definition evaluateAlerts (granted : bool) (now : num) (symbol : string)
    (data : list MarketData) (alerts : list Alert)
    : list Notification * list Alert :=
  (* [if (data.length === 0) return] and [data[data.length - 1]] *)
  match data !! (length data - 1)%nat with
  | None => ([], alerts)
  | Some latestData =>
      let results := List.map (evaluateAlert granted now symbol latestData) alerts in
      (List.concat (List.map fst results), List.map snd results)
  end.

End Evaluate.

Definition toggleAlert (id0 : string) (alerts : list Alert) : list Alert :=
  List.map
    (fun alert =>
       if String.eqb (id alert) id0 then
         {| id := id alert; type := type alert; condition := condition alert;
            threshold := threshold alert; enabled := negb (enabled alert);
            triggered := false; lastTriggered := lastTriggered alert |}
       else alert)
    alerts.

Definition resetAlert (id0 : string) (alerts : list Alert) : list Alert :=
  List.map
    (fun alert =>
       if String.eqb (id alert) id0 then
         {| id := id alert; type := type alert; condition := condition alert;
            threshold := threshold alert; enabled := enabled alert;
            triggered := false; lastTriggered := lastTriggered alert |}
       else alert)
    alerts.

End AlertSystem.

(** * Weekly aggregation ([components/calendar.tsx], [renderWeeklyView]) *)

Module Calendar.
Section Weekly.
Context `{host : Host}.
Local Open Scope num_scope.

Record WeekSummary : Type := mkWeekSummary {
  weekStart : num;
  weekEnd : num;
  weekData : list MarketData;
  avgVolatility : num;
  totalVolume : num;
  weekPerformance : num;
}.

(** [const weeks = eachWeekOfInterval({ start: calendarStart, end: calendarEnd })] *)
Definition weeks (currentMonth : num) : list num :=
  let monthStart := startOfMonth currentMonth in
  let monthEnd := endOfMonth currentMonth in
  let calendarStart := startOfWeek monthStart in
  let calendarEnd := endOfWeek monthEnd in
  eachWeekOfInterval calendarStart calendarEnd.

(** [item?.field]: [undefined], here NaN (both falsy), when there is no item. *)
Definition field_of (field : MarketData -> num) (item : option MarketData) : num :=
  from_option field NaN item.

(** The callback of [weeks.map]. *)
Definition weekSummary (data : list MarketData) (weekStart : num) : WeekSummary :=
  let weekEnd := endOfWeek weekStart in
  let weekData :=
    List.filter
      (fun item =>
         let itemDate := Date_parse (date item) in
         (itemDate >=? weekStart) && (itemDate <=? weekEnd))
      data in
  let avgVolatility :=
    JS.or_else
      (fold_left (fun sum item => sum + volatility item) weekData n0
       / JS.of_nat (length weekData))
      n0 in
  let totalVolume := fold_left (fun sum item => sum + volume item) weekData n0 in
  let weekPerformance :=
    if (0 <? length weekData)%nat then
      ((JS.or_else (field_of close (weekData !! (length weekData - 1)%nat)) n0
        - JS.or_else (field_of open (weekData !! 0%nat)) n0)
       / JS.or_else (field_of open (weekData !! 0%nat)) (JS.of_Z 1))
      * n100
    else n0 in
  {| weekStart := weekStart; weekEnd := weekEnd; weekData := weekData;
     avgVolatility := avgVolatility; totalVolume := totalVolume;
     weekPerformance := weekPerformance |}.

Definition weeklyView (data : list MarketData) (currentMonth : num) : list WeekSummary :=
  List.map (weekSummary data) (weeks currentMonth).

End Weekly.
End Calendar.

(** * Pattern detectors ([components/pattern-analyzer.tsx]) *)

(** ** Objects used as maps from a key to an array

    [Object.entries] lists the integer keys in ascending order and then the
    other keys in the order they were created. *)
Section Groups.
Context {K A : Type} (key_eqb : K -> K -> bool) (key_index : K -> option Z).

Fixpoint create_key (k : K) (entries : list (K * list A)) : list (K * list A) :=
  match entries with
  | [] => [(k, [])]
  | (k', v') :: rest =>
      match key_index k, key_index k' with
      | Some i, Some j =>
          if i <? j then (k, []) :: entries else (k', v') :: create_key k rest
      | Some _, None => (k, []) :: entries
      | None, _ => (k', v') :: create_key k rest
      end
  end.

Definition has_key (k : K) (entries : list (K * list A)) : bool :=
  existsb (fun kv => key_eqb (fst kv) k) entries.

(** [if (!acc[k]) acc[k] = []; acc[k].push(item); return acc] *)
Definition group_push (acc : list (K * list A)) (k : K) (item : A) : list (K * list A) :=
  let acc := if has_key k acc then acc else create_key k acc in
  List.map (fun kv => if key_eqb (fst kv) k then (fst kv, snd kv ++ [item]) else kv) acc.

End Groups.

(** Numbers as property keys: equal when they print the same. *)
Definition num_key_eqb (x y : num) : bool :=
  match x, y with
  | NaN, NaN | NInf, NInf | PInf, PInf => true
  | Fin a, Fin b => Qceqb a b
  | _, _ => false
  end.

Definition num_key_index (x : num) : option Z :=
  match x with
  | Fin q =>
      if (Zpos (Qden (this q)) =? 1) && (0 <=? Qnum (this q))
      then Some (Qnum (this q)) else None
  | _ => None
  end.

(** [xs.sort(compare)]: a stable sort; a NaN comparison counts as 0. *)
Fixpoint sort_insert {A : Type} (compare : A -> A -> num) (x : A) (sorted : list A) : list A :=
  match sorted with
  | [] => [x]
  | y :: rest =>
      if JS.gtb (compare x y) n0 then y :: sort_insert compare x rest
      else x :: sorted
  end.

Definition sort {A : Type} (compare : A -> A -> num) (xs : list A) : list A :=
  fold_right (sort_insert compare) [] xs.

Module PatternAnalyzer.
Local Open Scope num_scope.

Inductive pattern_type : Type := Weekly | Monthly | Volatility | Volume | Anomaly.
Inductive severity_level : Type := Low | Medium | High.

Record Pattern : Type := mkPattern {
  id : string;
  type : pattern_type;
  name : string;
  description : string;
  confidence : num;
  occurrences : nat;
  avgImpact : num;
  severity : option severity_level;
}.

Inductive period : Type := Early | Mid | Late.

Definition period_eqb (p q : period) : bool :=
  match p, q with
  | Early, Early | Mid, Mid | Late, Late => true
  | _, _ => false
  end.

Definition period_key (p : period) : string :=
  match p with Early => "early" | Mid => "mid" | Late => "late" end.

(** [period.charAt(0).toUpperCase() + period.slice(1)] *)
Definition period_title (p : period) : string :=
  match p with Early => "Early" | Mid => "Mid" | Late => "Late" end.

Definition dayNames : list string :=
  ["Sunday"; "Monday"; "Tuesday"; "Wednesday"; "Thursday"; "Friday"; "Saturday"].

(** [`${dayNames[day]}`] *)
Definition dayName (day : num) : string :=
  match num_key_index day with
  | Some i => nth (Z.to_nat i) dayNames "undefined"
  | None => "undefined"
  end.

(** [Number.parseInt(key)] of the key a number was stored under. *)
Definition parseInt_key (k : num) : num :=
  match k with
  | Fin q => JS.of_Z (Z.quot (Qnum (this q)) (Zpos (Qden (this q))))
  | _ => NaN
  end.

Record DayVolatility : Type := mkDayVolatility {
  day : num;
  dayAvgVolatility : num;
  count : nat;
}.

(** [((item.close - item.open) / item.open) * 100] *)
Definition priceChange (item : MarketData) : num :=
  ((close item - open item) / open item) * n100.

(** [xs.reduce((sum, item) => sum + f(item), 0)] *)
Definition sum_of {A : Type} (f : A -> num) (xs : list A) : num :=
  fold_left (fun sum item => sum + f item) xs n0.

(** [allData[i].volatility] *)
Definition volatility_at (allData : list MarketData) (i : nat) : num :=
  from_option volatility NaN (allData !! i).

(** The loop of the clustering detector: [(clusterCount, inCluster)] after
    the iterations [i = 1 .. allData.length - 1]. *)
Definition clusterLoop (allData : list MarketData) : nat * bool :=
  fold_left
    (fun (state : nat * bool) (i : nat) =>
       let '(clusterCount, inCluster) := state in
       let current := volatility_at allData i in
       let previous := volatility_at allData (i - 1) in
       if (current >? n2) && (previous >? n2) then
         if negb inCluster then (S clusterCount, true) else (clusterCount, inCluster)
       else (clusterCount, false))
    (seq 1 (length allData - 1)) (0%nat, false).

Definition clusterCount (allData : list MarketData) : nat := fst (clusterLoop allData).

Section Detect.
Context `{host : Host}.

(** Weekly patterns: the most volatile day of the week.  [reduce] without an
    initial value throws on an empty array. *)
Definition weeklyPattern (allData : list MarketData) : result (list Pattern) :=
  let weeklyData :=
    fold_left
      (fun acc item =>
         let dayOfWeek := getDay (Date_parse (date item)) in
         group_push num_key_eqb num_key_index acc dayOfWeek item)
      allData [] in
  let weeklyVolatility :=
    List.map
      (fun entry : num * list MarketData =>
         let '(day, dayData) := entry in
         {| day := parseInt_key day;
            dayAvgVolatility := sum_of volatility dayData / JS.of_nat (length dayData);
            count := length dayData |})
      weeklyData in
  match weeklyVolatility with
  | [] => Throw "Reduce of empty array with no initial value"
  | first :: rest =>
      let mostVolatileDay :=
        fold_left
          (fun max current =>
             if dayAvgVolatility current >? dayAvgVolatility max then current else max)
          rest first in
      Ok (if (dayAvgVolatility mostVolatileDay >? n2) && (4 <=? count mostVolatileDay)%nat
          then
            [ {| id := "weekly-volatility";
                 type := Weekly;
                 name := dayName (day mostVolatileDay) +:+ " Volatility";
                 description := "Higher volatility typically occurs on " +:+
                                dayName (day mostVolatileDay) +:+ "s";
                 confidence :=
                   JS.Math_min (JS.of_Z 95)
                     ((JS.of_nat (count mostVolatileDay) / JS.of_nat (length allData))
                      * n100 * JS.of_Z 7);
                 occurrences := count mostVolatileDay;
                 avgImpact := dayAvgVolatility mostVolatileDay;
                 severity :=
                   Some (if dayAvgVolatility mostVolatileDay >? JS.of_Z 3
                         then High else Medium) |} ]
          else [])
  end.

(** Monthly patterns: early, mid and late month. *)
Definition monthlyPatterns (allData : list MarketData) : list Pattern :=
  let monthlyData :=
    fold_left
      (fun acc item =>
         let dayOfMonth := getDate (Date_parse (date item)) in
         let period :=
           if dayOfMonth <=? JS.of_Z 10 then Early
           else if dayOfMonth <=? JS.of_Z 20 then Mid else Late in
         group_push period_eqb (fun _ => None) acc period item)
      allData [] in
  List.flat_map
    (fun entry : period * list MarketData =>
       let '(period, periodData) := entry in
       let avgReturn :=
         if (0 <? length periodData)%nat
         then sum_of priceChange periodData / JS.of_nat (length periodData)
         else n0 in
       if (JS.Math_abs avgReturn >? JS.of_Z 1) && (5 <=? length periodData)%nat then
         [ {| id := "monthly-" +:+ period_key period;
              type := Monthly;
              name := period_title period +:+ "-Month " +:+
                      (if avgReturn >? n0 then "Rally" else "Decline");
              description := period_title period +:+ " month periods show " +:+
                             (if avgReturn >? n0 then "positive" else "negative") +:+
                             " performance tendency";
              confidence :=
                JS.Math_min (JS.of_Z 90)
                  ((JS.of_nat (length periodData) / JS.of_nat (length allData))
                   * n100 * JS.of_Z 3);
              occurrences := length periodData;
              avgImpact := JS.Math_abs avgReturn;
              severity :=
                Some (if JS.Math_abs avgReturn >? JS.of_Z 3 then High
                      else if JS.Math_abs avgReturn >? Fin (qc 3 2) then Medium
                      else Low) |} ]
       else [])
    monthlyData.

End Detect.

(** Volatility clustering. *)
Definition clusteringPattern (allData : list MarketData) : list Pattern :=
  let clusterCount := clusterCount allData in
  if (3 <=? clusterCount)%nat then
    [ {| id := "volatility-clustering";
         type := Volatility;
         name := "Volatility Clustering";
         description := "High volatility periods tend to be followed by more high volatility";
         confidence :=
           JS.Math_min (JS.of_Z 85)
             ((JS.of_nat clusterCount / (JS.of_nat (length allData) / JS.of_Z 10)) * n100);
         occurrences := clusterCount;
         avgImpact :=
           sum_of volatility (List.filter (fun item => volatility item >? n2) allData)
           / JS.of_nat (length (List.filter (fun item => volatility item >? n2) allData));
         severity := Some Medium |} ]
  else [].

(** Volume spikes. *)
Definition volumeSpikesPattern (allData : list MarketData) : list Pattern :=
  let avgVolume := sum_of volume allData / JS.of_nat (length allData) in
  let volumeSpikes := List.filter (fun item => volume item >? avgVolume * n2) allData in
  if (3 <=? length volumeSpikes)%nat then
    [ {| id := "volume-spikes";
         type := Volume;
         name := "Volume Spikes";
         description := "Periodic volume spikes indicate increased market interest";
         confidence :=
           JS.Math_min (JS.of_Z 80)
             ((JS.of_nat (length volumeSpikes) / JS.of_nat (length allData))
              * n100 * JS.of_Z 10);
         occurrences := length volumeSpikes;
         avgImpact :=
           sum_of volume volumeSpikes / JS.of_nat (length volumeSpikes) / avgVolume;
         severity := Some Low |} ]
  else [].

(** Anomaly detection: extreme price movements. *)
Definition anomaliesPattern (allData : list MarketData) : list Pattern :=
  let priceChanges := List.map priceChange allData in
  let avgChange :=
    fold_left (fun sum change => sum + JS.Math_abs change) priceChanges n0
    / JS.of_nat (length priceChanges) in
  let anomalies :=
    List.filter
      (fun item =>
         let change := JS.Math_abs (priceChange item) in
         change >? avgChange * JS.of_Z 3)
      allData in
  if (2 <=? length anomalies)%nat then
    [ {| id := "price-anomalies";
         type := Anomaly;
         name := "Price Anomalies";
         description := "Unusual price movements detected that deviate significantly from normal patterns";
         confidence :=
           JS.Math_min (JS.of_Z 75)
             ((JS.of_nat (length anomalies) / JS.of_nat (length allData))
              * n100 * JS.of_Z 20);
         occurrences := length anomalies;
         avgImpact :=
           sum_of (fun item => JS.Math_abs (priceChange item)) anomalies
           / JS.of_nat (length anomalies);
         severity := Some High |} ]
  else [].

(** The memoised [patterns] of the component. *)
Definition patterns `{host : Host} (historicalData data : list MarketData)
    : result (list Pattern) :=
  let allData := historicalData ++ data in
  if (length allData <? 30)%nat then Ok [] else
  match weeklyPattern allData with
  | Throw message => Throw message
  | Ok weekly =>
      let detectedPatterns :=
        weekly ++ monthlyPatterns allData ++ clusteringPattern allData
        ++ volumeSpikesPattern allData ++ anomaliesPattern allData in
      Ok (sort (fun a b => confidence b - confidence a) detectedPatterns)
  end.

End PatternAnalyzer.

(** * Symbol validation ([lib/binance-api.ts]) *)

Definition is_upper (c : ascii) : bool :=
  (65 <=? nat_of_ascii c)%nat && (nat_of_ascii c <=? 90)%nat.

Fixpoint all_chars (f : ascii -> bool) (s : string) : bool :=
  match s with
  | EmptyString => true
  | String c rest => f c && all_chars f rest
  end.

(** [s] is [[A-Z]{2,10}] followed by [suffix]. *)
Definition upper_then (suffix s : string) : bool :=
  let n := String.length s in
  let k := String.length suffix in
  (k <=? n)%nat
  && String.eqb (substring (n - k) k s) suffix
  && (2 <=? n - k)%nat && (n - k <=? 10)%nat
  && all_chars is_upper (substring 0 (n - k) s).

(** [/^[A-Z]{2,10}USDT?$/.test(symbol)] *)
Definition validateTradingSymbol (symbol : string) : bool :=
  upper_then "USDT" symbol || upper_then "USD" symbol.

(** * The hook ([hooks/use-market-data.ts], [useMarketData]) *)

Module Hook.
Section FetchData.
Context `{host : Host}.
Local Open Scope num_scope.

(** The state the hook returns: [{ data, loading, error }]. *)
Record State : Type := mkState {
  data : list MarketData;
  loading : bool;
  error : option string;
}.

(** [setError(message); setData([])] and, in [finally], [setLoading(false)]. *)
Definition failed (message : string) : State :=
  {| data := []; loading := false; error := Some message |}.

(** [actualStartDate]: thirty days before the month, not before the launch. *)
Definition actualStartDate (month : num) : num :=
  let monthStart := startOfMonth month in
  let extendedStart := subDays monthStart (JS.of_Z 30) in
  if extendedStart >? BINANCE_LAUNCH_DATE then extendedStart else BINANCE_LAUNCH_DATE.

(** One run of [fetchData]: the requests issued and the state it leaves. *)
Definition fetchData (net : request -> response) (symbol : string) (month : num)
    : list request * State :=
  if month <? BINANCE_LAUNCH_DATE then
    ([], failed ("No data available before " +:+ format BINANCE_LAUNCH_DATE "MMMM yyyy"
                 +:+ " (Binance launch date)"))
  else
    let monthStart := startOfMonth month in
    let monthEnd := endOfMonth month in
    let actualStartDate := actualStartDate month in
    let startTime := actualStartDate in
    let endTime := monthEnd in
    if JS.isNaN startTime || JS.isNaN endTime then
      ([], failed "Invalid date calculation")
    else if startTime >=? endTime then
      ([], failed "Start date must be before end date")
    else if String.eqb symbol "" || (String.length symbol <? 6)%nat then
      ([], failed "Invalid trading symbol format")
    else
      let daysDifference := differenceInDays monthEnd actualStartDate in
      if daysDifference >? JS.of_Z 1000 then
        ([], failed "Date range too large. Please select a more recent period.")
      else
        match fetchBinanceKlineData net symbol startTime endTime with
        | (requests, Throw message) => (requests, failed message)
        | (requests, Ok klineData) =>
            if (length klineData =? 0)%nat then
              (requests,
               failed ("No trading data available for " +:+ symbol +:+ " in "
                       +:+ format month "MMMM yyyy"
                       +:+ ". This symbol may not have existed or been trading during this time period."))
            else
              let enhancedData := enhanceVolatilityData klineData in
              let filteredData :=
                List.filter
                  (fun item =>
                     let itemDate := Date_parse (date item) in
                     if JS.isNaN itemDate then false
                     else (itemDate >=? monthStart) && (itemDate <=? monthEnd))
                  enhancedData in
              if (length filteredData =? 0)%nat then
                (requests,
                 failed ("No data available for " +:+ symbol +:+ " in "
                         +:+ format month "MMMM yyyy"
                         +:+ ". The symbol may not have been trading during this period."))
              else
                (requests, {| data := filteredData; loading := false; error := None |})
        end.

End FetchData.
End Hook.

(** * A host to run the models: UTC, decimal literals

    An instance of [Host] precise enough to evaluate the models on concrete
    rows: dates are computed in UTC with the proleptic Gregorian calendar,
    weeks start on Sunday, and strings are parsed as decimal literals without
    exponent or leading white space. *)

Module UTC.

Definition msPerDay : Z := 86400000.

(** Days since the epoch of a civil date, and back. *)
Definition days_from_civil (y m d : Z) : Z :=
  let y := if m <=? 2 then y - 1 else y in
  let era := y / 400 in
  let yoe := y - era * 400 in
  let doy := (153 * (if 2 <? m then m - 3 else m + 9) + 2) / 5 + d - 1 in
  let doe := yoe * 365 + yoe / 4 - yoe / 100 + doy in
  era * 146097 + doe - 719468.

Definition civil_from_days (z : Z) : Z * Z * Z :=
  let z := z + 719468 in
  let era := z / 146097 in
  let doe := z - era * 146097 in
  let yoe := (doe - doe / 1460 + doe / 36524 - doe / 146096) / 365 in
  let doy := doe - (365 * yoe + yoe / 4 - yoe / 100) in
  let mp := (5 * doy + 2) / 153 in
  let d := doy - (153 * mp + 2) / 5 + 1 in
  let m := if mp <? 10 then mp + 3 else mp - 9 in
  ((if m <=? 2 then yoe + era * 400 + 1 else yoe + era * 400), m, d).

(** The integer time value of a valid date. *)
Definition time_of (t : num) : option Z :=
  match t with
  | Fin q => Some (Qfloor (this q))
  | _ => None
  end.

Definition on_time (f : Z -> Z) (t : num) : num :=
  match time_of t with
  | Some ms => JS.of_Z (f ms)
  | None => NaN
  end.

Definition day_of (ms : Z) : Z := ms / msPerDay.
Definition weekday (ms : Z) : Z := (day_of ms + 4) mod 7.

Definition start_of_month (ms : Z) : Z :=
  let '(y, m, _) := civil_from_days (day_of ms) in
  days_from_civil y m 1 * msPerDay.

Definition end_of_month (ms : Z) : Z :=
  let '(y, m, _) := civil_from_days (day_of ms) in
  (if m =? 12 then days_from_civil (y + 1) 1 1 else days_from_civil y (m + 1) 1)
  * msPerDay - 1.

Definition start_of_week (ms : Z) : Z := (day_of ms - weekday ms) * msPerDay.
Definition end_of_week (ms : Z) : Z := start_of_week ms + 7 * msPerDay - 1.

Definition each_week (from to : Z) : list Z :=
  let first := start_of_week from in
  let last := start_of_week to in
  List.map (fun k => first + Z.of_nat k * 7 * msPerDay)
           (seq 0 (Z.to_nat ((last - first) / (7 * msPerDay) + 1))).

(** Decimal digits. *)
Definition digit_of (c : ascii) : option Z :=
  let n := Z.of_nat (nat_of_ascii c) in
  if (48 <=? n) && (n <=? 57) then Some (n - 48) else None.

(** The longest prefix of digits: its value, its length and the rest. *)
Fixpoint digits (s : string) (acc : Z) (len : nat) : Z * nat * string :=
  match s with
  | String c rest =>
      match digit_of c with
      | Some d => digits rest (10 * acc + d) (S len)
      | None => (acc, len, s)
      end
  | EmptyString => (acc, len, s)
  end.

(** A decimal literal at the head of [s]: the number and the rest. *)
Definition decimal_prefix (s : string) : option (num * string) :=
  let '(negative, s) :=
    match s with
    | String "-" rest => (true, rest)
    | String "+" rest => (false, rest)
    | _ => (false, s)
    end in
  let signed (x : num) := if negative then JS.neg x else x in
  if String.prefix "Infinity" s then
    Some (signed PInf, substring 8 (String.length s - 8) s)
  else
    let '(i, ilen, rest) := digits s 0 0 in
    let '(f, flen, rest') :=
      match rest with
      | String "." after => digits after 0 0
      | _ => (0, 0%nat, rest)
      end in
    if (ilen + flen =? 0)%nat then None
    else Some (signed (Fin (Q2Qc ((i * 10 ^ Z.of_nat flen + f) # Z.to_pos (10 ^ Z.of_nat flen)))),
               rest').

Definition parse_float (v : any) : num :=
  match v with
  | ANum n => n
  | AStr s => from_option fst NaN (decimal_prefix s)
  | _ => NaN
  end.

Definition to_number (v : any) : num :=
  match v with
  | Undefined => NaN
  | Null => n0
  | ABool b => if b then JS.of_Z 1 else n0
  | ANum n => n
  | AStr "" => n0
  | AStr s =>
      match decimal_prefix s with
      | Some (n, "") => n
      | _ => NaN
      end
  | _ => NaN
  end.

(** [yyyy-MM-dd] *)
Definition parse_date (s : string) : num :=
  match digits s 0 0 with
  | (y, 4%nat, String "-" s1) =>
      match digits s1 0 0 with
      | (m, 2%nat, String "-" s2) =>
          match digits s2 0 0 with
          | (d, 2%nat, "") =>
              if (1 <=? m) && (m <=? 12) && (1 <=? d) && (d <=? 31)
              then JS.of_Z (days_from_civil y m d * msPerDay) else NaN
          | _ => NaN
          end
      | _ => NaN
      end
  | _ => NaN
  end.

(** Printing. *)
Fixpoint show_digits (fuel : nat) (n : Z) (acc : string) : string :=
  let acc := String (ascii_of_nat (Z.to_nat (48 + n mod 10))) acc in
  match fuel with
  | O => acc
  | S fuel => if n / 10 =? 0 then acc else show_digits fuel (n / 10) acc
  end.

Definition show_Z (n : Z) : string :=
  let digits := show_digits (Z.to_nat (Z.log2 (Z.abs n))) (Z.abs n) "" in
  if n <? 0 then "-" +:+ digits else digits.

Definition pad2 (n : Z) : string := if n <? 10 then "0" +:+ show_Z n else show_Z n.

Definition pad4 (n : Z) : string :=
  if n <? 10 then "000" +:+ show_Z n
  else if n <? 100 then "00" +:+ show_Z n
  else if n <? 1000 then "0" +:+ show_Z n else show_Z n.

Fixpoint trim_zeros (fuel : nat) (n : Z) (width : nat) : Z * nat :=
  match fuel with
  | O => (n, width)
  | S fuel => if n mod 10 =? 0 then trim_zeros fuel (n / 10) (width - 1) else (n, width)
  end.

Fixpoint pad_to (width : nat) (s : string) : string :=
  match width with
  | O => s
  | S w => if (String.length s <? width)%nat then pad_to w ("0" +:+ s) else s
  end.

(** Integers are printed exactly, other rationals with up to six decimals. *)
Definition show_num (x : num) : string :=
  match x with
  | NaN => "NaN"
  | PInf => "Infinity"
  | NInf => "-Infinity"
  | Fin q =>
      let n := Qnum (this q) in
      let d := Zpos (Qden (this q)) in
      let whole := Z.abs n / d in
      let '(frac, width) := trim_zeros 6 ((Z.abs n mod d) * 1000000 / d) 6 in
      (if n <? 0 then "-" else "") +:+ show_Z whole +:+
      (if frac =? 0 then "" else "." +:+ pad_to width (show_Z frac))
  end.

Definition show_any (v : any) : string :=
  match v with
  | Undefined => "undefined"
  | Null => "null"
  | ABool b => if b then "true" else "false"
  | ANum n => show_num n
  | AStr s => s
  | AArr _ => ""
  | AObj _ => "[object Object]"
  end.

Definition monthNames : list string :=
  ["January"; "February"; "March"; "April"; "May"; "June"; "July"; "August";
   "September"; "October"; "November"; "December"].

Definition format_date (t : num) (pattern : string) : string :=
  match time_of t with
  | None => "Invalid Date"
  | Some ms =>
      let '(y, m, d) := civil_from_days (day_of ms) in
      if String.eqb pattern "yyyy-MM-dd" then pad4 y +:+ "-" +:+ pad2 m +:+ "-" +:+ pad2 d
      else if String.eqb pattern "yyyy-MM" then pad4 y +:+ "-" +:+ pad2 m
      else if String.eqb pattern "MMMM yyyy"
           then nth (Z.to_nat (m - 1)) monthNames "" +:+ " " +:+ pad4 y
      else pattern
  end.

#[export] Instance host : Host := {|
  parseFloat := parse_float;
  ToNumber := to_number;
  ToString := show_any;
  num_to_string := show_num;
  Date_parse := parse_date;
  Date_local := fun y m d => JS.of_Z (days_from_civil y (m + 1) d * msPerDay);
  format := format_date;
  startOfMonth := on_time start_of_month;
  endOfMonth := on_time end_of_month;
  startOfWeek := on_time start_of_week;
  endOfWeek := on_time end_of_week;
  subDays := fun t n =>
    match time_of n with
    | Some k => on_time (fun ms => ms - k * msPerDay) t
    | None => NaN
    end;
  differenceInDays := fun a b =>
    match time_of a, time_of b with
    | Some x, Some y => JS.of_Z (Z.quot (x - y) msPerDay)
    | _, _ => NaN
    end;
  eachWeekOfInterval := fun a b =>
    match time_of a, time_of b with
    | Some x, Some y => List.map JS.of_Z (each_week x y)
    | _, _ => []
    end;
  getDay := on_time weekday;
  getDate := on_time (fun ms => snd (civil_from_days (day_of ms)));
  sqrtQ := sqrt_floor;
|}.

End UTC.

(** * The properties the specification states, as predicates

    The sections above follow the source.  The definitions of this section
    follow the words of the specification; the theorems compare the two. *)

Section Predicates.
Local Open Scope num_scope.

(** The price conditions of a daily record: all four prices positive, the
    high at least, and the low at most, both the open and the close. *)
Definition price_conditions (o h l c : num) : bool :=
  (o >? n0) && (h >? n0) && (l >? n0) && (c >? n0)
  && (h >=? JS.Math_max o c) && (l <=? JS.Math_min o c).

Definition prices_valid (r : MarketData) : bool :=
  price_conditions (open r) (high r) (low r) (close r).

(** The metric an alert compares with its threshold: the volatility as it
    is, the absolute value of the performance [(close - open) / open * 100],
    the volume in millions. *)
Definition alert_metric (latest : MarketData) (t : AlertSystem.alert_type) : num :=
  match t with
  | AlertSystem.Volatility => volatility latest
  | AlertSystem.Performance =>
      JS.Math_abs (((close latest - open latest) / open latest) * n100)
  | AlertSystem.Volume => volume latest / JS.of_Z 1000000
  end.

(** The metric satisfies the condition: above is [>], below is [<]. *)
Definition condition_met (latest : MarketData) (alert : AlertSystem.Alert) : bool :=
  match AlertSystem.condition alert with
  | AlertSystem.Above =>
      alert_metric latest (AlertSystem.type alert) >? AlertSystem.threshold alert
  | AlertSystem.Below =>
      alert_metric latest (AlertSystem.type alert) <? AlertSystem.threshold alert
  end.

(** One evaluation: the permission, the clock, the symbol and the data the
    effect runs with. *)
Record evaluation : Type := mkEvaluation {
  ev_granted : bool;
  ev_now : num;
  ev_symbol : string;
  ev_data : list MarketData;
}.

(** Repeated evaluations with no reset, toggle, addition or removal in
    between: all the notifications shown and the alerts at the end. *)
Definition run_evaluations `{host : Host} (steps : list evaluation)
    (alerts : list AlertSystem.Alert)
    : list AlertSystem.Notification * list AlertSystem.Alert :=
  fold_left
    (fun (state : list AlertSystem.Notification * list AlertSystem.Alert) step =>
       let '(shown, alerts) := state in
       let '(notifications, alerts) :=
         AlertSystem.evaluateAlerts (ev_granted step) (ev_now step) (ev_symbol step)
           (ev_data step) alerts in
       (shown ++ notifications, alerts))
    steps ([], alerts).

(** The alerts that have not fired. *)
Definition untriggered1 (alert : AlertSystem.Alert) : nat :=
  if AlertSystem.triggered alert then 0%nat else 1%nat.

Definition untriggered (alerts : list AlertSystem.Alert) : nat :=
  length (List.filter (fun a => negb (AlertSystem.triggered a)) alerts).

(** A number that is finite or +Infinity. *)
Definition finite_or_PInf (x : num) : Prop :=
  match x with Fin _ | PInf => True | _ => False end.

(** The sum and the mean of a sequence of numbers. *)
Definition sum (xs : list num) : num := fold_right JS.add n0 xs.

Definition mean (xs : list num) : num := sum xs / JS.of_nat (length xs).

(** A record of high volatility: above 2 percent. *)
Definition high_volatility (r : MarketData) : bool := volatility r >? n2.

(** For every record but the first: is it high, and the record before it
    too? *)
Fixpoint follows_high (previous : bool) (highs : list bool) : list bool :=
  match highs with
  | [] => []
  | current :: rest => (current && previous) :: follows_high current rest
  end.

Definition high_after_high (allData : list MarketData) : list bool :=
  match List.map high_volatility allData with
  | [] => []
  | first :: rest => follows_high first rest
  end.

(** The lengths of the maximal runs of consecutive [true], [current] being
    the length of the run under way. *)
Fixpoint run_lengths (current : nat) (flags : list bool) : list nat :=
  match flags with
  | [] => if (current =? 0)%nat then [] else [current]
  | true :: rest => run_lengths (S current) rest
  | false :: rest =>
      (if (current =? 0)%nat then [] else [current]) ++ run_lengths 0 rest
  end.

(** One iteration of the loop of the detector, on the flag "high after
    high". *)
Definition cluster_step (state : nat * bool) (flag : bool) : nat * bool :=
  let '(clusterCount, inCluster) := state in
  if flag then
    if negb inCluster then (S clusterCount, true) else (clusterCount, inCluster)
  else (clusterCount, false).

(** One cluster per maximal run of records that are high right after a high
    record. *)
Definition clusters (allData : list MarketData) : nat :=
  length (run_lengths 0 (high_after_high allData)).

(** The pattern the clustering detector is to emit for [clusterCount]
    clusters. *)
Definition clustering_pattern_of (allData : list MarketData) (clusterCount : nat)
    : PatternAnalyzer.Pattern :=
  {| PatternAnalyzer.id := "volatility-clustering";
     PatternAnalyzer.type := PatternAnalyzer.Volatility;
     PatternAnalyzer.name := "Volatility Clustering";
     PatternAnalyzer.description :=
       "High volatility periods tend to be followed by more high volatility";
     PatternAnalyzer.confidence :=
       JS.Math_min (JS.of_Z 85)
         ((JS.of_nat clusterCount / (JS.of_nat (length allData) / JS.of_Z 10)) * n100);
     PatternAnalyzer.occurrences := clusterCount;
     PatternAnalyzer.avgImpact :=
       mean (List.map volatility (List.filter high_volatility allData));
     PatternAnalyzer.severity := Some PatternAnalyzer.Medium |}.

Definition is_volatility_pattern (p : PatternAnalyzer.Pattern) : bool :=
  match PatternAnalyzer.type p with
  | PatternAnalyzer.Volatility => true
  | _ => false
  end.

(** The record's date lies in the week that starts at [weekStart]. *)
Definition in_week `{host : Host} (weekStart : num) (item : MarketData) : bool :=
  (Date_parse (date item) >=? weekStart) && (Date_parse (date item) <=? endOfWeek weekStart).

(** *** The blended volatility *)

(** The last [n] elements. *)
Definition lastn {A : Type} (n : nat) (xs : list A) : list A :=
  drop (length xs - n) xs.

(** The trailing window of up to 7 records that ends at index [i]. *)
Definition trailing_window (data : list MarketData) (i : nat) : list MarketData :=
  lastn 7 (take (S i) data).

(** The closes of the window that are positive numbers. *)
Definition valid_closes (window : list MarketData) : list num :=
  List.filter valid_price (List.map close window).

(** The consecutive returns [(c_k - c_{k-1}) / c_{k-1}]. *)
Fixpoint returns_from (previous : num) (closes : list num) : list num :=
  match closes with
  | [] => []
  | c :: rest => (c - previous) / previous :: returns_from c rest
  end.

Definition returns (closes : list num) : list num :=
  match closes with
  | [] => []
  | first :: rest => returns_from first rest
  end.

(** The population standard deviation. *)
Definition stddev `{host : Host} (xs : list num) : num :=
  let m := mean xs in
  JS.Math_sqrt sqrtQ (mean (List.map (fun x => JS.Math_pow2 (x - m)) xs)).

(** A value that is NaN or infinite counts as 0. *)
Definition finite_or_0 (x : num) : num := if JS.isFinite x then x else n0.

(** The volatility the enhancer is said to give the record [r] at index [i]:
    every NaN or infinite intermediate value counted as 0. *)
Definition claimed_volatility `{host : Host} (data : list MarketData) (i : nat)
    (r : MarketData) : num :=
  let closes := valid_closes (trailing_window data i) in
  let rawVolatility := finite_or_0 (JS.Math_max n0 (volatility r)) in
  if (length closes <? 2)%nat then rawVolatility
  else
    let rollingVolatility := n100 * stddev (returns closes) in
    Fin (qc 6 10) * rawVolatility
    + Fin (qc 4 10) * finite_or_0 (JS.Math_max n0 rollingVolatility).

(** The volatility the enhancer gives: a NaN volatility of the record counts
    as 0, the returns that are NaN or infinite are left out, and a rolling
    volatility that is NaN or infinite counts as 0. *)
Definition rolling_volatility `{host : Host} (closes : list num) : num :=
  let finite_returns := List.filter JS.isFinite (returns closes) in
  match finite_returns with
  | [] => n0
  | _ => finite_or_0 (n100 * stddev finite_returns)
  end.

Definition enhanced_volatility `{host : Host} (data : list MarketData) (i : nat)
    (r : MarketData) : num :=
  let closes := valid_closes (trailing_window data i) in
  let rawVolatility := JS.Math_max n0 (JS.or_zero (volatility r)) in
  if (length closes <? 2)%nat then rawVolatility
  else
    Fin (qc 6 10) * rawVolatility
    + Fin (qc 4 10) * JS.Math_max n0 (rolling_volatility closes).

End Predicates.

(** * Decidable equality, to check concrete runs by computation *)

#[global] Instance num_eq_dec : EqDecision num.
Proof. solve_decision. Defined.

#[global] Instance MarketData_eq_dec : EqDecision MarketData.
Proof. solve_decision. Defined.

#[global] Instance result_eq_dec {A : Type} `{EqDecision A} : EqDecision (result A).
Proof. solve_decision. Defined.

#[global] Instance request_eq_dec : EqDecision request.
Proof. solve_decision. Defined.

#[global] Instance State_eq_dec : EqDecision Hook.State.
Proof. solve_decision. Defined.

#[global] Instance alert_type_eq_dec : EqDecision AlertSystem.alert_type.
Proof. solve_decision. Defined.

#[global] Instance alert_condition_eq_dec : EqDecision AlertSystem.alert_condition.
Proof. solve_decision. Defined.

#[global] Instance Alert_eq_dec : EqDecision AlertSystem.Alert.
Proof. solve_decision. Defined.

#[global] Instance Notification_eq_dec : EqDecision AlertSystem.Notification.
Proof. solve_decision. Defined.

#[global] Instance pattern_type_eq_dec : EqDecision PatternAnalyzer.pattern_type.
Proof. solve_decision. Defined.

#[global] Instance severity_level_eq_dec : EqDecision PatternAnalyzer.severity_level.
Proof. solve_decision. Defined.

#[global] Instance Pattern_eq_dec : EqDecision PatternAnalyzer.Pattern.
Proof. solve_decision. Defined.

Ltac by_compute := apply (bool_decide_unpack _); vm_compute; exact I.

(** * Sample inputs *)

Module Sample.
Local Open Scope string_scope.

(** A raw kline row as Binance sends it: the open time, five decimal
    strings, and six more fields. *)
Definition row (openTime : Z) (o h l c v : string) : any :=
  AArr [ANum (JS.of_Z openTime); AStr o; AStr h; AStr l; AStr c; AStr v;
        ANum (JS.of_Z (openTime + 86399999)); AStr "0"; ANum n0;
        AStr "0"; AStr "0"; AStr "0"].

(** A network that answers every request with the same rows. *)
Definition serve (rows : list any) : request -> response :=
  fun _ => Response true "200" "OK" (Some (AArr rows)).

(** 17 August 2017 and the month around it. *)
Definition aug17 : Z := 1502928000000.
Definition aug01 : num := JS.of_Z 1501545600000.
Definition aug31 : num := JS.of_Z 1504223999999.

Definition august : request :=
  {| req_symbol := "BTCUSDT"; req_interval := "1d";
     req_startTime := aug01; req_endTime := aug31; req_limit := 1000 |}.

(** The first day of BTCUSDT. *)
Definition btc_row : any :=
  row aug17 "4261.48000000" "4485.39000000" "4200.74000000" "4285.08000000"
      "795.15037700".

(** A row whose volume is not a number. *)
Definition no_volume_row : any := row aug17 "1" "2" "1" "1" "n/a".

(** A row whose open and high are ["Infinity"]. *)
Definition infinite_row : any := row aug17 "Infinity" "Infinity" "1" "1" "5".

(** A row with a negative volume. *)
Definition negative_volume_row : any := row aug17 "1" "2" "1" "1" "-5".

(** A record with the given volatility, and the alert of the scenario:
    volatility above 2. *)
Definition day (d : string) (v : num) : MarketData :=
  {| date := d; open := JS.of_Z 100; high := JS.of_Z 102; low := JS.of_Z 98;
     close := JS.of_Z 100; volume := JS.of_Z 1000; volatility := v |}.

Definition alert_above_2 : AlertSystem.Alert :=
  {| AlertSystem.id := "1700000000000";
     AlertSystem.type := AlertSystem.Volatility;
     AlertSystem.condition := AlertSystem.Above;
     AlertSystem.threshold := JS.of_Z 2;
     AlertSystem.enabled := true;
     AlertSystem.triggered := false;
     AlertSystem.lastTriggered := None |}.

(** Thirty days from 1 January 2024: two days at 3 percent, one at 1
    percent, ten times over. *)
Definition history : list MarketData :=
  List.map
    (fun k =>
       day (UTC.format_date (JS.of_Z (1704067200000 + Z.of_nat k * UTC.msPerDay))
              "yyyy-MM-dd")
           (if (k mod 3 <? 2)%nat then JS.of_Z 3 else JS.of_Z 1))
    (seq 0 30).

(** Three days of January 2020, in three different weeks. *)
Definition january : list MarketData :=
  [ day "2020-01-01" (JS.of_Z 1); day "2020-01-05" (JS.of_Z 2);
    day "2020-01-31" (JS.of_Z 3) ].

(** Five days of August 2017: flat days at 100, 110 and 99, a day that
    closes at [Infinity], and a flat day at 100; as rows and as the records
    the fetcher makes of them. *)
Definition flat_row (openTime : Z) (price : string) : any :=
  row openTime price price price price "1000".

Definition infinite_rows : list any :=
  [ flat_row aug17 "100"; flat_row (aug17 + UTC.msPerDay) "110";
    flat_row (aug17 + 2 * UTC.msPerDay) "99";
    row (aug17 + 3 * UTC.msPerDay) "99" "Infinity" "99" "Infinity" "1000";
    flat_row (aug17 + 4 * UTC.msPerDay) "100" ].

Definition flat (d : string) (price : num) : MarketData :=
  {| date := d; open := price; high := price; low := price; close := price;
     volume := JS.of_Z 1000; volatility := n0 |}.

Definition infinite_close : list MarketData :=
  [ flat "2017-08-17" (JS.of_Z 100); flat "2017-08-18" (JS.of_Z 110);
    flat "2017-08-19" (JS.of_Z 99);
    {| date := "2017-08-20"; open := JS.of_Z 99; high := PInf; low := JS.of_Z 99;
       close := PInf; volume := JS.of_Z 1000; volatility := PInf |};
    flat "2017-08-21" (JS.of_Z 100) ].

End Sample.


(** * The rest of [lib/binance-api.ts] *)

Module Api.
Section Api.
Context `{host : Host}.
Local Open Scope num_scope.

(** Calls of [waitIfNeeded] one after the other, at the given times: the
    events of each call and the limiter at the end. *)
Definition run_calls (times : list Z) (rl : RateLimiter.t)
    : list (list RateLimiter.event) * RateLimiter.t :=
  fold_left
    (fun (state : list (list RateLimiter.event) * RateLimiter.t) now =>
       let '(log, rl) := state in
       let '(events, rl) := RateLimiter.waitIfNeeded now rl in
       (log ++ [events], rl))
    times ([], rl).

(** [v[name]] for a name that is no built-in property: [None] when reading
    it throws a TypeError. *)
Definition get_prop (name : string) (v : any) : option any :=
  match v with
  | Undefined | Null => None
  | AObj fields =>
      Some (match List.find (fun kv => String.eqb (fst kv) name) fields with
            | Some kv => snd kv
            | None => Undefined
            end)
  | _ => Some Undefined
  end.

(** [s.endsWith(suffix)] *)
Definition endsWith (suffix s : string) : bool :=
  (String.length suffix <=? String.length s)%nat
  && String.eqb (substring (String.length s - String.length suffix)
                           (String.length suffix) s) suffix.

(** The URL [fetch] is called with: [BINANCE_BASE_URL + endpoint] and the
    search parameters appended to it. *)
Record api_request : Type := mkApiRequest {
  api_url : string;
  api_params : list (string * string);
}.

Definition BINANCE_BASE_URL : string := "https://api.binance.com".
Definition EXCHANGE_INFO : string := "/api/v3/exchangeInfo".

(** [fetchBinanceAPI(endpoint, params)], called at the time [now] with the
    limiter [rl]: what the limiter did, the limiter after the call, the
    requests issued and the parsed body or the error thrown. *)
Definition fetchBinanceAPI (net : api_request -> response) (now : Z)
    (rl : RateLimiter.t) (endpoint : string) (params : list (string * any))
    : list RateLimiter.event * RateLimiter.t * list api_request * result any :=
  let '(events, rl) := RateLimiter.waitIfNeeded now rl in
  let url :=
    {| api_url := BINANCE_BASE_URL +:+ endpoint;
       api_params := List.map (fun kv => (fst kv, ToString (snd kv))) params |} in
  match net url with
  | NetworkError message => (events, rl, [url], Throw message)
  | Response false status statusText json =>
      let errorMessage := "HTTP " +:+ status +:+ ": " +:+ statusText in
      let errorMessage :=
        match json with
        | Some errorData =>
            match get_prop "msg" errorData with
            | Some msg => if truthy msg then ToString msg else errorMessage
            | None => errorMessage
            end
        | None => errorMessage
        end in
      (events, rl, [url], Throw errorMessage)
  | Response true _ _ None => (events, rl, [url], Throw "Unexpected end of JSON input")
  | Response true _ _ (Some body) => (events, rl, [url], Ok body)
  end.

(** The callback of [exchangeInfo.symbols.filter]: [None] when it throws. *)
Definition tradingPair (symbol : any) : option bool :=
  match get_prop "status" symbol with
  | None => None
  | Some (AStr "TRADING") =>
      match get_prop "symbol" symbol with
      | Some (AStr name) => Some (endsWith "USDT" name || endsWith "USDC" name)
      | _ => None
      end
  | Some _ => Some false
  end.

(** [symbols.filter(...)], stopped by the first exception. *)
Fixpoint filterPairs (symbols : list any) : option (list any) :=
  match symbols with
  | [] => Some []
  | symbol :: rest =>
      match tradingPair symbol with
      | None => None
      | Some keep =>
          match filterPairs rest with
          | None => None
          | Some kept => Some (if keep then symbol :: kept else kept)
          end
      end
  end.

(** [symbol.symbol] of an element the filter kept. *)
Definition pairName (symbol : any) : string :=
  match get_prop "symbol" symbol with
  | Some (AStr name) => name
  | _ => ""
  end.

(** The default comparison of [sort] on strings. *)
Definition compareStrings (x y : string) : num :=
  if String.ltb x y then JS.of_Z (-1)
  else if String.ltb y x then JS.of_Z 1 else n0.

(** [getAvailableTradingPairs()]: every exception ends in [[]]. *)
Definition getAvailableTradingPairs (net : api_request -> response) (now : Z)
    (rl : RateLimiter.t)
    : list RateLimiter.event * RateLimiter.t * list api_request * list string :=
  let '(events, rl, requests, exchangeInfo) :=
    fetchBinanceAPI net now rl EXCHANGE_INFO [] in
  let pairs :=
    match exchangeInfo with
    | Throw _ => []
    | Ok exchangeInfo =>
        match get_prop "symbols" exchangeInfo with
        | Some (AArr symbols) =>
            match filterPairs symbols with
            | Some kept => sort compareStrings (List.map pairName kept)
            | None => []
            end
        | _ => []
        end
    end in
  (events, rl, requests, pairs).

(** [calculatePriceChangePercent(current, previous)] *)
Definition calculatePriceChangePercent (current previous : num) : num :=
  if (match previous with Fin q => Qceqb q 0 | _ => false end) then n0
  else ((current - previous) / previous) * n100.

End Api.
End Api.

(** * Comparison dialog ([components/comparison-dialog.tsx]) *)

(** [Math.max(...xs)] and [Math.min(...xs)] *)
Definition Math_max_list (xs : list num) : num := fold_left JS.Math_max xs NInf.
Definition Math_min_list (xs : list num) : num := fold_left JS.Math_min xs PInf.

(** [(((xs[xs.length - 1]?.close || 0) - (xs[0]?.open || 0)) / (xs[0]?.open || 1)) * 100],
    the return both the dialog and the dashboard show. *)
Definition totalReturnOf (xs : list MarketData) : num :=
  (((JS.or_else (Calendar.field_of close (xs !! (length xs - 1)%nat)) n0
     - JS.or_else (Calendar.field_of open (xs !! 0%nat)) n0)
    / JS.or_else (Calendar.field_of open (xs !! 0%nat)) (JS.of_Z 1))
   * n100)%num.

Module Comparison.
Section Comparison.
Context `{host : Host}.
Local Open Scope num_scope.

(** The callback of [klineData.map] in [fetchBinanceData]. *)
Definition parseKline (kline : any) : option MarketData :=
  match kline with
  | AArr fields =>
      if (length fields <? 11)%nat then None else
      let openTime := nth 0 fields Undefined in
      let openPrice := parseFloat (nth 1 fields Undefined) in
      let highPrice := parseFloat (nth 2 fields Undefined) in
      let lowPrice := parseFloat (nth 3 fields Undefined) in
      let closePrice := parseFloat (nth 4 fields Undefined) in
      let volumeValue := parseFloat (nth 5 fields Undefined) in
      if JS.isNaN openPrice || JS.isNaN highPrice || JS.isNaN lowPrice
         || JS.isNaN closePrice || JS.isNaN volumeValue then None else
      let timestamp := ToNumber openTime in
      if JS.isNaN timestamp || (timestamp <=? n0) then None else
      let date := Date_of_time timestamp in
      if JS.isNaN date then None else
      let dailyVolatility :=
        if openPrice >? n0 then ((highPrice - lowPrice) / openPrice) * n100 else n0 in
      Some {| date := format date "yyyy-MM-dd";
              open := openPrice;
              high := highPrice;
              low := lowPrice;
              close := closePrice;
              volume := volumeValue;
              volatility := JS.Math_max n0 dailyVolatility |}
  | _ => None
  end.

(** [fetchBinanceData(symbol, startTime, endTime)] *)
Definition fetchBinanceData (net : request -> response) (symbol : string)
    (startTime endTime : num) : list request * result (list MarketData) :=
  let url := {| req_symbol := symbol; req_interval := "1d";
                req_startTime := startTime; req_endTime := endTime;
                req_limit := 1000 |} in
  match net url with
  | NetworkError message => ([url], Throw message)
  | Response false status _ _ => ([url], Throw ("Binance API error: " +:+ status))
  | Response true _ _ None => ([url], Throw "Unexpected end of JSON input")
  | Response true _ _ (Some (AArr klineData)) =>
      ([url], Ok (filter_not_null (List.map parseKline klineData)))
  | Response true _ _ (Some Null) =>
      ([url], Throw "Cannot read properties of null (reading 'map')")
  | Response true _ _ (Some _) => ([url], Throw "klineData.map is not a function")
  end.

Record Metrics : Type := mkMetrics {
  avgVolatility : num;
  totalVolume : num;
  totalReturn : num;
  maxPrice : num;
  minPrice : num;
  tradingDays : nat;
}.

(** [calculateMetrics(data)]: [null] on no data. *)
Definition calculateMetrics (data : list MarketData) : option Metrics :=
  if (length data =? 0)%nat then None else
  Some {| avgVolatility :=
            fold_left (fun sum item => sum + volatility item) data n0
            / JS.of_nat (length data);
          totalVolume := fold_left (fun sum item => sum + volume item) data n0;
          totalReturn := if (0 <? length data)%nat then totalReturnOf data else n0;
          maxPrice := Math_max_list (List.map high data);
          minPrice := Math_min_list (List.map low data);
          tradingDays := length data |}.

End Comparison.
End Comparison.

(** * Dashboard ([components/data-dashboard.tsx]) *)

Module Dashboard.
Section Dashboard.
Context `{host : Host}.
(** [date.toDateString()] *)
Context (toDateString : num -> string).
Local Open Scope num_scope.

(** [selectedData]: the records of the selected date, else of the selected
    range, else none. *)
Definition selectedData (selectedDate : option num) (selectedRange : option (num * num))
    (data : list MarketData) : list MarketData :=
  match selectedDate, selectedRange with
  | Some selected, _ =>
      List.filter
        (fun item =>
           String.eqb (toDateString (Date_parse (date item))) (toDateString selected))
        data
  | None, Some (start, end_) =>
      List.filter
        (fun item =>
           let itemDate := Date_parse (date item) in
           (itemDate >=? start) && (itemDate <=? end_))
        data
  | None, None => []
  end.

Record Metrics : Type := mkMetrics {
  totalVolume : num;
  avgVolatility : num;
  totalReturn : num;
  maxPrice : num;
  minPrice : num;
  priceRange : num;
  avgPrice : num;
  tradingDays : nat;
}.

(** [aggregatedMetrics] *)
Definition aggregatedMetrics (selectedData : list MarketData) : option Metrics :=
  if (length selectedData =? 0)%nat then None else
  let maxPrice := Math_max_list (List.map high selectedData) in
  let minPrice := Math_min_list (List.map low selectedData) in
  Some {| totalVolume := fold_left (fun sum item => sum + volume item) selectedData n0;
          avgVolatility :=
            fold_left (fun sum item => sum + volatility item) selectedData n0
            / JS.of_nat (length selectedData);
          totalReturn :=
            if (0 <? length selectedData)%nat then totalReturnOf selectedData else n0;
          maxPrice := maxPrice;
          minPrice := minPrice;
          priceRange := maxPrice - minPrice;
          avgPrice :=
            fold_left (fun sum item => sum + (high item + low item) / n2) selectedData n0
            / JS.of_nat (length selectedData);
          tradingDays := length selectedData |}.

End Dashboard.
End Dashboard.

(** * The rest of [components/calendar.tsx] *)

(** Strings as property keys: the canonical decimal strings below 2^32 - 1
    are the integer keys. *)
Fixpoint digits_value (s : string) (acc : Z) : option Z :=
  match s with
  | EmptyString => Some acc
  | String c rest =>
      let n := Z.of_nat (nat_of_ascii c) in
      if (48 <=? n) && (n <=? 57) then digits_value rest (10 * acc + (n - 48))
      else None
  end.

Definition string_key_index (s : string) : option Z :=
  match s with
  | EmptyString => None
  | String "0" EmptyString => Some 0
  | String "0" _ => None
  | _ =>
      match digits_value s 0 with
      | Some v => if v <? 4294967295 then Some v else None
      | None => None
      end
  end.

Module CalendarOps.
Section CalendarOps.
Context `{host : Host}.
(** date-fns: [isFuture], [isSameMonth], [addMonths], [subMonths] *)
Context (isFuture : num -> bool) (isSameMonth : num -> num -> bool)
        (addMonths subMonths : num -> Z -> num).
Local Open Scope num_scope.

(** [format(new Date(item.date), "yyyy-MM")], which throws on an invalid
    date. *)
Definition monthKey (item : MarketData) : result string :=
  if JS.isNaN (Date_parse (date item)) then Throw "Invalid time value"
  else Ok (format (Date_parse (date item)) "yyyy-MM").

(** [monthlyData]: the records grouped under their month.  The keys [format]
    makes are no names of [Object.prototype]. *)
Definition monthlyData (data : list MarketData)
    : result (list (string * list MarketData)) :=
  fold_left
    (fun acc item =>
       match acc, monthKey item with
       | Throw message, _ => Throw message
       | Ok _, Throw message => Throw message
       | Ok acc, Ok month => Ok (group_push String.eqb string_key_index acc month item)
       end)
    data (Ok []).

Record MonthSummary : Type := mkMonthSummary {
  month : string;
  monthData : list MarketData;
  avgVolatility : num;
  totalVolume : num;
  monthPerformance : num;
  monthStart : num;
  monthEnd : num;
  isFutureMonth : bool;
  isPreBinanceMonth : bool;
}.

(** The callback of [Object.entries(monthlyData).map]. *)
Definition monthSummary (entry : string * list MarketData) : MonthSummary :=
  let '(month, monthData) := entry in
  let monthStart := Date_parse (month +:+ "-01") in
  {| month := month;
     monthData := monthData;
     avgVolatility :=
       fold_left (fun sum item => sum + volatility item) monthData n0
       / JS.of_nat (length monthData);
     totalVolume := fold_left (fun sum item => sum + volume item) monthData n0;
     monthPerformance :=
       if (0 <? length monthData)%nat then totalReturnOf monthData else n0;
     monthStart := monthStart;
     monthEnd := endOfMonth monthStart;
     isFutureMonth := isFuture monthStart;
     isPreBinanceMonth := monthStart <? BINANCE_LAUNCH_DATE |}.

Definition monthlyView (data : list MarketData) : result (list MonthSummary) :=
  match monthlyData data with
  | Throw message => Throw message
  | Ok entries => Ok (List.map monthSummary entries)
  end.

(** The click on a month: the range [onRangeSelect] is called with. *)
Definition monthClick (m : MonthSummary) : option (num * num) :=
  if negb (isFutureMonth m || isPreBinanceMonth m)
  then Some (monthStart m, monthEnd m) else None.

(** The click on a week. *)
Definition weekClick (weekStart : num) : option (num * num) :=
  if negb (isFuture weekStart || (weekStart <? BINANCE_LAUNCH_DATE))
  then Some (weekStart, endOfWeek weekStart) else None.

Inductive direction : Type := Prev | Next.

(** [navigateMonth(direction)]: the month [onMonthChange] is called with. *)
Definition navigateMonth (currentMonth : num) (d : direction) : option num :=
  let nextMonth := addMonths currentMonth 1 in
  let isNextMonthFuture := isFuture (startOfMonth nextMonth) in
  let prevMonth := subMonths currentMonth 1 in
  let isPrevMonthTooOld := prevMonth <? BINANCE_LAUNCH_DATE in
  match d with
  | Prev => if negb isPrevMonthTooOld then Some prevMonth else None
  | Next => if negb isNextMonthFuture then Some nextMonth else None
  end.

(** [handleDateClick(date)]: the date [onDateSelect] is called with. *)
Definition handleDateClick (date : num) : option num :=
  if isFuture date || (date <? BINANCE_LAUNCH_DATE) then None else Some date.

Inductive key : Type :=
| ArrowLeft | ArrowRight | ArrowUp | ArrowDown | Escape | OtherKey.

(** What the key handler calls. *)
Inductive callback : Type :=
| PreventDefault
| OnDateSelect (date : option num)
| OnMonthChange (month : num).

Definition msPerDay : num := JS.of_Z (24 * 60 * 60 * 1000).

(** [handleKeyDown(event)] *)
Definition handleKeyDown (selectedDate : option num) (currentMonth : num) (k : key)
    : list callback :=
  match selectedDate with
  | None => []
  | Some selected =>
      let move (newDate : num) :=
        if isFuture newDate || (newDate <? BINANCE_LAUNCH_DATE) then [PreventDefault]
        else
          [PreventDefault; OnDateSelect (Some newDate)]
          ++ (if negb (isSameMonth newDate currentMonth)
              then [OnMonthChange newDate] else []) in
      match k with
      | ArrowLeft => move (Date_of_time (selected - msPerDay))
      | ArrowRight => move (Date_of_time (selected + msPerDay))
      | ArrowUp => move (Date_of_time (selected - JS.of_Z 7 * msPerDay))
      | ArrowDown => move (Date_of_time (selected + JS.of_Z 7 * msPerDay))
      | Escape => [OnDateSelect None]
      | OtherKey => []
      end
  end.

End CalendarOps.
End CalendarOps.

#[global] Instance MonthSummary_eq_dec : EqDecision CalendarOps.MonthSummary.
Proof. solve_decision. Defined.

#[global] Instance callback_eq_dec : EqDecision CalendarOps.callback.
Proof. solve_decision. Defined.

#[global] Instance event_eq_dec : EqDecision RateLimiter.event.
Proof. solve_decision. Defined.

#[global] Instance limiter_eq_dec : EqDecision RateLimiter.t.
Proof. solve_decision. Defined.

#[global] Instance api_request_eq_dec : EqDecision Api.api_request.
Proof. solve_decision. Defined.

(** * The rest of [components/alert-system.tsx] *)

Module AlertOps.
Section AlertOps.
Context `{host : Host}.
Import AlertSystem.

(** The form of a new alert: [{ type, condition, threshold }]. *)
Record NewAlert : Type := mkNewAlert {
  new_type : alert_type;
  new_condition : alert_condition;
  new_threshold : num;
}.

(** [addAlert()], at the time [now]. *)
Definition addAlert (now : num) (newAlert : NewAlert) (alerts : list Alert) : list Alert :=
  alerts ++
  [ {| id := num_to_string now; type := new_type newAlert;
       condition := new_condition newAlert; threshold := new_threshold newAlert;
       enabled := true; triggered := false; lastTriggered := None |} ].

Definition removeAlert (id0 : string) (alerts : list Alert) : list Alert :=
  List.filter (fun alert => negb (String.eqb (id alert) id0)) alerts.

Definition activeAlerts (alerts : list Alert) : list Alert :=
  List.filter (fun alert => enabled alert && triggered alert) alerts.

End AlertOps.
End AlertOps.

(** * The page ([app/page.tsx]): the history for the pattern analysis *)

Module Page.

(** [!error] for [error : string | null] *)
Definition no_error (error : option string) : bool :=
  match error with
  | None => true
  | Some message => String.eqb message ""
  end.

(** The effect on [[loading, error, data]]: [setHistoricalData] with
    [[...prev, ...data].slice(-180)]. *)
Definition accumulate (st : Hook.State) (prev : list MarketData) : list MarketData :=
  if negb (Hook.loading st) && no_error (Hook.error st)
     && (0 <? length (Hook.data st))%nat
  then
    let combined := prev ++ Hook.data st in
    drop (length combined - 180) combined
  else prev.

(** What [PatternAnalyzer] is given: [data] and [historicalData]. *)
Definition analysed `{host : Host} (st : Hook.State) (historicalData : list MarketData)
    : result (list PatternAnalyzer.Pattern) :=
  PatternAnalyzer.patterns historicalData (Hook.data st).

End Page.

(** * The weekly totals on doubles ([components/calendar.tsx])

    The volume of a record is an IEEE-754 double, and the weekly view adds
    doubles.  This module has the reduction of the weekly view on the
    doubles themselves, with the dates handled as in [Calendar]. *)

Module Doubles.
Section Weekly.
Context `{host : Host}.
Local Open Scope num_scope.

(** The fields of a record the weekly totals read: [item.date] and
    [item.volume]. *)
Record Volume : Type := mkVolume {
  date : string;
  volume : float;
}.

(** The test of [data.filter] in the callback of [weeks.map]. *)
Definition in_week (weekStart : num) (item : Volume) : bool :=
  let weekEnd := endOfWeek weekStart in
  let itemDate := Date_parse (date item) in
  (itemDate >=? weekStart) && (itemDate <=? weekEnd).

(** [weekData.reduce((sum, item) => sum + item.volume, 0)] for the week
    that starts at [weekStart]. *)
Definition totalVolume (data : list Volume) (weekStart : num) : float :=
  let weekData := List.filter (in_week weekStart) data in
  fold_left (fun sum item => PrimFloat.add sum (volume item)) weekData 0%float.

(** The [totalVolume] of the weeks of the month view. *)
Definition weeklyTotals (data : list Volume) (currentMonth : num) : list float :=
  List.map (totalVolume data) (Calendar.weeks currentMonth).

End Weekly.

(** The sum of doubles, added in order from 0. *)
Definition total (xs : list float) : float := fold_left PrimFloat.add xs 0%float.

End Doubles.

(** * More predicates and sample inputs *)

(** A number that is at least 0: a non-negative rational or +Infinity. *)
Definition nonneg (x : num) : Prop :=
  match x with
  | Fin q => (0 <= q)%Qc
  | PInf => True
  | _ => False
  end.

(** A positive finite number. *)
Definition positive (x : num) : Prop :=
  match x with
  | Fin q => (0 < q)%Qc
  | _ => False
  end.

(** The cap on the confidence of a pattern, by its type. *)
Definition confidence_cap (t : PatternAnalyzer.pattern_type) : Z :=
  match t with
  | PatternAnalyzer.Weekly => 95
  | PatternAnalyzer.Monthly => 90
  | PatternAnalyzer.Volatility => 85
  | PatternAnalyzer.Volume => 80
  | PatternAnalyzer.Anomaly => 75
  end.

(** A confidence that is a finite number above 0 and at most the cap. *)
Definition confidence_in_range (p : PatternAnalyzer.Pattern) : Prop :=
  match PatternAnalyzer.confidence p with
  | Fin q => (0 < q)%Qc /\ (q <= Qc_of_Z (confidence_cap (PatternAnalyzer.type p)))%Qc
  | _ => False
  end.

(** Patterns in the order of the list: no pattern is more confident than one
    before it. *)
Definition by_confidence (ps : list PatternAnalyzer.Pattern) : Prop :=
  StronglySorted
    (fun a b => (PatternAnalyzer.confidence a >=? PatternAnalyzer.confidence b)%num = true)
    ps.

(** The ids the detectors give their patterns. *)
Definition pattern_ids : list string :=
  ["weekly-volatility"; "monthly-early"; "monthly-mid"; "monthly-late";
   "volatility-clustering"; "volume-spikes"; "price-anomalies"].

(** Patterns with ids among [allowed]. *)
Definition ids_in (allowed : list string) (ps : list PatternAnalyzer.Pattern) : Prop :=
  Forall (fun p => In (PatternAnalyzer.id p) allowed) ps.

(** The days an arrow key moves the selection by. *)
Definition key_days (k : CalendarOps.key) : option Z :=
  match k with
  | CalendarOps.ArrowLeft => Some (-1)
  | CalendarOps.ArrowRight => Some 1
  | CalendarOps.ArrowUp => Some (-7)
  | CalendarOps.ArrowDown => Some 7
  | _ => None
  end.

(** The occurrences a detector asks for before it emits its pattern. *)
Definition occurrences_min (t : PatternAnalyzer.pattern_type) : nat :=
  match t with
  | PatternAnalyzer.Weekly => 4
  | PatternAnalyzer.Monthly => 5
  | PatternAnalyzer.Volatility => 3
  | PatternAnalyzer.Volume => 3
  | PatternAnalyzer.Anomaly => 2
  end.

Module Scenario.
Local Open Scope string_scope.

(** A limiter of two requests per second, empty. *)
Definition two_per_second : RateLimiter.t :=
  {| RateLimiter.requests := []; RateLimiter.maxRequests := 2;
     RateLimiter.timeWindow := 1000 |}.

(** An [exchangeInfo] body: a pair that trades, one that does not, one in
    another quote asset, and a USDC pair. *)
Definition pair (name status : string) : any :=
  AObj [("symbol", AStr name); ("status", AStr status)].

Definition exchangeInfo : any :=
  AObj [("timezone", AStr "UTC");
        ("symbols", AArr [ pair "ETHUSDT" "TRADING"; pair "LUNAUSDT" "BREAK";
                           pair "ETHBTC" "TRADING"; pair "BTCUSDC" "TRADING";
                           pair "BTCUSDT" "TRADING" ])].

Definition api (body : any) : Api.api_request -> response :=
  fun _ => Response true "200" "OK" (Some body).

(** The symbols of the control panel ([components/control-panel.tsx]). *)
Definition CRYPTO_SYMBOLS : list string :=
  ["BTCUSDT"; "ETHUSDT"; "BNBUSDT"; "ADAUSDT"; "SOLUSDT"; "XRPUSDT"; "DOTUSDT";
   "AVAXUSDT"; "MATICUSDT"; "LINKUSDT"; "UNIUSDT"; "LTCUSDT"; "BCHUSDT";
   "XLMUSDT"; "VETUSDT"].

End Scenario.

(** * Properties *)

Section RateLimiterProps.
Import RateLimiter.

Lemma Math_min_fold_le (xs : list Z) (x : Z) :
  fold_left Z.min xs x <= x /\
  (forall y, In y xs -> fold_left Z.min xs x <= y) /\
  (fold_left Z.min xs x = x \/ In (fold_left Z.min xs x) xs).
Proof.
  revert x. induction xs as [|a xs IH]; intros x; simpl.
  - split; [lia|]. split; [tauto | now left].
  - destruct (IH (Z.min x a)) as (H1 & H2 & H3).
    split; [lia|]. split.
    + intros y [<-|Hy]; [lia | now apply H2].
    + destruct H3 as [H3|H3]; [|now right; right].
      rewrite H3. destruct (Z.min_spec x a) as [[_ ->]|[_ ->]]; auto.
Qed.

(** The oldest request of a non-empty queue is its least member. *)
Lemma Math_min_spec (xs : list Z) :
  xs <> [] ->
  exists o, Math_min xs = Some o /\ In o xs /\ forall y, In y xs -> o <= y.
Proof.
  destruct xs as [|x xs]; [congruence|]. intros _.
  destruct (Math_min_fold_le xs x) as (H1 & H2 & H3).
  exists (fold_left Z.min xs x). split; [reflexivity|]. split.
  - destruct H3 as [->|H3]; [now left | now right].
  - intros y [<-|Hy]; auto.
Qed.

(** C9.  A call keeps the queued timestamps younger than [timeWindow] and
    discards the others, every timestamp older than the window among them.
    When at least [maxRequests] timestamps remain it suspends, for
    [timeWindow - (now - oldest) + 100] milliseconds where [oldest] is the
    least remaining timestamp, and then records [now]; otherwise it records
    [now] without suspending.  The defaults are 1200 requests per 60000 ms. *)
Theorem waitIfNeeded_spec (now : Z) (rl : t) :
  let kept := List.filter (fun time => now - time <? timeWindow rl) (requests rl) in
  (forall time, In time (requests rl) -> timeWindow rl < now - time -> ~ In time kept) /\
  (forall time, In time kept -> In time (requests rl) /\ now - time < timeWindow rl) /\
  requests (snd (waitIfNeeded now rl)) = kept ++ [now] /\
  maxRequests (snd (waitIfNeeded now rl)) = maxRequests rl /\
  timeWindow (snd (waitIfNeeded now rl)) = timeWindow rl /\
  (maxRequests rl <= Z.of_nat (length kept) ->
   fst (waitIfNeeded now rl)
   = [Suspend (option_map (fun oldest => timeWindow rl - (now - oldest) + 100)
                          (Math_min kept));
      Push now]) /\
  (kept <> [] ->
   exists oldest,
     Math_min kept = Some oldest /\ In oldest kept /\
     forall time, In time kept -> oldest <= time) /\
  (Z.of_nat (length kept) < maxRequests rl -> fst (waitIfNeeded now rl) = [Push now]) /\
  maxRequests (new None None) = 1200 /\ timeWindow (new None None) = 60000.
Proof.
  intros kept. unfold waitIfNeeded. fold kept. cbn [fst snd requests maxRequests timeWindow].
  assert (Hkept : forall time, In time kept ->
            In time (requests rl) /\ now - time < timeWindow rl).
  { intros time Hin. apply filter_In in Hin as [Hin Hlt].
    apply Z.ltb_lt in Hlt. auto. }
  split; [intros time _ Hold Hin; apply Hkept in Hin; lia|].
  split; [exact Hkept|].
  do 3 (split; [reflexivity|]).
  split; [|split; [apply Math_min_spec|split; [|split; reflexivity]]].
  - intros Hfull.
    destruct (Z.geb_spec (Z.of_nat (length kept)) (maxRequests rl)); [|lia].
    destruct kept as [|first rest] eqn:E; [reflexivity|].
    destruct (Math_min_spec (first :: rest)) as (o & Ho & Hin & _); [discriminate|].
    rewrite Ho. cbn [option_map].
    apply Hkept in Hin as [_ Hlt].
    destruct (Z.gtb_spec (timeWindow rl - (now - o) + 100) 0); [reflexivity | lia].
  - intros Hfree.
    destruct (Z.geb_spec (Z.of_nat (length kept)) (maxRequests rl)); [lia | reflexivity].
Qed.

(** The scenario of the specification: at most two requests per second; a
    third call 10 ms after the first suspends for 1090 ms. *)
Lemma waitIfNeeded_spec_witness :
  let rl := {| requests := [1000; 1005]; maxRequests := 2; timeWindow := 1000 |} in
  (maxRequests rl <= 2) /\
  fst (waitIfNeeded 1010 rl) = [Suspend (Some 1090); Push 1010] /\
  requests (snd (waitIfNeeded 1010 rl)) = [1000; 1005; 1010].
Proof.
  intros rl.
  assert (Hfull : maxRequests rl <= 2) by (simpl; lia).
  split; [exact Hfull|].
  destruct (waitIfNeeded_spec 1010 rl) as (_ & _ & Hrequests & _ & _ & Hsuspend & _).
  split; [exact (Hsuspend Hfull) | exact Hrequests].
Defined.

End RateLimiterProps.

(** ** Numbers: comparisons *)

Section NumFacts.
Local Open Scope num_scope.

Lemma Qcltb_lt (x y : Qc) : Qcltb x y = true <-> (x < y)%Qc.
Proof.
  unfold Qcltb. rewrite Qclt_alt.
  destruct (x ?= y)%Qc; split; congruence.
Qed.

Lemma Qcleb_le (x y : Qc) : Qcleb x y = true <-> (x <= y)%Qc.
Proof.
  unfold Qcleb. rewrite Qcle_alt.
  destruct (x ?= y)%Qc; split; congruence.
Qed.

Lemma Qceqb_eq (x y : Qc) : Qceqb x y = true <-> x = y.
Proof.
  unfold Qceqb. rewrite Qceq_alt.
  destruct (x ?= y)%Qc; split; congruence.
Qed.

Lemma Qcleb_false_lt (x y : Qc) : Qcleb x y = false <-> (y < x)%Qc.
Proof.
  split.
  - intros H. apply Qcnot_le_lt. intros Hle. apply Qcleb_le in Hle. congruence.
  - intros H. destruct (Qcleb x y) eqn:E; [|reflexivity].
    apply Qcleb_le in E. now apply Qclt_not_le in H.
Qed.

Lemma Qcltb_false_le (x y : Qc) : Qcltb x y = false <-> (y <= x)%Qc.
Proof.
  split.
  - intros H. apply Qcnot_lt_le. intros Hlt. apply Qcltb_lt in Hlt. congruence.
  - intros H. destruct (Qcltb x y) eqn:E; [|reflexivity].
    apply Qcltb_lt in E. now apply Qcle_not_lt in H.
Qed.

(** A comparison that holds involves no NaN. *)
Lemma ltb_not_NaN (x y : num) :
  (x <? y) = true -> JS.isNaN x = false /\ JS.isNaN y = false.
Proof. destruct x, y; simpl; intros; split; congruence. Qed.

Lemma leb_not_NaN (x y : num) :
  (x <=? y) = true -> JS.isNaN x = false /\ JS.isNaN y = false.
Proof. destruct x, y; simpl; intros; split; congruence. Qed.

(** On numbers that are not NaN the order is total. *)
Lemma leb_false_gtb (x y : num) :
  JS.isNaN x = false -> JS.isNaN y = false ->
  (x <=? y) = false -> (x >? y) = true.
Proof.
  destruct x, y; simpl; intros; try congruence.
  apply Qcltb_lt. now apply Qcleb_false_lt.
Qed.

Lemma ltb_false_geb (x y : num) :
  JS.isNaN x = false -> JS.isNaN y = false ->
  (x <? y) = false -> (x >=? y) = true.
Proof.
  destruct x, y; simpl; intros; try congruence.
  apply Qcleb_le. now apply Qcltb_false_le.
Qed.

Lemma ltb_leb_false (x y : num) : (x <? y) = true -> (y <=? x) = false.
Proof.
  destruct x, y; simpl; intros; try congruence.
  apply Qcleb_false_lt. now apply Qcltb_lt.
Qed.

Lemma ltb_leb (x y : num) : (x <? y) = true -> (x <=? y) = true.
Proof.
  destruct x, y; simpl; intros; try congruence.
  apply Qcleb_le, Qclt_le_weak. now apply Qcltb_lt.
Qed.

Lemma ltb_trans (x y z : num) :
  (x <? y) = true -> (y <? z) = true -> (x <? z) = true.
Proof.
  destruct x, y, z; simpl; intros Hxy Hyz; try congruence.
  apply Qcltb_lt. apply Qcltb_lt in Hxy, Hyz. eapply Qclt_trans; eauto.
Qed.

Lemma gtb_n0_truthy (x : num) : (x >? n0) = true -> JS.falsy x = false.
Proof.
  destruct x; simpl; intros H; try congruence.
  apply Qcltb_lt in H. destruct (Qceqb q 0) eqn:E; [|reflexivity].
  apply Qceqb_eq in E. subst q. now apply Qclt_not_eq in H.
Qed.

Lemma Math_max_NaN (x y : num) :
  JS.isNaN (JS.Math_max x y) = JS.isNaN x || JS.isNaN y.
Proof. destruct x, y; simpl; try reflexivity; now destruct (Qcltb _ _). Qed.

Lemma Math_min_NaN (x y : num) :
  JS.isNaN (JS.Math_min x y) = JS.isNaN x || JS.isNaN y.
Proof. destruct x, y; simpl; try reflexivity; now destruct (Qcltb _ _). Qed.

(** [Math.max(0, x)] is never negative, and is at least 0 unless [x] is NaN. *)
Lemma Math_max_n0_not_neg (x : num) : (JS.Math_max n0 x <? n0) = false.
Proof.
  destruct x as [| |q|]; simpl; try reflexivity.
  destruct (Qcltb 0 q) eqn:E; simpl.
  - apply Qcltb_false_le, Qclt_le_weak. now apply Qcltb_lt.
  - reflexivity.
Qed.

Lemma Math_max_n0_geb (x : num) :
  JS.isNaN x = false -> (JS.Math_max n0 x >=? n0) = true.
Proof.
  destruct x as [| |q|]; simpl; try congruence; try reflexivity; intros _.
  destruct (Qcltb 0 q) eqn:E; simpl.
  - apply Qcleb_le, Qclt_le_weak. now apply Qcltb_lt.
  - reflexivity.
Qed.

End NumFacts.

(** ** Kline fetcher *)

Section FetcherProps.
Context `{host : Host}.
Local Open Scope num_scope.

(** What a row that is kept went through. *)
Lemma parseKline_Some (kline : any) (r : MarketData) :
  parseKline kline = Some r ->
  exists fields,
    kline = AArr fields /\ (11 <= length fields)%nat /\
    open r = parseFloat (nth 1 fields Undefined) /\
    high r = parseFloat (nth 2 fields Undefined) /\
    low r = parseFloat (nth 3 fields Undefined) /\
    close r = parseFloat (nth 4 fields Undefined) /\
    volume r = parseFloat (nth 5 fields Undefined) /\
    JS.isNaN (volume r) = false /\
    prices_valid r = true /\
    volatility r =
      JS.Math_max n0 (((high r - low r) / open r) * n100) /\
    (Date_of_time (ToNumber (nth 0 fields Undefined)) <? BINANCE_LAUNCH_DATE) = false.
Proof.
  unfold parseKline. destruct kline as [| | | | |fields|]; try discriminate.
  destruct (length fields <? 11)%nat eqn:Hlen; [discriminate|].
  apply Nat.ltb_ge in Hlen.
  set (o := parseFloat (nth 1 fields Undefined)).
  set (h := parseFloat (nth 2 fields Undefined)).
  set (l := parseFloat (nth 3 fields Undefined)).
  set (c := parseFloat (nth 4 fields Undefined)).
  set (v := parseFloat (nth 5 fields Undefined)).
  destruct (JS.isNaN o || JS.isNaN h || JS.isNaN l || JS.isNaN c || JS.isNaN v)
    eqn:Hnan; [discriminate|].
  repeat (apply orb_false_iff in Hnan as [Hnan ?]).
  destruct ((o <=? n0) || (h <=? n0) || (l <=? n0) || (c <=? n0)) eqn:Hpos;
    [discriminate|].
  repeat (apply orb_false_iff in Hpos as [Hpos ?]).
  destruct ((h <? JS.Math_max o c) || (l >? JS.Math_min o c)) eqn:Hrel;
    [discriminate|].
  apply orb_false_iff in Hrel as [Hhi Hlo].
  destruct (JS.isNaN (ToNumber (nth 0 fields Undefined))
            || (ToNumber (nth 0 fields Undefined) <=? n0)); [discriminate|].
  destruct (JS.isNaN (Date_of_time (ToNumber (nth 0 fields Undefined))));
    [discriminate|].
  destruct (Date_of_time (ToNumber (nth 0 fields Undefined)) <? BINANCE_LAUNCH_DATE)
    eqn:Hlaunch; [discriminate|].
  assert (Ho : (o >? n0) = true) by (apply leb_false_gtb; auto).
  assert (Hprices : price_conditions o h l c = true).
  { unfold price_conditions.
    assert (Hmax : JS.isNaN (JS.Math_max o c) = false)
      by (rewrite Math_max_NaN, Hnan; simpl; assumption).
    assert (Hmin : JS.isNaN (JS.Math_min o c) = false)
      by (rewrite Math_min_NaN, Hnan; simpl; assumption).
    rewrite Ho.
    rewrite !(leb_false_gtb _ n0) by auto.
    rewrite (ltb_false_geb h (JS.Math_max o c)) by auto.
    unfold JS.gtb in Hlo.
    destruct (l <=? JS.Math_min o c) eqn:E; [reflexivity|].
    apply leb_false_gtb in E; auto. unfold JS.gtb in E. congruence. }
  assert (Hvol : JS.Math_max n0 (if o >? n0 then ((h - l) / o) * n100 else n0)
                 = JS.Math_max n0 (((h - l) / o) * n100)) by now rewrite Ho.
  intros Heq. injection Heq as <-.
  exists fields.
  split; [reflexivity|]. split; [exact Hlen|].
  do 5 (split; [reflexivity|]).
  split; [assumption|]. split; [exact Hprices|]. split; [exact Hvol|exact Hlaunch].
Qed.

(** The records of a successful fetch are the rows that were kept. *)
Lemma fetch_Ok_rows net symbol startTime endTime requests records :
  fetchBinanceKlineData net symbol startTime endTime = (requests, Ok records) ->
  Forall (fun r => exists kline, parseKline kline = Some r) records.
Proof.
  unfold fetchBinanceKlineData.
  destruct (_ || _ || _); [discriminate|].
  destruct (endTime <? BINANCE_LAUNCH_DATE); [intros [= <- <-]; constructor|].
  destruct (_ || _); [discriminate|].
  destruct (net _) as [message|[|] status statusText [body|]]; try discriminate.
  destruct body as [| | | | |klineData|]; try discriminate.
  destruct (length klineData =? 0)%nat; intros [= <- <-]; [constructor|].
  apply Forall_forall. intros r Hin.
  apply list_elem_of_In in Hin. unfold filter_not_null in Hin.
  apply list_elem_of_omap in Hin as (y & Hy & Hid).
  apply list_elem_of_In, in_map_iff in Hy as (kline & <- & _).
  exists kline. exact Hid.
Qed.

End FetcherProps.

Section FetcherClaims.
Context `{host : Host}.
Local Open Scope num_scope.

(** C4.  A fetch over a well-formed range that ends before the launch date
    returns the empty sequence of records: no request reaches the network
    and nothing is thrown. *)
Theorem fetch_before_launch (net : request -> response) (symbol : string)
    (startTime endTime : num) :
  (n0 <? startTime) = true ->
  (startTime <? endTime) = true ->
  (endTime <? BINANCE_LAUNCH_DATE) = true ->
  fetchBinanceKlineData net symbol startTime endTime = ([], Ok []).
Proof.
  intros Hpos Hlt Hlaunch. unfold fetchBinanceKlineData.
  assert (Hend : (n0 <? endTime) = true) by (eapply ltb_trans; eauto).
  rewrite (gtb_n0_truthy startTime Hpos), (gtb_n0_truthy endTime Hend).
  unfold JS.geb. rewrite (ltb_leb_false _ _ Hlt). simpl.
  now rewrite Hlaunch.
Qed.

(** The volatility of a kept row is a number when its open is finite. *)
Lemma dailyVolatility_not_NaN (o h l c : num) :
  price_conditions o h l c = true -> JS.isFinite o = true ->
  JS.isNaN (((h - l) / o) * n100) = false.
Proof.
  unfold price_conditions. intros H Hfin.
  repeat (apply andb_true_iff in H as [H ?]).
  destruct o as [| |o|]; try discriminate.
  destruct l as [| |l|]; try discriminate.
  2:{ destruct c; simpl in *; try discriminate;
      match goal with
      | H : context [Qcltb ?a ?b] |- _ => destruct (Qcltb a b); discriminate
      end. }
  assert (Ho : Qceqb o 0 = false).
  { destruct (Qceqb o 0) eqn:E; [|reflexivity]. apply Qceqb_eq in E. subst o.
    discriminate. }
  destruct h as [| |h|]; try discriminate;
    unfold JS.sub, JS.neg, JS.add, JS.div.
  - now rewrite Ho.
  - assert (Hneg : Qcltb o 0 = false).
    { apply Qcltb_false_le, Qclt_le_weak. now apply Qcltb_lt. }
    rewrite Hneg. reflexivity.
Qed.

(** C2, as the code has it.  Every record a fetch returns has positive open,
    high, low and close, a high that is at least, and a low that is at most,
    both its open and its close; its volatility is never negative and is at
    least 0 when its open is finite.  A raw row whose parsed prices break one
    of the price conditions is discarded. *)
Theorem fetched_records_valid (net : request -> response) (symbol : string)
    (startTime endTime : num) (requests : list request) (records : list MarketData) :
  fetchBinanceKlineData net symbol startTime endTime = (requests, Ok records) ->
  Forall (fun r =>
            prices_valid r = true /\
            (volatility r <? n0) = false /\
            (JS.isFinite (open r) = true -> (volatility r >=? n0) = true))
         records /\
  (forall fields,
     price_conditions (parseFloat (nth 1 fields Undefined))
                      (parseFloat (nth 2 fields Undefined))
                      (parseFloat (nth 3 fields Undefined))
                      (parseFloat (nth 4 fields Undefined)) = false ->
     parseKline (AArr fields) = None).
Proof.
  intros Hfetch. split.
  - eapply Forall_impl; [|exact (fetch_Ok_rows _ _ _ _ _ _ Hfetch)].
    intros r (kline & Hrow).
    apply parseKline_Some in Hrow
      as (fields & _ & _ & _ & _ & _ & _ & _ & _ & Hvalid & Hvol & _).
    split; [exact Hvalid|]. rewrite Hvol. split.
    + apply Math_max_n0_not_neg.
    + intros Hfin. apply Math_max_n0_geb.
      now apply (dailyVolatility_not_NaN _ _ _ (close r)).
  - intros fields Hbad.
    destruct (parseKline (AArr fields)) as [r|] eqn:Hrow; [|reflexivity].
    apply parseKline_Some in Hrow
      as (fields' & [= <-] & _ & Ho & Hh & Hl & Hc & _ & _ & Hvalid & _).
    unfold prices_valid in Hvalid. rewrite Ho, Hh, Hl, Hc in Hvalid. congruence.
Qed.

(** C3, as the code has it.  The volume of every record a fetch returns is a
    number: a raw row whose volume does not parse to a number is discarded.
    The sign of the volume is not looked at. *)
Theorem fetched_volume_is_number (net : request -> response) (symbol : string)
    (startTime endTime : num) (requests : list request) (records : list MarketData) :
  fetchBinanceKlineData net symbol startTime endTime = (requests, Ok records) ->
  Forall (fun r => JS.isNaN (volume r) = false) records /\
  (forall fields,
     JS.isNaN (parseFloat (nth 5 fields Undefined)) = true ->
     parseKline (AArr fields) = None).
Proof.
  intros Hfetch. split.
  - eapply Forall_impl; [|exact (fetch_Ok_rows _ _ _ _ _ _ Hfetch)].
    intros r (kline & Hrow).
    now apply parseKline_Some in Hrow
      as (fields & _ & _ & _ & _ & _ & _ & _ & Hnum & _).
  - intros fields Hbad.
    destruct (parseKline (AArr fields)) as [r|] eqn:Hrow; [|reflexivity].
    apply parseKline_Some in Hrow
      as (fields' & [= <-] & _ & _ & _ & _ & _ & Hv & Hnum & _).
    rewrite Hv in Hnum. congruence.
Qed.

End FetcherClaims.

Section FetcherRuns.
#[local] Existing Instance UTC.host.

(** The launch date in UTC. *)
Example BINANCE_LAUNCH_DATE_utc : BINANCE_LAUNCH_DATE = JS.of_Z 1498867200000.
Proof. reflexivity. Qed.

Example format_launch : format BINANCE_LAUNCH_DATE "yyyy-MM-dd" = "2017-07-01".
Proof. reflexivity. Qed.

(** A range in 2001 ends before the launch: nothing is requested. *)
Lemma fetch_before_launch_witness :
  (n0 <? JS.of_Z 1000000000000)%num = true /\
  (JS.of_Z 1000000000000 <? JS.of_Z 1000086400000)%num = true /\
  (JS.of_Z 1000086400000 <? BINANCE_LAUNCH_DATE)%num = true /\
  fetchBinanceKlineData (Sample.serve [Sample.infinite_row])
    "BTCUSDT" (JS.of_Z 1000000000000) (JS.of_Z 1000086400000) = ([], Ok []).
Proof.
  do 3 (split; [reflexivity|]).
  apply fetch_before_launch; reflexivity.
Defined.

(** A day of August 2017 as Binance reports it. *)
Lemma fetched_records_valid_witness :
  let records :=
    [ {| date := "2017-08-17"; open := Fin (qc 426148 100); high := Fin (qc 448539 100);
         low := Fin (qc 420074 100); close := Fin (qc 428508 100);
         volume := Fin (qc 795150377 1000000);
         volatility := Fin (qc 2846500 426148) |} ] in
  fetchBinanceKlineData (host := UTC.host)
    (Sample.serve [Sample.btc_row; AArr []]) "BTCUSDT" Sample.aug01 Sample.aug31
  = ([Sample.august], Ok records) /\
  Forall (fun r =>
            prices_valid r = true /\
            (volatility r <? n0)%num = false /\
            (JS.isFinite (open r) = true -> (volatility r >=? n0)%num = true))
         records.
Proof.
  intros records.
  assert (H : fetchBinanceKlineData (host := UTC.host)
                (Sample.serve [Sample.btc_row; AArr []]) "BTCUSDT"
                Sample.aug01 Sample.aug31
              = ([Sample.august], Ok records)) by by_compute.
  split; [exact H|]. exact (proj1 (fetched_records_valid _ _ _ _ _ _ H)).
Defined.

Lemma fetched_volume_is_number_witness :
  let records :=
    [ {| date := "2017-08-17"; open := Fin (qc 426148 100); high := Fin (qc 448539 100);
         low := Fin (qc 420074 100); close := Fin (qc 428508 100);
         volume := Fin (qc 795150377 1000000);
         volatility := Fin (qc 2846500 426148) |} ] in
  fetchBinanceKlineData (host := UTC.host)
    (Sample.serve [Sample.btc_row; Sample.no_volume_row]) "BTCUSDT"
    Sample.aug01 Sample.aug31
  = ([Sample.august], Ok records) /\
  Forall (fun r => JS.isNaN (volume r) = false) records.
Proof.
  intros records.
  assert (H : fetchBinanceKlineData (host := UTC.host)
                (Sample.serve [Sample.btc_row; Sample.no_volume_row]) "BTCUSDT"
                Sample.aug01 Sample.aug31
              = ([Sample.august], Ok records)) by by_compute.
  split; [exact H|]. exact (proj1 (fetched_volume_is_number _ _ _ _ _ _ H)).
Defined.

(** C2 as stated fails: a row whose open and high are ["Infinity"] passes
    every check and is returned with the volatility NaN, which is not at
    least 0. *)
Lemma fetched_volatility_NaN :
  fetchBinanceKlineData (Sample.serve [Sample.infinite_row])
    "BTCUSDT" Sample.aug01 Sample.aug31
  = ([Sample.august],
     Ok [ {| date := "2017-08-17"; open := PInf; high := PInf;
             low := JS.of_Z 1; close := JS.of_Z 1; volume := JS.of_Z 5;
             volatility := NaN |} ]) /\
  (NaN >=? n0)%num = false.
Proof. split; [by_compute | reflexivity]. Qed.

(** C3 as stated fails: a row with the volume ["-5"] is returned, with the
    volume -5. *)
Lemma fetched_negative_volume :
  fetchBinanceKlineData (Sample.serve [Sample.negative_volume_row])
    "BTCUSDT" Sample.aug01 Sample.aug31
  = ([Sample.august],
     Ok [ {| date := "2017-08-17"; open := JS.of_Z 1; high := JS.of_Z 2;
             low := JS.of_Z 1; close := JS.of_Z 1; volume := JS.of_Z (-5);
             volatility := JS.of_Z 100 |} ]) /\
  (JS.of_Z (-5) >=? n0)%num = false.
Proof. split; [by_compute | reflexivity]. Qed.

End FetcherRuns.

(** ** The hook: input errors *)

Section HookProps.
Context `{host : Host}.
Local Open Scope num_scope.
Import Hook.

(** C8, as the code has it.  A run of [fetchData] whose symbol has fewer
    than six characters (the empty symbol among them), or whose range from
    the start date to the end of the month is more than 1000 days, ends in
    the error state with a message, and issues no request at all: none
    before the error and none after. *)
Theorem fetchData_input_error (net : request -> response) (symbol : string)
    (month : num) :
  (String.length symbol < 6)%nat \/
  (differenceInDays (endOfMonth month) (actualStartDate month) >? JS.of_Z 1000) = true ->
  exists message,
    message <> "" /\ fetchData net symbol month = ([], failed message).
Proof.
  intros Hbad. unfold fetchData.
  destruct (month <? BINANCE_LAUNCH_DATE);
    [eexists; split; [|reflexivity]; discriminate|].
  destruct (JS.isNaN (actualStartDate month) || JS.isNaN (endOfMonth month));
    [eexists; split; [|reflexivity]; discriminate|].
  destruct (actualStartDate month >=? endOfMonth month);
    [eexists; split; [|reflexivity]; discriminate|].
  destruct (String.eqb symbol "" || (String.length symbol <? 6)%nat) eqn:Hsym;
    [eexists; split; [|reflexivity]; discriminate|].
  apply orb_false_iff in Hsym as [_ Hlen]. apply Nat.ltb_ge in Hlen.
  destruct Hbad as [Hshort|Hlong]; [lia|].
  rewrite Hlong. eexists; split; [|reflexivity]; discriminate.
Qed.

End HookProps.

Section HookRuns.
#[local] Existing Instance UTC.host.

(** A five-letter symbol in August 2017. *)
Lemma fetchData_input_error_witness :
  ((String.length "BTCUS" < 6)%nat \/
   (differenceInDays (endOfMonth (JS.of_Z Sample.aug17))
      (Hook.actualStartDate (JS.of_Z Sample.aug17))
    >? JS.of_Z 1000)%num = true) /\
  exists message,
    message <> "" /\
    Hook.fetchData (Sample.serve [Sample.btc_row]) "BTCUS"
      (JS.of_Z Sample.aug17) = ([], Hook.failed message).
Proof.
  assert (H : (String.length "BTCUS" < 6)%nat \/
              (differenceInDays (endOfMonth (JS.of_Z Sample.aug17))
                 (Hook.actualStartDate (JS.of_Z Sample.aug17))
               >? JS.of_Z 1000)%num = true) by (left; simpl; lia).
  split; [exact H|].
  exact (fetchData_input_error (Sample.serve [Sample.btc_row]) "BTCUS"
           (JS.of_Z Sample.aug17) H).
Defined.

(** C8 as stated fails: ETHBTC does not match [[A-Z]{2,10}USDT?], and the
    hook sends the request all the same. *)
Lemma fetchData_unmatched_symbol :
  validateTradingSymbol "ETHBTC" = false /\
  Hook.fetchData (Sample.serve [Sample.btc_row]) "ETHBTC"
    (JS.of_Z Sample.aug17)
  = ([ {| req_symbol := "ETHBTC"; req_interval := "1d";
          req_startTime := JS.of_Z 1498953600000;
          req_endTime := Sample.aug31; req_limit := 1000 |} ],
     {| Hook.data :=
          [ {| date := "2017-08-17"; open := Fin (qc 426148 100);
               high := Fin (qc 448539 100); low := Fin (qc 420074 100);
               close := Fin (qc 428508 100); volume := Fin (qc 795150377 1000000);
               volatility := Fin (qc 2846500 426148) |} ];
        Hook.loading := false; Hook.error := None |}).
Proof. split; [reflexivity | by_compute]. Qed.

End HookRuns.

(** ** Alert evaluation *)

Section AlertProps.
Context `{host : Host}.
Local Open Scope num_scope.
Import AlertSystem.

(** The test of the code is the condition of the specification. *)
Lemma shouldTrigger_condition_met (latest : MarketData) (alert : Alert) :
  shouldTrigger latest alert = condition_met latest alert.
Proof.
  unfold shouldTrigger, condition_met, currentValue, alert_metric.
  now destruct (condition alert), (type alert).
Qed.

Lemma untriggered_cons (alert : Alert) (alerts : list Alert) :
  untriggered (alert :: alerts) = (untriggered1 alert + untriggered alerts)%nat.
Proof. unfold untriggered, untriggered1. simpl. now destruct (triggered alert). Qed.

(** An evaluation shows a notification only for an alert it moves from
    untriggered to triggered. *)
Lemma evaluateAlert_count granted now symbol latest alert :
  (length (fst (evaluateAlert granted now symbol latest alert))
   + untriggered1 (snd (evaluateAlert granted now symbol latest alert))
   <= untriggered1 alert)%nat.
Proof.
  unfold evaluateAlert, untriggered1.
  destruct (triggered alert) eqn:Ht, (enabled alert),
    (shouldTrigger latest alert), granted; simpl; rewrite ?Ht; lia.
Qed.

Lemma evaluateAlerts_count granted now symbol data alerts :
  (length (fst (evaluateAlerts granted now symbol data alerts))
   + untriggered (snd (evaluateAlerts granted now symbol data alerts))
   <= untriggered alerts)%nat.
Proof.
  unfold evaluateAlerts.
  destruct (data !! (length data - 1)%nat) as [latest|]; simpl; [|lia].
  induction alerts as [|alert alerts IH]; simpl; [lia|].
  rewrite length_app, !untriggered_cons.
  pose proof (evaluateAlert_count granted now symbol latest alert). lia.
Qed.

Lemma run_evaluations_count (steps : list evaluation) :
  forall shown alerts,
    let final :=
      fold_left
        (fun (state : list Notification * list Alert) step =>
           let '(shown, alerts) := state in
           let '(notifications, alerts) :=
             evaluateAlerts (ev_granted step) (ev_now step) (ev_symbol step)
               (ev_data step) alerts in
           (shown ++ notifications, alerts))
        steps (shown, alerts) in
    (length (fst final) + untriggered (snd final)
     <= length shown + untriggered alerts)%nat.
Proof.
  induction steps as [|step steps IH]; intros shown alerts; simpl; [lia|].
  pose proof (evaluateAlerts_count (ev_granted step) (ev_now step) (ev_symbol step)
                (ev_data step) alerts) as Hstep.
  destruct (evaluateAlerts _ _ _ _ alerts) as [notifications alerts'].
  simpl in Hstep. specialize (IH (shown ++ notifications) alerts').
  simpl in IH. rewrite length_app in IH. lia.
Qed.

(** An alert that has fired is returned as it is. *)
Lemma evaluateAlert_triggered granted now symbol latest alert :
  triggered alert = true ->
  evaluateAlert granted now symbol latest alert = ([], alert).
Proof.
  intros Ht. unfold evaluateAlert. rewrite Ht.
  destruct (enabled alert); simpl; [|reflexivity].
  now rewrite andb_false_r.
Qed.

Lemma evaluateAlerts_triggered granted now symbol data alerts i alert :
  alerts !! i = Some alert -> triggered alert = true ->
  snd (evaluateAlerts granted now symbol data alerts) !! i = Some alert.
Proof.
  unfold evaluateAlerts.
  destruct (data !! (length data - 1)%nat) as [latest|]; simpl; [|auto].
  revert i. induction alerts as [|a alerts IH]; intros i Hi Ht; [discriminate|].
  destruct i as [|i]; simpl in *.
  - injection Hi as ->. now rewrite evaluateAlert_triggered.
  - now apply IH.
Qed.

Lemma run_evaluations_triggered (steps : list evaluation) :
  forall shown alerts i alert,
    alerts !! i = Some alert -> triggered alert = true ->
    snd (fold_left
           (fun (state : list Notification * list Alert) step =>
              let '(shown, alerts) := state in
              let '(notifications, alerts) :=
                evaluateAlerts (ev_granted step) (ev_now step) (ev_symbol step)
                  (ev_data step) alerts in
              (shown ++ notifications, alerts))
           steps (shown, alerts)) !! i = Some alert.
Proof.
  induction steps as [|step steps IH]; intros shown alerts i alert Hi Ht; simpl; [exact Hi|].
  pose proof (evaluateAlerts_triggered (ev_granted step) (ev_now step) (ev_symbol step)
                (ev_data step) alerts i alert Hi Ht) as Hstep.
  destruct (evaluateAlerts _ _ _ _ alerts) as [notifications alerts'].
  now apply IH.
Qed.

(** Toggling and resetting keep every alert in its place. *)
Lemma toggleAlert_lookup (id0 : string) (alerts : list Alert) (i : nat) (alert : Alert) :
  alerts !! i = Some alert ->
  toggleAlert id0 alerts !! i
  = Some (if String.eqb (id alert) id0
          then {| id := id alert; type := type alert; condition := condition alert;
                  threshold := threshold alert; enabled := negb (enabled alert);
                  triggered := false; lastTriggered := lastTriggered alert |}
          else alert).
Proof.
  revert i. induction alerts as [|a alerts IH]; intros i Hi; [discriminate|].
  destruct i as [|i]; cbn in Hi |- *.
  - now apply (inj Some) in Hi as ->.
  - now apply IH.
Qed.

Lemma resetAlert_lookup (id0 : string) (alerts : list Alert) (i : nat) (alert : Alert) :
  alerts !! i = Some alert ->
  resetAlert id0 alerts !! i
  = Some (if String.eqb (id alert) id0
          then {| id := id alert; type := type alert; condition := condition alert;
                  threshold := threshold alert; enabled := enabled alert;
                  triggered := false; lastTriggered := lastTriggered alert |}
          else alert).
Proof.
  revert i. induction alerts as [|a alerts IH]; intros i Hi; [discriminate|].
  destruct i as [|i]; cbn in Hi |- *.
  - now apply (inj Some) in Hi as ->.
  - now apply IH.
Qed.

(** C6.  An enabled alert that has not fired and whose metric satisfies its
    condition is set to triggered, with the time, and is notified once
    (when notifications are permitted); an alert that has fired is returned
    unchanged, without a notification.  Over any sequence of evaluations the
    notifications number at most the alerts that had not fired at the start,
    and an alert that had fired stays as it was.  Toggling and resetting
    keep every alert, in its place: the alerts of the given id are still
    there with their triggered flag cleared (and, when toggled, their
    enabled flag inverted), the other alerts are unchanged; and an enabled
    alert that was reset fires again when its metric satisfies its
    condition. *)
Theorem alert_fires_once :
  (forall granted now symbol latest alert,
     enabled alert = true -> triggered alert = false ->
     condition_met latest alert = true ->
     length (fst (evaluateAlert granted now symbol latest alert))
       = (if granted then 1 else 0)%nat /\
     snd (evaluateAlert granted now symbol latest alert)
       = {| id := id alert; type := type alert; condition := condition alert;
            threshold := threshold alert; enabled := true;
            triggered := true; lastTriggered := Some now |}) /\
  (forall granted now symbol latest alert,
     triggered alert = true ->
     evaluateAlert granted now symbol latest alert = ([], alert)) /\
  (forall steps alerts,
     (length (fst (run_evaluations steps alerts)) <= untriggered alerts)%nat /\
     forall i alert,
       alerts !! i = Some alert -> triggered alert = true ->
       snd (run_evaluations steps alerts) !! i = Some alert) /\
  (forall id0 alerts,
     Forall (fun a => id a = id0 -> triggered a = false) (toggleAlert id0 alerts) /\
     Forall (fun a => id a = id0 -> triggered a = false) (resetAlert id0 alerts)) /\
  (forall id0 alerts,
     length (toggleAlert id0 alerts) = length alerts /\
     length (resetAlert id0 alerts) = length alerts /\
     forall i alert,
       alerts !! i = Some alert ->
       toggleAlert id0 alerts !! i
       = Some (if String.eqb (id alert) id0
               then {| id := id alert; type := type alert; condition := condition alert;
                       threshold := threshold alert; enabled := negb (enabled alert);
                       triggered := false; lastTriggered := lastTriggered alert |}
               else alert) /\
       resetAlert id0 alerts !! i
       = Some (if String.eqb (id alert) id0
               then {| id := id alert; type := type alert; condition := condition alert;
                       threshold := threshold alert; enabled := enabled alert;
                       triggered := false; lastTriggered := lastTriggered alert |}
               else alert)) /\
  (forall granted now symbol latest alert,
     enabled alert = true -> condition_met latest alert = true ->
     exists reset,
       resetAlert (id alert) [alert] = [reset] /\
       length (fst (evaluateAlert granted now symbol latest reset))
         = (if granted then 1 else 0)%nat /\
       triggered (snd (evaluateAlert granted now symbol latest reset)) = true /\
       lastTriggered (snd (evaluateAlert granted now symbol latest reset)) = Some now).
Proof.
  assert (Hfire : forall granted now symbol latest alert,
            enabled alert = true -> triggered alert = false ->
            condition_met latest alert = true ->
            length (fst (evaluateAlert granted now symbol latest alert))
              = (if granted then 1 else 0)%nat /\
            snd (evaluateAlert granted now symbol latest alert)
              = {| id := id alert; type := type alert; condition := condition alert;
                   threshold := threshold alert; enabled := true;
                   triggered := true; lastTriggered := Some now |}).
  { intros granted now symbol latest alert He Ht Hc.
    unfold evaluateAlert.
    rewrite He, Ht, shouldTrigger_condition_met, Hc. simpl.
    split; [now destruct granted | reflexivity]. }
  split; [exact Hfire|]. split; [|split; [|split; [|split]]].
  - intros. now apply evaluateAlert_triggered.
  - intros steps alerts. split.
    + pose proof (run_evaluations_count steps [] alerts) as H.
      unfold run_evaluations. simpl in H. lia.
    + intros i alert. apply run_evaluations_triggered.
  - intros id0 alerts. split; apply Forall_forall; intros a Hin Hid;
      apply in_map_iff in Hin as (a0 & <- & _);
      destruct (String.eqb (id a0) id0) eqn:E; try reflexivity;
      apply String.eqb_neq in E; contradiction.
  - intros id0 alerts. split; [apply length_map|]. split; [apply length_map|].
    intros i alert Hi.
    split; [now apply toggleAlert_lookup | now apply resetAlert_lookup].
  - intros granted now symbol latest alert He Hc.
    eexists. split.
    + unfold resetAlert. cbn [List.map]. rewrite String.eqb_refl. reflexivity.
    + destruct (Hfire granted now symbol latest
                  {| id := id alert; type := type alert; condition := condition alert;
                     threshold := threshold alert; enabled := enabled alert;
                     triggered := false; lastTriggered := lastTriggered alert |})
        as [Hshown Hfired]; [exact He | reflexivity | |].
      * unfold condition_met in *. exact Hc.
      * split; [exact Hshown|]. rewrite Hfired. split; reflexivity.
Qed.

End AlertProps.

Section AlertRuns.
#[local] Existing Instance UTC.host.
Import AlertSystem.

(** The scenario of the specification: volatility above 2, a latest record
    at 2.5 and then one at 3.0. *)
Lemma alert_fires_once_witness :
  let alert := Sample.alert_above_2 in
  let first := Sample.day "2024-01-01" (Fin (qc 5 2)) in
  let steps :=
    [ {| ev_granted := true; ev_now := JS.of_Z 1704153600000;
         ev_symbol := "BTCUSDT"; ev_data := [first] |};
      {| ev_granted := true; ev_now := JS.of_Z 1704240000000;
         ev_symbol := "BTCUSDT";
         ev_data := [first; Sample.day "2024-01-02" (JS.of_Z 3)] |} ] in
  (enabled alert = true /\ triggered alert = false /\
   condition_met first alert = true) /\
  (length (fst (evaluateAlert true (JS.of_Z 1704153600000) "BTCUSDT" first alert))
     = 1%nat /\
   snd (evaluateAlert true (JS.of_Z 1704153600000) "BTCUSDT" first alert)
     = {| id := "1700000000000"; type := Volatility; condition := Above;
          threshold := JS.of_Z 2; enabled := true; triggered := true;
          lastTriggered := Some (JS.of_Z 1704153600000) |}) /\
  (length (fst (run_evaluations steps [alert])) <= 1)%nat /\
  run_evaluations steps [alert]
  = ([ {| title := "Market Alert - BTCUSDT"; body := "volatility is above 2%" |} ],
     [ {| id := "1700000000000"; type := Volatility; condition := Above;
          threshold := JS.of_Z 2; enabled := true; triggered := true;
          lastTriggered := Some (JS.of_Z 1704153600000) |} ]) /\
  resetAlert "1700000000000" (snd (run_evaluations steps [alert]))
  = [ {| id := "1700000000000"; type := Volatility; condition := Above;
         threshold := JS.of_Z 2; enabled := true; triggered := false;
         lastTriggered := Some (JS.of_Z 1704153600000) |} ] /\
  toggleAlert "1700000000000" (snd (run_evaluations steps [alert]))
  = [ {| id := "1700000000000"; type := Volatility; condition := Above;
         threshold := JS.of_Z 2; enabled := false; triggered := false;
         lastTriggered := Some (JS.of_Z 1704153600000) |} ].
Proof.
  intros alert first steps.
  destruct (alert_fires_once (host := UTC.host)) as (Hfire & _ & Hrun & _).
  assert (Hpre : enabled alert = true /\ triggered alert = false /\
                 condition_met first alert = true) by (repeat split; reflexivity).
  split; [exact Hpre|].
  destruct Hpre as (He & Ht & Hc).
  split; [exact (Hfire true (JS.of_Z 1704153600000) "BTCUSDT" first alert He Ht Hc)|].
  split; [exact (proj1 (Hrun steps [alert]))|].
  repeat split; by_compute.
Defined.

End AlertRuns.

(** ** Numbers: addition is a commutative monoid *)

Section SumFacts.
Local Open Scope num_scope.

Lemma add_comm (x y : num) : x + y = y + x.
Proof.
  destruct x, y; simpl; try reflexivity. f_equal. apply Qcplus_comm.
Qed.

Lemma add_assoc (x y z : num) : x + (y + z) = (x + y) + z.
Proof.
  destruct x, y, z; simpl; try reflexivity. f_equal. apply Qcplus_assoc.
Qed.

Lemma add_n0_l (x : num) : n0 + x = x.
Proof. destruct x; simpl; try reflexivity. f_equal. apply Qcplus_0_l. Qed.

Lemma add_n0_r (x : num) : x + n0 = x.
Proof. rewrite add_comm. apply add_n0_l. Qed.

(** [reduce((sum, item) => sum + f(item), acc)] adds the sum to [acc]. *)
Lemma fold_left_add {A : Type} (f : A -> num) (xs : list A) (acc : num) :
  fold_left (fun sum item => sum + f item) xs acc = acc + sum (List.map f xs).
Proof.
  revert acc. induction xs as [|x xs IH]; intros acc; simpl.
  - now rewrite add_n0_r.
  - now rewrite IH, add_assoc.
Qed.

Lemma sum_of_sum {A : Type} (f : A -> num) (xs : list A) :
  PatternAnalyzer.sum_of f xs = sum (List.map f xs).
Proof. unfold PatternAnalyzer.sum_of. now rewrite fold_left_add, add_n0_l. Qed.

Lemma sum_app (xs ys : list num) : sum (xs ++ ys) = sum xs + sum ys.
Proof.
  induction xs as [|x xs IH].
  - change (sum ys = n0 + sum ys). now rewrite add_n0_l.
  - change (x + sum (xs ++ ys) = (x + sum xs) + sum ys).
    now rewrite IH, add_assoc.
Qed.

End SumFacts.

(** ** Volatility clustering *)

Section ClusterProps.
Local Open Scope num_scope.
Import PatternAnalyzer.

(** The loop over the indices [i = 1 .. length - 1] reads each record and
    the one before it: it is a pass over the flags "high after high". *)
Lemma clusterLoop_indices (xs : list MarketData) :
  forall (pre : list MarketData) (prev : MarketData) (state : nat * bool),
    fold_left
      (fun (state : nat * bool) (i : nat) =>
         let '(clusterCount, inCluster) := state in
         let current := volatility_at (pre ++ prev :: xs) i in
         let previous := volatility_at (pre ++ prev :: xs) (i - 1) in
         if (current >? n2) && (previous >? n2) then
           if negb inCluster then (S clusterCount, true) else (clusterCount, inCluster)
         else (clusterCount, false))
      (seq (S (length pre)) (length xs)) state
    = fold_left cluster_step
        (follows_high (high_volatility prev) (List.map high_volatility xs)) state.
Proof.
  induction xs as [|x xs IH]; intros pre prev state; [reflexivity|].
  cbn [length seq fold_left List.map follows_high].
  assert (Hcur : volatility_at (pre ++ prev :: x :: xs) (S (length pre)) = volatility x).
  { unfold volatility_at.
    replace (pre ++ prev :: x :: xs) with ((pre ++ [prev]) ++ x :: xs)
      by now rewrite <- app_assoc.
    rewrite list_lookup_middle; [reflexivity|].
    rewrite length_app. simpl. lia. }
  assert (Hprev : volatility_at (pre ++ prev :: x :: xs) (S (length pre) - 1)
                  = volatility prev).
  { unfold volatility_at. replace (S (length pre) - 1)%nat with (length pre) by lia.
    now rewrite list_lookup_middle. }
  specialize (IH (pre ++ [prev]) x).
  rewrite <- app_assoc in IH. cbn [app] in IH.
  rewrite length_app in IH. cbn [length] in IH.
  replace (length pre + 1)%nat with (S (length pre)) in IH by lia.
  rewrite <- IH. f_equal.
  destruct state as [clusterCount inCluster]. cbv zeta.
  rewrite Hcur, Hprev. reflexivity.
Qed.

(** Counting a run when it starts is counting the maximal runs. *)
Lemma cluster_step_runs (flags : list bool) :
  forall (clusterCount current : nat),
    (fst (fold_left cluster_step flags
            (clusterCount, negb (current =? 0)%nat))
     + (if (current =? 0)%nat then 0 else 1)
     = clusterCount + length (run_lengths current flags))%nat.
Proof.
  induction flags as [|flag flags IH]; intros clusterCount current.
  - simpl. destruct current; simpl; lia.
  - destruct flag; cbn [fold_left cluster_step run_lengths].
    + destruct current as [|n]; cbn [Nat.eqb negb].
      * specialize (IH (S clusterCount) 1%nat). simpl in IH. lia.
      * specialize (IH clusterCount (S (S n))). simpl in IH. lia.
    + specialize (IH clusterCount 0%nat). rewrite length_app.
      destruct current as [|n]; simpl in *; lia.
Qed.

(** The counter of the detector is the number of clusters. *)
Lemma clusterCount_clusters (allData : list MarketData) :
  clusterCount allData = clusters allData.
Proof.
  unfold clusterCount, clusterLoop, clusters, high_after_high.
  destruct allData as [|first rest]; [reflexivity|].
  cbn [length List.map]. replace (S (length rest) - 1)%nat with (length rest) by lia.
  pose proof (clusterLoop_indices rest [] first (0%nat, false)) as Hloop.
  cbn [app length] in Hloop. rewrite Hloop. clear Hloop.
  pose proof (cluster_step_runs
                (follows_high (high_volatility first) (List.map high_volatility rest))
                0%nat 0%nat) as H.
  simpl in H. lia.
Qed.

(** Without a record of high volatility there is no cluster. *)
Lemma follows_high_none (highs : list bool) (previous : bool) :
  Forall (fun b => b = false) highs ->
  Forall (fun b => b = false) (follows_high previous highs).
Proof.
  revert previous. induction highs as [|b highs IH]; intros previous H; simpl.
  - constructor.
  - inversion H as [|? ? Hb Hrest]; subst. constructor; [reflexivity | now apply IH].
Qed.

Lemma run_lengths_none (flags : list bool) :
  Forall (fun b => b = false) flags -> run_lengths 0 flags = [].
Proof.
  induction 1 as [|b flags Hb _ IH]; [reflexivity|]. subst b. exact IH.
Qed.

Lemma clusters_high (allData : list MarketData) :
  clusters allData <> 0%nat -> List.filter high_volatility allData <> [].
Proof.
  intros Hpos Hnone. apply Hpos. unfold clusters, high_after_high.
  assert (Hall : Forall (fun b => b = false) (List.map high_volatility allData)).
  { apply Forall_forall. intros b Hb.
    apply in_map_iff in Hb as (r & <- & Hr).
    destruct (high_volatility r) eqn:E; [|reflexivity].
    assert (Hin : In r (List.filter high_volatility allData))
      by (apply filter_In; auto).
    rewrite Hnone in Hin. destruct Hin. }
  destruct (List.map high_volatility allData) as [|first rest]; [reflexivity|].
  inversion Hall; subst.
  now rewrite run_lengths_none by now apply follows_high_none.
Qed.

(** Numbers above 2 add up to a number that is not NaN, and so is their
    mean when there is at least one of them. *)
Lemma sum_above_2 (xs : list num) :
  Forall (fun x => (x >? n2) = true) xs -> finite_or_PInf (sum xs).
Proof.
  induction 1 as [|x xs Hx _ IH]; [exact I|].
  change (finite_or_PInf (x + sum xs)).
  destruct x; try discriminate; destruct (sum xs); simpl in *; tauto.
Qed.

Lemma Qc_of_nat_nonzero (n : nat) : n <> 0%nat -> Qceqb (Qc_of_nat n) 0 = false.
Proof.
  intros Hn. destruct (Qceqb (Qc_of_nat n) 0) eqn:E; [|reflexivity].
  apply Qceqb_eq in E. apply (f_equal this) in E.
  unfold Qc_of_nat, Qc_of_Z in E. simpl in E.
  injection E as E. lia.
Qed.

Lemma div_count_not_NaN (s : num) (n : nat) :
  finite_or_PInf s -> n <> 0%nat -> JS.isNaN (s / JS.of_nat n) = false.
Proof.
  intros Hs Hn. destruct s as [| |q|]; try contradiction; unfold JS.of_nat, JS.div.
  - now rewrite Qc_of_nat_nonzero.
  - simpl. now destruct (Qcltb (Qc_of_nat n) 0).
Qed.

(** The pattern the detector emits, in the words of the specification. *)
Lemma clusteringPattern_spec (allData : list MarketData) :
  clusteringPattern allData =
    if (3 <=? clusters allData)%nat
    then [clustering_pattern_of allData (clusters allData)] else [].
Proof.
  unfold clusteringPattern. rewrite clusterCount_clusters.
  destruct (3 <=? clusters allData)%nat; [|reflexivity].
  unfold clustering_pattern_of, mean. rewrite sum_of_sum, length_map. reflexivity.
Qed.

(** C10.  When the detector emits (three clusters or more), some record has
    a volatility above 2: the count [avgImpact] divides by is not 0, and the
    [avgImpact] of the emitted pattern is not NaN. *)
Theorem clustering_avgImpact_defined (allData : list MarketData) :
  (3 <= clusterCount allData)%nat ->
  (0 < length (List.filter (fun item => volatility item >? n2) allData))%nat /\
  exists p, clusteringPattern allData = [p] /\ JS.isNaN (avgImpact p) = false.
Proof.
  intros Hemit.
  assert (Hhigh : List.filter high_volatility allData <> []).
  { apply clusters_high. rewrite <- clusterCount_clusters. lia. }
  assert (Hlen : length (List.filter high_volatility allData) <> 0%nat).
  { destruct (List.filter high_volatility allData); [congruence | discriminate]. }
  split; [change (0 < length (List.filter high_volatility allData))%nat; lia|].
  rewrite clusteringPattern_spec, <- clusterCount_clusters.
  destruct (Nat.leb_spec 3 (clusterCount allData)) as [_|Hlt]; [|lia].
  eexists. split; [reflexivity|].
  cbn [avgImpact clustering_pattern_of]. unfold mean. rewrite length_map.
  apply div_count_not_NaN; [|exact Hlen].
  apply sum_above_2, Forall_forall. intros x Hx.
  apply in_map_iff in Hx as (r & <- & Hr).
  now apply filter_In in Hr as [_ Hr].
Qed.

End ClusterProps.

(** ** The pattern list *)

Section PatternProps.
Context `{host : Host}.
Local Open Scope num_scope.
Import PatternAnalyzer.

Lemma create_key_nonempty {K A : Type} (key_index : K -> option Z) (k : K)
    (entries : list (K * list A)) :
  create_key key_index k entries <> [].
Proof.
  destruct entries as [|[k' v'] rest]; simpl; [discriminate|].
  destruct (key_index k), (key_index k'); try discriminate.
  now destruct (_ <? _)%Z.
Qed.

Lemma group_push_nonempty {K A : Type} (key_eqb : K -> K -> bool)
    (key_index : K -> option Z) (acc : list (K * list A)) (k : K) (item : A) :
  group_push key_eqb key_index acc k item <> [].
Proof.
  unfold group_push. intros E. apply map_eq_nil in E.
  destruct (has_key key_eqb k acc) eqn:Hk.
  - subst acc. discriminate.
  - now apply create_key_nonempty in E.
Qed.

Lemma fold_group_push_nonempty {K A : Type} (key_eqb : K -> K -> bool)
    (key_index : K -> option Z) (key : A -> K) (items : list A) :
  forall acc,
    (acc <> [] \/ items <> []) ->
    fold_left (fun acc item => group_push key_eqb key_index acc (key item) item)
              items acc <> [].
Proof.
  induction items as [|item items IH]; intros acc H; simpl.
  - destruct H; [assumption | congruence].
  - apply IH. left. apply group_push_nonempty.
Qed.

(** The weekly detector does not throw on a non-empty history, and emits
    weekly patterns only. *)
Lemma weeklyPattern_Ok (allData : list MarketData) :
  allData <> [] ->
  exists weekly,
    weeklyPattern allData = Ok weekly /\
    List.filter is_volatility_pattern weekly = [].
Proof.
  intros Hne. unfold weeklyPattern.
  pose proof (fold_group_push_nonempty num_key_eqb num_key_index
                (fun item => getDay (Date_parse (date item))) allData []
                (or_intror Hne)) as Hgroups.
  destruct (fold_left _ allData []) as [|entry entries]; [congruence|].
  cbn [List.map]. eexists. split; [reflexivity|].
  now destruct (_ && _).
Qed.

Lemma filter_flat_map_nil {A B : Type} (P : B -> bool) (f : A -> list B) (xs : list A) :
  (forall x, List.filter P (f x) = []) -> List.filter P (flat_map f xs) = [].
Proof.
  intros H. induction xs as [|x xs IH]; [reflexivity|].
  simpl. now rewrite filter_app, H, IH.
Qed.

Lemma monthlyPatterns_type (allData : list MarketData) :
  List.filter is_volatility_pattern (monthlyPatterns allData) = [].
Proof.
  unfold monthlyPatterns. apply filter_flat_map_nil.
  intros [period periodData]. now destruct (_ && _).
Qed.

Lemma volumeSpikesPattern_type (allData : list MarketData) :
  List.filter is_volatility_pattern (volumeSpikesPattern allData) = [].
Proof. unfold volumeSpikesPattern. now destruct (_ <=? _)%nat. Qed.

Lemma anomaliesPattern_type (allData : list MarketData) :
  List.filter is_volatility_pattern (anomaliesPattern allData) = [].
Proof. unfold anomaliesPattern. now destruct (_ <=? _)%nat. Qed.

(** Sorting permutes. *)
Lemma sort_insert_Permutation {A : Type} (compare : A -> A -> num) (x : A) (xs : list A) :
  Permutation (sort_insert compare x xs) (x :: xs).
Proof.
  induction xs as [|y xs IH]; cbn [sort_insert]; [reflexivity|].
  destruct (JS.gtb (compare x y) n0); [|reflexivity].
  rewrite IH. apply perm_swap.
Qed.

Lemma sort_Permutation {A : Type} (compare : A -> A -> num) (xs : list A) :
  Permutation (sort compare xs) xs.
Proof.
  induction xs as [|x xs IH]; [reflexivity|].
  unfold sort. cbn [fold_right]. fold (sort compare xs).
  now rewrite sort_insert_Permutation, IH.
Qed.

Lemma filter_Permutation {A : Type} (P : A -> bool) (xs ys : list A) :
  Permutation xs ys -> Permutation (List.filter P xs) (List.filter P ys).
Proof.
  induction 1 as [|x xs ys _ IH|x y xs|xs ys zs _ IH1 _ IH2]; simpl.
  - reflexivity.
  - destruct (P x); [now constructor | exact IH].
  - destruct (P x), (P y); try reflexivity. apply perm_swap.
  - now rewrite IH1.
Qed.

(** C5.  On a combined history of at least 30 records the counter of the
    clustering detector is the number of maximal runs of records that are
    above 2 percent right after a record above 2 percent, and the pattern
    list holds exactly one pattern of type volatility when that number is at
    least 3, none otherwise: its confidence is
    [min(85, clusterCount / (totalN / 10) * 100)], its [avgImpact] the mean
    volatility of the records above 2 percent, its severity medium. *)
Theorem clustering_detector (historicalData data : list MarketData) :
  (30 <= length (historicalData ++ data))%nat ->
  clusterCount (historicalData ++ data) = clusters (historicalData ++ data) /\
  exists detected,
    patterns historicalData data = Ok detected /\
    List.filter is_volatility_pattern detected =
      if (3 <=? clusters (historicalData ++ data))%nat
      then [clustering_pattern_of (historicalData ++ data)
              (clusters (historicalData ++ data))]
      else [].
Proof.
  intros Hlen. split; [apply clusterCount_clusters|].
  unfold patterns.
  destruct (Nat.ltb_spec (length (historicalData ++ data)) 30) as [Hlt|_]; [lia|].
  destruct (weeklyPattern_Ok (historicalData ++ data)) as (weekly & -> & Hweekly).
  { intros E. rewrite E in Hlen. simpl in Hlen. lia. }
  eexists. split; [reflexivity|].
  match goal with
  | |- List.filter ?P (sort ?c ?l) = ?rhs =>
      assert (Hfilter : List.filter P l = rhs);
      [|pose proof (filter_Permutation P _ _ (sort_Permutation c l)) as Hperm;
        rewrite Hfilter in Hperm]
  end.
  - rewrite !filter_app, Hweekly, monthlyPatterns_type, volumeSpikesPattern_type,
      anomaliesPattern_type, app_nil_r. cbn [app].
    rewrite clusteringPattern_spec.
    now destruct (3 <=? clusters (historicalData ++ data))%nat.
  - destruct (3 <=? clusters (historicalData ++ data))%nat.
    + now apply Permutation_length_1_inv, Permutation_sym.
    + now apply Permutation_nil, Permutation_sym.
Qed.

End PatternProps.

Section PatternRuns.
#[local] Existing Instance UTC.host.
Import PatternAnalyzer.

(** Ten clusters in thirty days: the pattern is emitted. *)
Lemma clustering_detector_witness :
  let historicalData := firstn 10 Sample.history in
  let data := skipn 10 Sample.history in
  (30 <= length (historicalData ++ data))%nat /\
  clusterCount (historicalData ++ data) = clusters (historicalData ++ data) /\
  exists detected,
    patterns historicalData data = Ok detected /\
    List.filter is_volatility_pattern detected =
      if (3 <=? clusters (historicalData ++ data))%nat
      then [clustering_pattern_of (historicalData ++ data)
              (clusters (historicalData ++ data))]
      else [].
Proof.
  intros historicalData data.
  assert (Hlen : (30 <= length (historicalData ++ data))%nat) by (vm_compute; lia).
  split; [exact Hlen|].
  exact (clustering_detector historicalData data Hlen).
Defined.

Lemma clustering_avgImpact_defined_witness :
  (3 <= clusterCount Sample.history)%nat /\
  (0 < length (List.filter (fun item => (volatility item >? n2)%num) Sample.history))%nat /\
  exists p, clusteringPattern Sample.history = [p] /\ JS.isNaN (avgImpact p) = false.
Proof.
  assert (Hemit : (3 <= clusterCount Sample.history)%nat) by (vm_compute; lia).
  split; [exact Hemit|].
  exact (clustering_avgImpact_defined Sample.history Hemit).
Defined.

(** A run of three high days is one cluster, not two. *)
Example clusters_not_pairs :
  clusterCount
    [ Sample.day "2024-01-01" (JS.of_Z 3); Sample.day "2024-01-02" (JS.of_Z 3);
      Sample.day "2024-01-03" (JS.of_Z 3); Sample.day "2024-01-04" (JS.of_Z 1);
      Sample.day "2024-01-05" (JS.of_Z 3); Sample.day "2024-01-06" (JS.of_Z 3) ]
  = 2%nat.
Proof. reflexivity. Qed.

(** The patterns of the thirty days, most confident first. *)
Example patterns_history :
  patterns (firstn 10 Sample.history) (skipn 10 Sample.history)
  = Ok [ {| id := "weekly-volatility"; type := Weekly;
            name := "Monday Volatility";
            description := "Higher volatility typically occurs on Mondays";
            confidence := JS.of_Z 95; occurrences := 5;
            avgImpact := Fin (qc 13 5); severity := Some Medium |};
         {| id := "volatility-clustering"; type := Volatility;
            name := "Volatility Clustering";
            description :=
              "High volatility periods tend to be followed by more high volatility";
            confidence := JS.of_Z 85; occurrences := 10;
            avgImpact := JS.of_Z 3; severity := Some Medium |} ].
Proof. by_compute. Qed.

End PatternRuns.

(** ** Weekly aggregation *)

Section CalendarProps.
Context `{host : Host}.
Local Open Scope num_scope.
Import Calendar.

(** The volume of a week is the sum of the volumes of its records. *)
Lemma totalVolume_sum (data : list MarketData) (weekStart : num) :
  totalVolume (weekSummary data weekStart)
  = sum (List.map volume (List.filter (in_week weekStart) data)).
Proof. unfold weekSummary. cbn [totalVolume]. now rewrite fold_left_add, add_n0_l. Qed.

(** An element put in the one bucket that takes it is there once. *)
Lemma one_bucket {A B : Type} (P : B -> bool) (x : A) (f : B -> list A)
    (buckets : list B) :
  length (List.filter P buckets) = 1%nat ->
  Permutation (List.concat (List.map (fun b => if P b then x :: f b else f b) buckets))
              (x :: List.concat (List.map f buckets)).
Proof.
  induction buckets as [|b buckets IH]; [discriminate|].
  cbn [List.filter List.map List.concat].
  destruct (P b) eqn:E; cbn [length]; intros Hlen.
  - assert (Hnone : List.filter P buckets = [])
      by (destruct (List.filter P buckets); [reflexivity | discriminate]).
    assert (Hrest : List.map (fun b => if P b then x :: f b else f b) buckets
                    = List.map f buckets).
    { clear -Hnone. induction buckets as [|c cs IHc]; [reflexivity|].
      cbn [List.filter] in Hnone. cbn [List.map].
      destruct (P c); [discriminate|]. now rewrite IHc. }
    now rewrite Hrest.
  - rewrite (IH Hlen). symmetry. apply Permutation_middle.
Qed.

(** Buckets that each record falls in exactly once hold the records, each
    once. *)
Lemma buckets_partition {A B : Type} (inside : B -> A -> bool) (buckets : list B)
    (data : list A) :
  (forall item, In item data ->
     length (List.filter (fun b => inside b item) buckets) = 1%nat) ->
  Permutation (List.concat (List.map (fun b => List.filter (inside b) data) buckets))
              data.
Proof.
  induction data as [|item data IH]; intros Hone.
  - cbn [List.filter]. clear. induction buckets as [|b buckets IH]; [reflexivity|].
    exact IH.
  - cbn [List.filter].
    rewrite (one_bucket (fun b => inside b item) item
               (fun b => List.filter (inside b) data) buckets)
      by (apply Hone; now left).
    constructor. apply IH. intros other Hin. apply Hone. now right.
Qed.

(** C7, as the code has it.  The week buckets of the month view are the
    weeks of the month; every bucket holds the records of its week in the
    order of the input, and its [totalVolume] is the sum of their volumes,
    added in that order from 0.  When every record's date lies in exactly
    one of the buckets, the records of the buckets taken together are the
    input records, each of them once: none is counted twice and none is
    left out. *)
Theorem weekly_volume_partition (data : list MarketData) (currentMonth : num) :
  List.map weekStart (weeklyView data currentMonth) = weeks currentMonth /\
  Forall (fun week =>
            weekData week = List.filter (in_week (weekStart week)) data /\
            totalVolume week
            = fold_left (fun sum item => sum + volume item) (weekData week) n0)
         (weeklyView data currentMonth) /\
  ((forall item, In item data ->
      length (List.filter (fun weekStart => in_week weekStart item)
                          (weeks currentMonth)) = 1%nat) ->
   Permutation (List.concat (List.map weekData (weeklyView data currentMonth))) data).
Proof.
  unfold weeklyView. split; [|split].
  - rewrite List.map_map. cbn [weekStart weekSummary]. apply List.map_id.
  - apply Forall_forall. intros week Hweek.
    apply in_map_iff in Hweek as (start & <- & _). split; reflexivity.
  - intros Hone. rewrite List.map_map.
    exact (buckets_partition in_week (weeks currentMonth) data Hone).
Qed.

End CalendarProps.

Section CalendarRuns.
#[local] Existing Instance UTC.host.
#[local] Set Warnings "-inexact-float".
Import Calendar.

(** January 2020 has five week buckets; three records in three of them. *)
Lemma weekly_volume_partition_witness :
  let month := JS.of_Z 1580000000000 in
  (forall item, In item Sample.january ->
     length (List.filter (fun weekStart => in_week weekStart item) (weeks month))
     = 1%nat) /\
  Permutation (List.concat (List.map weekData (weeklyView Sample.january month)))
              Sample.january.
Proof.
  intros month.
  assert (Hone : forall item, In item Sample.january ->
            length (List.filter (fun weekStart => in_week weekStart item) (weeks month))
            = 1%nat).
  { intros item [<-|[<-|[<-|[]]]]; reflexivity. }
  split; [exact Hone|].
  exact (proj2 (proj2 (weekly_volume_partition Sample.january month)) Hone).
Defined.

Example weekly_volumes_january :
  List.map totalVolume (weeklyView Sample.january (JS.of_Z 1580000000000))
  = [JS.of_Z 1000; JS.of_Z 1000; n0; n0; JS.of_Z 1000].
Proof. by_compute. Qed.

(** C7 as stated fails: the totals of the weeks do not add up to the sum of
    the volumes.  Four days of January 2020 with the volumes 0.1, 0.1, 0.3
    and 0.1 lie each in exactly one of the five weeks; the weeks total 0.2
    and 0.4 (and 0 three times), which add up to 0.6000000000000001, while
    the four volumes add up to 0.6: the same doubles, added in another
    grouping. *)
Lemma weekly_volume_rounding :
  let month := JS.of_Z 1580000000000 in
  let data :=
    [ Doubles.mkVolume "2020-01-01" 0.1; Doubles.mkVolume "2020-01-02" 0.1;
      Doubles.mkVolume "2020-01-05" 0.3; Doubles.mkVolume "2020-01-06" 0.1 ] in
  (forall item, In item data ->
     length (List.filter (fun weekStart => Doubles.in_week weekStart item) (weeks month))
     = 1%nat) /\
  Doubles.weeklyTotals data month = [0.2; 0.4; 0; 0; 0]%float /\
  Doubles.total (Doubles.weeklyTotals data month) = 0.6000000000000001%float /\
  Doubles.total (List.map Doubles.volume data) = 0.6%float /\
  PrimFloat.eqb (Doubles.total (Doubles.weeklyTotals data month))
                (Doubles.total (List.map Doubles.volume data)) = false.
Proof.
  intros month data. split.
  - intros item [<-|[<-|[<-|[<-|[]]]]]; reflexivity.
  - repeat split; vm_compute; reflexivity.
Qed.

End CalendarRuns.

(** ** Volatility enhancer *)

Section EnhancerProps.
Context `{host : Host}.
Local Open Scope num_scope.

Lemma mul_comm (x y : num) : x * y = y * x.
Proof.
  destruct x as [| |a|], y as [| |b|]; unfold JS.mul; try reflexivity;
    try (f_equal; apply Qcmult_comm);
    cbn [JS.sign]; now destruct (_ ?= _)%Qc.
Qed.

Lemma finite_not_NaN (x : num) :
  negb (JS.isNaN x) && JS.isFinite x = JS.isFinite x.
Proof. now destruct x. Qed.

Lemma finite_or_0_test (x : num) :
  (if JS.isNaN x || negb (JS.isFinite x) then n0 else x) = finite_or_0 x.
Proof. now destruct x. Qed.

Lemma finite_or_0_finite (x : num) : JS.isNaN (finite_or_0 x) = false.
Proof. now destruct x. Qed.

Lemma or_zero_number (x : num) : JS.isNaN x = false -> JS.or_zero x = x.
Proof. now destruct x. Qed.

(** The window [data.slice(windowStart, index + 1)] is the trailing window. *)
Lemma slice_trailing_window (data : list MarketData) (i : nat) :
  (i < length data)%nat ->
  slice (Z.max 0 (Z.of_nat i - Z.min 7 (Z.of_nat i + 1) + 1)) (Z.of_nat i + 1) data
  = trailing_window data i.
Proof.
  intros Hi. unfold slice, trailing_window, lastn.
  rewrite length_take, (Nat.min_l (S i)) by lia.
  replace (Z.to_nat (Z.max 0 (Z.of_nat i - Z.min 7 (Z.of_nat i + 1) + 1)))
    with (S i - 7)%nat by lia.
  replace (Z.to_nat (Z.of_nat i + 1
                     - Z.max 0 (Z.of_nat i - Z.min 7 (Z.of_nat i + 1) + 1)))
    with (S i - (S i - 7))%nat by lia.
  rewrite take_drop_commute. f_equal. f_equal. lia.
Qed.

Lemma map_close_filter (window : list MarketData) :
  List.map close (List.filter (fun d => valid_price (close d)) window)
  = valid_closes window.
Proof.
  unfold valid_closes. induction window as [|d window IH]; [reflexivity|].
  simpl. destruct (valid_price (close d)); simpl; now rewrite IH.
Qed.

Lemma filter_filter {A : Type} (f : A -> bool) (xs : list A) :
  List.filter f (List.filter f xs) = List.filter f xs.
Proof.
  induction xs as [|x xs IH]; [reflexivity|].
  simpl. destruct (f x) eqn:E; simpl; rewrite ?E, IH; reflexivity.
Qed.

(** The loop [for (let i = 1; i < validPrices.length; i++)] collects the
    finite consecutive returns. *)
Lemma returns_loop (xs : list num) :
  forall (pre : list num) (prev : num) (acc : list num),
    fold_left
      (fun returns i =>
         let returnValue :=
           (nth i (pre ++ prev :: xs) NaN - nth (i - 1) (pre ++ prev :: xs) NaN)
           / nth (i - 1) (pre ++ prev :: xs) NaN in
         if negb (JS.isNaN returnValue) && JS.isFinite returnValue
         then returns ++ [returnValue] else returns)
      (seq (S (length pre)) (length xs)) acc
    = acc ++ List.filter JS.isFinite (returns_from prev xs).
Proof.
  induction xs as [|x xs IH]; intros pre prev acc.
  - simpl. now rewrite app_nil_r.
  - cbn [length seq fold_left returns_from List.filter].
    assert (Hcur : nth (S (length pre)) (pre ++ prev :: x :: xs) NaN = x).
    { replace (pre ++ prev :: x :: xs) with ((pre ++ [prev]) ++ x :: xs)
        by now rewrite <- app_assoc.
      replace (S (length pre)) with (length (pre ++ [prev]))
        by (rewrite length_app; simpl; lia).
      apply nth_middle. }
    assert (Hprev : nth (S (length pre) - 1) (pre ++ prev :: x :: xs) NaN = prev).
    { replace (S (length pre) - 1)%nat with (length pre) by lia. apply nth_middle. }
    specialize (IH (pre ++ [prev]) x).
    rewrite <- app_assoc in IH. cbn [app] in IH.
    rewrite length_app in IH. cbn [length] in IH.
    replace (length pre + 1)%nat with (S (length pre)) in IH by lia.
    rewrite IH. cbv zeta. rewrite Hcur, Hprev, finite_not_NaN.
    destruct (JS.isFinite ((x - prev) / prev)); [|reflexivity].
    now rewrite <- app_assoc.
Qed.

(** [calculateVolatility] on the valid prices among [prices]. *)
Lemma calculateVolatility_spec (prices : list num) :
  calculateVolatility prices =
    if (length prices <? 2)%nat then n0
    else if (length (List.filter valid_price prices) <? 2)%nat then n0
    else rolling_volatility (List.filter valid_price prices).
Proof.
  unfold calculateVolatility.
  destruct (length prices <? 2)%nat; [reflexivity|].
  destruct (List.filter valid_price prices) as [|first rest] eqn:Hvalid;
    [reflexivity|].
  destruct (length (first :: rest) <? 2)%nat; [reflexivity|].
  cbn [length]. replace (S (length rest) - 1)%nat with (length rest) by lia.
  pose proof (returns_loop rest [] first []) as Hloop.
  cbn [app length] in Hloop. rewrite Hloop. clear Hloop.
  unfold rolling_volatility. cbn [returns].
  destruct (List.filter JS.isFinite (returns_from first rest)) as [|r rs];
    [reflexivity|].
  cbn [length Nat.eqb]. rewrite finite_or_0_test. f_equal.
  rewrite mul_comm. f_equal. unfold stddev, mean.
  rewrite !fold_left_add, !add_n0_l, List.map_id, length_map. reflexivity.
Qed.

(** The rolling volatility is a number. *)
Lemma rolling_volatility_number (closes : list num) :
  JS.isNaN (rolling_volatility closes) = false.
Proof.
  unfold rolling_volatility.
  destruct (List.filter JS.isFinite (returns closes)); [reflexivity|].
  apply finite_or_0_finite.
Qed.

(** What the callback of [data.map] gives the record at index [i]. *)
Lemma enhance_item (data : list MarketData) (i : nat) (item : MarketData) :
  (i < length data)%nat ->
  (let index := Z.of_nat i in
   let windowSize := Z.min 7 (index + 1) in
   let windowStart := Z.max 0 (index - windowSize + 1) in
   let window := slice windowStart (index + 1) data in
   let validWindow := List.filter (fun d => valid_price (close d)) window in
   if (length validWindow <? 2)%nat then
     with_volatility item (JS.Math_max n0 (JS.or_zero (volatility item)))
   else
     let closePrices := List.map close validWindow in
     let rollingVolatility := calculateVolatility closePrices in
     let dailyVol := JS.Math_max n0 (JS.or_zero (volatility item)) in
     let rollingVol := JS.Math_max n0 (JS.or_zero rollingVolatility) in
     let enhancedVolatility := dailyVol * dailyWeight + rollingVol * rollingWeight in
     with_volatility item enhancedVolatility)
  = with_volatility item (enhanced_volatility data i item).
Proof.
  intros Hi. cbv zeta. rewrite (slice_trailing_window data i Hi).
  unfold enhanced_volatility.
  rewrite <- (length_map close), map_close_filter.
  destruct (length (valid_closes (trailing_window data i)) <? 2)%nat eqn:Hfew;
    [reflexivity|].
  assert (Hvalid : List.filter valid_price (valid_closes (trailing_window data i))
                   = valid_closes (trailing_window data i))
    by apply filter_filter.
  rewrite calculateVolatility_spec, Hvalid, Hfew.
  rewrite (or_zero_number (rolling_volatility _))
    by apply rolling_volatility_number.
  unfold dailyWeight, rollingWeight.
  now rewrite (mul_comm (Fin (qc 6 10))), (mul_comm (Fin (qc 4 10))).
Qed.

(** C1, as the code has it.  A sequence of fewer than 2 records is returned
    unchanged.  Otherwise the output has the length of the input and, at
    every index, the input record with its volatility replaced by
    [0.6 * max(0, raw) + 0.4 * max(0, rolling)], or by [max(0, raw)] when the
    trailing window of up to 7 records holds fewer than 2 positive closes:
    [raw] is the record's volatility with NaN counted as 0, and [rolling] is
    100 times the population standard deviation of the finite consecutive
    returns of the window's positive closes, counted as 0 when there is no
    finite return or when it is NaN or infinite. *)
Theorem enhanceVolatilityData_spec (data : list MarketData) :
  ((length data < 2)%nat -> enhanceVolatilityData data = data) /\
  ((2 <= length data)%nat ->
   length (enhanceVolatilityData data) = length data /\
   forall i item,
     data !! i = Some item ->
     enhanceVolatilityData data !! i
     = Some (with_volatility item (enhanced_volatility data i item))).
Proof.
  unfold enhanceVolatilityData. split.
  - intros Hlen. now destruct (Nat.ltb_spec (length data) 2); [|lia].
  - intros Hlen. destruct (Nat.ltb_spec (length data) 2) as [|_]; [lia|].
    split; [apply length_imap|].
    intros i item Hi. rewrite list_lookup_imap, Hi. cbn [fmap option_fmap option_map].
    f_equal. apply enhance_item. now apply lookup_lt_Some in Hi.
Qed.

End EnhancerProps.

Section EnhancerRuns.
#[local] Existing Instance UTC.host.

(** Five days, the last four with two positive closes or more behind
    them. *)
Lemma enhanceVolatilityData_spec_witness :
  (2 <= length Sample.infinite_close)%nat /\
  length (enhanceVolatilityData Sample.infinite_close) = length Sample.infinite_close /\
  forall i item,
    Sample.infinite_close !! i = Some item ->
    enhanceVolatilityData Sample.infinite_close !! i
    = Some (with_volatility item (enhanced_volatility Sample.infinite_close i item)).
Proof.
  assert (Hlen : (2 <= length Sample.infinite_close)%nat) by (simpl; lia).
  split; [exact Hlen|].
  exact (proj2 (enhanceVolatilityData_spec Sample.infinite_close) Hlen).
Defined.

(** C1 as stated fails.  The fetcher keeps a row that closes at
    ["Infinity"]; the returns to and from that close are infinite and NaN,
    and the enhancer leaves them out of the standard deviation instead of
    counting the rolling term as 0.  On the fifth day the closes 100, 110,
    99, Infinity and 100 give the rolling volatility 10 and the blend 4,
    where an infinite intermediate value counted as 0 gives 0. *)
Lemma enhance_skips_infinite_return :
  fetchBinanceKlineData (Sample.serve Sample.infinite_rows) "BTCUSDT"
    Sample.aug01 Sample.aug31
  = ([Sample.august], Ok Sample.infinite_close) /\
  returns (valid_closes (trailing_window Sample.infinite_close 4))
  = [Fin (qc 1 10); Fin (qc (-1) 10); PInf; NaN] /\
  List.map volatility (enhanceVolatilityData Sample.infinite_close)
  = [n0; n0; JS.of_Z 4; PInf; JS.of_Z 4] /\
  claimed_volatility Sample.infinite_close 4 (Sample.flat "2017-08-21" (JS.of_Z 100))
  = n0.
Proof. repeat split; by_compute. Qed.

(** Without an infinite close the two agree: three flat days. *)
Example enhance_finite :
  List.map volatility (enhanceVolatilityData (firstn 3 Sample.infinite_close))
  = [n0; n0; JS.of_Z 4] /\
  claimed_volatility (firstn 3 Sample.infinite_close) 2
    (Sample.flat "2017-08-19" (JS.of_Z 99)) = JS.of_Z 4.
Proof. split; by_compute. Qed.

End EnhancerRuns.

(** * More of the code *)

(** ** Rate limiter: runs of calls *)

Section LimiterRuns.
Import RateLimiter.

Lemma waitIfNeeded_free (now : Z) (rl : t) :
  Z.of_nat (length (requests rl)) < maxRequests rl ->
  fst (waitIfNeeded now rl) = [Push now].
Proof.
  intros Hfree. unfold waitIfNeeded. cbn [fst].
  pose proof (filter_length_le (fun time => now - time <? timeWindow rl) (requests rl)).
  destruct (Z.geb_spec
              (Z.of_nat (length (List.filter (fun time => now - time <? timeWindow rl)
                                             (requests rl))))
              (maxRequests rl)); [lia | reflexivity].
Qed.

Lemma waitIfNeeded_grows (now : Z) (rl : t) :
  (length (requests (snd (waitIfNeeded now rl))) <= S (length (requests rl)))%nat /\
  maxRequests (snd (waitIfNeeded now rl)) = maxRequests rl.
Proof.
  unfold waitIfNeeded. cbn [snd requests maxRequests]. split; [|reflexivity].
  rewrite length_app. cbn [length].
  pose proof (filter_length_le (fun time => now - time <? timeWindow rl) (requests rl)).
  lia.
Qed.

Lemma run_calls_free (times : list Z) :
  forall (log : list (list event)) (rl : t),
    Z.of_nat (length (requests rl) + length times) <= maxRequests rl ->
    Forall (fun events => exists now, events = [Push now]) log ->
    Forall (fun events => exists now, events = [Push now])
      (fst (fold_left
              (fun (state : list (list event) * t) now =>
                 let '(log, rl) := state in
                 let '(events, rl) := waitIfNeeded now rl in
                 (log ++ [events], rl))
              times (log, rl))).
Proof.
  induction times as [|now times IH]; intros log rl Hroom Hlog; [exact Hlog|].
  cbn [fold_left length] in *.
  pose proof (waitIfNeeded_free now rl ltac:(lia)) as Hfree.
  pose proof (waitIfNeeded_grows now rl) as [Hgrow Hmax].
  destruct (waitIfNeeded now rl) as [events rl']. cbn [fst snd] in *.
  apply IH; [lia|].
  apply Forall_app. split; [exact Hlog|]. constructor; [|constructor].
  exists now. exact Hfree.
Qed.

(** X1.  From an empty queue, calls no more numerous than [maxRequests]
    never suspend, whatever their times: each one only records its time. *)
Theorem first_calls_never_wait (times : list Z) (maxRequests timeWindow : Z) :
  Z.of_nat (length times) <= maxRequests ->
  Forall (fun events => exists now, events = [Push now])
    (fst (Api.run_calls times
            {| requests := []; maxRequests := maxRequests; timeWindow := timeWindow |})).
Proof.
  intros Hroom. unfold Api.run_calls. apply run_calls_free; [|constructor].
  cbn [requests RateLimiter.maxRequests length]. lia.
Qed.

Lemma first_calls_never_wait_witness :
  Z.of_nat (length [0; 1]) <= 2 /\
  Forall (fun events => exists now, events = [Push now])
    (fst (Api.run_calls [0; 1]
            {| requests := []; maxRequests := 2; timeWindow := 1000 |})).
Proof.
  assert (H : Z.of_nat (length [0; 1]) <= 2) by (simpl; lia).
  split; [exact H|]. exact (first_calls_never_wait [0; 1] 2 1000 H).
Defined.

(** X2.  When no queued timestamp is later than [now] and the limit is at
    least one request, a call that suspends does so for a finite time, more
    than 100 ms and at most [timeWindow + 100] ms. *)
Theorem suspension_bounds (now : Z) (rl : t) (ms : option Z) :
  Forall (fun time => time <= now) (requests rl) ->
  0 < maxRequests rl ->
  In (Suspend ms) (fst (waitIfNeeded now rl)) ->
  exists wait, ms = Some wait /\ 100 < wait <= timeWindow rl + 100.
Proof.
  intros Hpast Hmax. unfold waitIfNeeded. cbn [fst].
  set (kept := List.filter (fun time => now - time <? timeWindow rl) (requests rl)).
  intros Hin. apply in_app_or in Hin as [Hin|[Hin|[]]]; [|discriminate].
  destruct (Z.geb_spec (Z.of_nat (length kept)) (maxRequests rl)) as [Hfull|];
    [|destruct Hin].
  destruct kept as [|first rest] eqn:Hkept; [simpl in Hfull; lia|].
  destruct (Math_min_spec (first :: rest)) as (o & Ho & Hino & _); [discriminate|].
  rewrite Ho in Hin. cbn [option_map] in Hin.
  rewrite <- Hkept in Hino. apply filter_In in Hino as [Hq Hlt].
  apply Z.ltb_lt in Hlt.
  rewrite Forall_forall in Hpast. specialize (Hpast o Hq).
  destruct (Z.gtb_spec (timeWindow rl - (now - o) + 100) 0); [|destruct Hin].
  destruct Hin as [[= <-]|[]]. eexists. split; [reflexivity|]. lia.
Qed.

Lemma suspension_bounds_witness :
  let rl := {| requests := [1000; 1005]; maxRequests := 2; timeWindow := 1000 |} in
  Forall (fun time => time <= 1010) (requests rl) /\
  0 < maxRequests rl /\
  In (Suspend (Some 1090)) (fst (waitIfNeeded 1010 rl)) /\
  exists wait, Some 1090 = Some wait /\ 100 < wait <= timeWindow rl + 100.
Proof.
  intros rl.
  assert (H1 : Forall (fun time => time <= 1010) (requests rl))
    by (repeat constructor; lia).
  assert (H2 : 0 < maxRequests rl) by (simpl; lia).
  assert (H3 : In (Suspend (Some 1090)) (fst (waitIfNeeded 1010 rl))) by (left; reflexivity).
  split; [exact H1|]. split; [exact H2|]. split; [exact H3|].
  exact (suspension_bounds 1010 rl (Some 1090) H1 H2 H3).
Defined.

End LimiterRuns.

(** ** Trading pairs and symbols *)

Section PairProps.
Context `{host : Host}.
Local Open Scope num_scope.
Import Api.

(** The pairs the filter keeps are elements with a string name that ends in
    USDT or USDC. *)
Lemma filterPairs_names (symbols kept : list any) :
  filterPairs symbols = Some kept ->
  Forall (fun name => endsWith "USDT" name || endsWith "USDC" name = true)
         (List.map pairName kept).
Proof.
  revert kept. induction symbols as [|symbol symbols IH]; intros kept; simpl.
  - intros [= <-]. constructor.
  - destruct (tradingPair symbol) as [keep|] eqn:Hpair; [|discriminate].
    destruct (filterPairs symbols) as [rest|]; [|discriminate].
    intros [= <-]. specialize (IH rest eq_refl).
    destruct keep; [|exact IH]. simpl. constructor; [|exact IH].
    unfold tradingPair in Hpair. unfold pairName.
    destruct (get_prop "status" symbol) as [[| | | |status| |]|]; try discriminate;
      try (injection Hpair as [=]; discriminate).
    destruct (String.eqb status "TRADING") eqn:E.
    + apply String.eqb_eq in E. subst status.
      destruct (get_prop "symbol" symbol) as [[| | | |name| |]|]; try discriminate.
      now injection Hpair as ->.
    + assert (Hfalse : Some false = Some true); [|discriminate].
      rewrite <- Hpair. clear -E.
      repeat (match goal with
              | |- context [match ?s with EmptyString => _ | String _ _ => _ end] =>
                  destruct s as [|? ?]; try reflexivity
              | |- context [match ?a with Ascii _ _ _ _ _ _ _ _ => _ end] =>
                  destruct a as [[] [] [] [] [] [] [] []]; try reflexivity
              end); discriminate.
Qed.

Lemma compareStrings_gtb (x y : string) :
  JS.gtb (compareStrings x y) n0 = true -> String.leb y x = true.
Proof.
  unfold compareStrings, String.ltb, String.leb.
  rewrite (String.compare_antisym x y).
  destruct (String.compare y x); vm_compute; congruence.
Qed.

Lemma compareStrings_not_gtb (x y : string) :
  JS.gtb (compareStrings x y) n0 = false -> String.leb x y = true.
Proof.
  unfold compareStrings, String.ltb, String.leb.
  rewrite (String.compare_antisym x y).
  destruct (String.compare y x); vm_compute; congruence.
Qed.

Lemma leb_trans (x y z : string) :
  String.leb x y = true -> String.leb y z = true -> String.leb x z = true.
Proof.
  intros Hxy Hyz. apply Is_true_true.
  change (String.le x z). transitivity y; apply Is_true_true; assumption.
Qed.

Lemma sort_insert_Forall {A : Type} (P : A -> Prop) (compare : A -> A -> num)
    (x : A) (xs : list A) :
  P x -> Forall P xs -> Forall P (sort_insert compare x xs).
Proof.
  intros Hx Hxs. induction Hxs as [|y xs Hy Hxs IH]; cbn [sort_insert].
  - now constructor.
  - destruct (JS.gtb (compare x y) n0); constructor; auto.
Qed.

Lemma sort_Forall {A : Type} (P : A -> Prop) (compare : A -> A -> num) (xs : list A) :
  Forall P xs -> Forall P (sort compare xs).
Proof.
  induction 1 as [|x xs Hx Hxs IH]; [constructor|].
  unfold sort. cbn [fold_right]. now apply sort_insert_Forall.
Qed.

Lemma sort_insert_strings (x : string) (xs : list string) :
  StronglySorted (fun a b => String.leb a b = true) xs ->
  StronglySorted (fun a b => String.leb a b = true) (sort_insert compareStrings x xs).
Proof.
  induction 1 as [|y xs Hsorted IH Hy]; cbn [sort_insert].
  - repeat constructor.
  - destruct (JS.gtb (compareStrings x y) n0) eqn:E.
    + constructor; [exact IH|].
      apply sort_insert_Forall; [now apply compareStrings_gtb | exact Hy].
    + apply compareStrings_not_gtb in E.
      constructor; [now constructor|]. constructor; [exact E|].
      eapply Forall_impl; [|exact Hy]. intros z Hz. now apply (leb_trans x y z).
Qed.

Lemma sort_strings (xs : list string) :
  StronglySorted (fun a b => String.leb a b = true) (sort compareStrings xs).
Proof.
  induction xs as [|x xs IH]; [constructor|].
  unfold sort. cbn [fold_right]. now apply sort_insert_strings.
Qed.

(** X3.  [getAvailableTradingPairs] issues one request, for the exchange
    information, and never throws: it returns names in ascending order that
    all end in USDT or USDC.  On a body whose [symbols] is an array the
    filter runs through, these are the names of the elements the filter
    keeps; when the request fails the list is empty. *)
Theorem getAvailableTradingPairs_spec (net : api_request -> response) (now : Z)
    (rl : RateLimiter.t) :
  let '(_, _, requests, pairs) := getAvailableTradingPairs net now rl in
  requests = [ {| api_url := "https://api.binance.com/api/v3/exchangeInfo";
                  api_params := [] |} ] /\
  Forall (fun name => endsWith "USDT" name || endsWith "USDC" name = true) pairs /\
  StronglySorted (fun a b => String.leb a b = true) pairs /\
  (forall status statusText body symbols kept,
     net {| api_url := "https://api.binance.com/api/v3/exchangeInfo";
            api_params := [] |}
     = Response true status statusText (Some body) ->
     get_prop "symbols" body = Some (AArr symbols) ->
     filterPairs symbols = Some kept ->
     Permutation pairs (List.map pairName kept)) /\
  (forall message,
     net {| api_url := "https://api.binance.com/api/v3/exchangeInfo";
            api_params := [] |} = NetworkError message ->
     pairs = []).
Proof.
  unfold getAvailableTradingPairs, fetchBinanceAPI.
  destruct (RateLimiter.waitIfNeeded now rl) as [events rl'].
  cbn [List.map].
  change (BINANCE_BASE_URL +:+ EXCHANGE_INFO)
    with "https://api.binance.com/api/v3/exchangeInfo".
  set (url := {| api_url := "https://api.binance.com/api/v3/exchangeInfo";
                 api_params := [] |}).
  assert (Hnil : forall r : response,
            Forall (fun name => endsWith "USDT" name || endsWith "USDC" name = true) [] /\
            StronglySorted (fun a b => String.leb a b = true) [] /\
            (forall message : string, r = NetworkError message -> @nil string = [])).
  { intros r. split; [constructor|]. split; [constructor|]. reflexivity. }
  destruct (net url) as [message|[|] status statusText [body|]];
    (split; [reflexivity|]).
  - destruct (Hnil (NetworkError message)) as (H1 & H2 & H3).
    do 2 (split; [assumption|]). split; [discriminate|assumption].
  - destruct (get_prop "symbols" body) as [[| | | | |symbols|]|] eqn:Hprop;
      try (split; [constructor|split; [constructor|split; [|discriminate]]];
           intros ? ? ? ? ? [= _ _ <-]; rewrite Hprop; discriminate).
    destruct (filterPairs symbols) as [kept|] eqn:Hkept.
    + split; [apply sort_Forall; exact (filterPairs_names _ _ Hkept)|].
      split; [apply sort_strings|]. split; [|discriminate].
      intros ? ? ? symbols0 kept0 [= _ _ <-]. rewrite Hprop. intros [= <-].
      rewrite Hkept. intros [= <-]. apply sort_Permutation.
    + split; [constructor|]. split; [constructor|]. split; [|discriminate].
      intros ? ? ? symbols0 kept0 [= _ _ <-]. rewrite Hprop. intros [= <-].
      rewrite Hkept. discriminate.
  - split; [constructor|]. split; [constructor|]. split; discriminate.
  - split; [constructor|]. split; [constructor|]. split; discriminate.
  - split; [constructor|]. split; [constructor|]. split; discriminate.
Qed.

End PairProps.

(** ** Symbol validation *)

Section SymbolProps.
Import Api.

Lemma get_Some_length (s : string) :
  forall (i : nat) (c : ascii), get i s = Some c -> (i < String.length s)%nat.
Proof.
  induction s as [|a s IH]; intros i c; [discriminate|].
  destruct i as [|i]; cbn [get String.length]; [lia|].
  intros H. apply IH in H. lia.
Qed.

Lemma all_chars_get (f : ascii -> bool) (s : string) :
  all_chars f s = true <-> (forall i c, get i s = Some c -> f c = true).
Proof.
  induction s as [|a s IH]; cbn [all_chars].
  - split; [discriminate | reflexivity].
  - rewrite andb_true_iff, IH. split.
    + intros [Ha Hs] [|i] c; cbn [get]; [now intros [= <-] | apply Hs].
    + intros H. split; [now apply (H 0%nat) | intros i c; apply (H (S i))].
Qed.

(** The last character of a string that ends in a non-empty suffix is the
    last character of the suffix. *)
Lemma suffix_last (suffix s : string) (k : nat) :
  String.length suffix = S k ->
  (S k <= String.length s)%nat ->
  substring (String.length s - S k) (S k) s = suffix ->
  get (String.length s - 1) s = get k suffix.
Proof.
  intros Hk Hlen <-.
  rewrite (substring_correct1 s (String.length s - S k) (S k) k) by lia.
  f_equal. lia.
Qed.

Lemma upper_then_true (suffix s : string) :
  upper_then suffix s = true ->
  (String.length suffix <= String.length s)%nat /\
  substring (String.length s - String.length suffix) (String.length suffix) s = suffix /\
  (2 <= String.length s - String.length suffix <= 10)%nat /\
  all_chars is_upper
    (substring 0 (String.length s - String.length suffix) s) = true.
Proof.
  unfold upper_then. cbv zeta. rewrite !andb_true_iff.
  intros ((((H1 & H2) & H3) & H4) & H5).
  apply Nat.leb_le in H1, H3, H4. apply String.eqb_eq in H2. auto.
Qed.

Lemma upper_then_upper (suffix s : string) :
  all_chars is_upper suffix = true ->
  upper_then suffix s = true ->
  all_chars is_upper s = true.
Proof.
  intros Hsuffix H. apply upper_then_true in H as (Hlen & Hsub & _ & Hbase).
  rewrite all_chars_get in Hsuffix, Hbase. apply all_chars_get. intros i c Hi.
  pose proof (get_Some_length s i c Hi) as Hlt.
  destruct (Nat.lt_ge_cases i (String.length s - String.length suffix)) as [Hbefore|Hafter].
  - apply (Hbase i).
    rewrite (substring_correct1 s 0 _ i Hbefore). now rewrite Nat.add_0_r.
  - apply (Hsuffix (i - (String.length s - String.length suffix))%nat).
    pose proof (substring_correct1 s (String.length s - String.length suffix)
                  (String.length suffix)
                  (i - (String.length s - String.length suffix))) as Hget.
    rewrite Hsub in Hget. rewrite Hget by lia. rewrite <- Hi. f_equal. lia.
Qed.

(** X4.  A symbol [validateTradingSymbol] accepts is made of 5 to 14
    upper-case letters and ends in USD or USDT. *)
Theorem validateTradingSymbol_shape (symbol : string) :
  validateTradingSymbol symbol = true ->
  (5 <= String.length symbol <= 14)%nat /\
  all_chars is_upper symbol = true /\
  endsWith "USDT" symbol || endsWith "USD" symbol = true.
Proof.
  unfold validateTradingSymbol. rewrite orb_true_iff. intros [H|H].
  - pose proof (upper_then_upper "USDT" symbol eq_refl H) as Hupper.
    apply upper_then_true in H as (Hlen & Hsub & Hbase & _).
    cbn [String.length] in *. split; [lia|]. split; [exact Hupper|].
    unfold endsWith. cbn [String.length]. rewrite Hsub.
    now destruct (Nat.leb_spec 4 (String.length symbol)); [|lia].
  - pose proof (upper_then_upper "USD" symbol eq_refl H) as Hupper.
    apply upper_then_true in H as (Hlen & Hsub & Hbase & _).
    cbn [String.length] in *. split; [lia|]. split; [exact Hupper|].
    unfold endsWith. cbn [String.length]. rewrite Hsub.
    destruct (Nat.leb_spec 3 (String.length symbol)); [|lia].
    apply orb_true_r.
Qed.

Lemma validateTradingSymbol_shape_witness :
  validateTradingSymbol "BTCUSDT" = true /\
  (5 <= String.length "BTCUSDT" <= 14)%nat /\
  all_chars is_upper "BTCUSDT" = true /\
  endsWith "USDT" "BTCUSDT" || endsWith "USD" "BTCUSDT" = true.
Proof.
  assert (H : validateTradingSymbol "BTCUSDT" = true) by reflexivity.
  split; [exact H|]. exact (validateTradingSymbol_shape "BTCUSDT" H).
Defined.

(** X5.  [getAvailableTradingPairs] keeps the pairs quoted in USDC, and
    [validateTradingSymbol] rejects every one of them: no name that ends in
    USDC is a valid symbol. *)
Theorem validateTradingSymbol_rejects_USDC (name : string) :
  endsWith "USDC" name = true ->
  validateTradingSymbol name = false.
Proof.
  unfold endsWith. cbn [String.length]. rewrite andb_true_iff.
  intros [Hlen Hsub]. apply Nat.leb_le in Hlen. apply String.eqb_eq in Hsub.
  pose proof (suffix_last "USDC" name 3 eq_refl Hlen Hsub) as Hlast.
  unfold validateTradingSymbol. apply orb_false_iff. split.
  - destruct (upper_then "USDT" name) eqn:E; [|reflexivity].
    apply upper_then_true in E as (_ & Hsub' & _).
    cbn [String.length] in Hsub'. rewrite Hsub in Hsub'. discriminate.
  - destruct (upper_then "USD" name) eqn:E; [|reflexivity].
    apply upper_then_true in E as (Hlen' & Hsub' & _).
    cbn [String.length] in Hlen', Hsub'.
    pose proof (suffix_last "USD" name 2 eq_refl Hlen' Hsub') as Hlast'.
    rewrite Hlast in Hlast'. discriminate.
Qed.

Lemma validateTradingSymbol_rejects_USDC_witness :
  endsWith "USDC" "BTCUSDC" = true /\ validateTradingSymbol "BTCUSDC" = false.
Proof.
  assert (H : endsWith "USDC" "BTCUSDC" = true) by reflexivity.
  split; [exact H|]. exact (validateTradingSymbol_rejects_USDC "BTCUSDC" H).
Defined.

End SymbolProps.

(** ** Numbers: signs *)

Section SignFacts.
Local Open Scope num_scope.

Lemma Qc_mul_nonneg (a b : Qc) : (0 <= a -> 0 <= b -> 0 <= a * b)%Qc.
Proof.
  unfold Qcle. intros Ha Hb.
  change (this (a * b)%Qc) with (Qred (this a * this b)).
  rewrite (Qred_correct (this a * this b)).
  now apply Qmult_le_0_compat.
Qed.

Lemma Qc_add_nonneg (a b : Qc) : (0 <= a -> 0 <= b -> 0 <= a + b)%Qc.
Proof.
  intros Ha Hb. replace 0%Qc with (0 + 0)%Qc by apply Qcplus_0_l.
  now apply Qcplus_le_compat.
Qed.

Lemma Qc_inv_nonneg (a : Qc) : (0 <= a -> 0 <= / a)%Qc.
Proof.
  unfold Qcle. intros Ha.
  change (this (/ a)%Qc) with (Qred (/ this a)).
  rewrite (Qred_correct (/ this a)).
  now apply Qinv_le_0_compat.
Qed.

Lemma Qc_div_nonneg (a b : Qc) : (0 <= a -> 0 <= b -> 0 <= a / b)%Qc.
Proof. intros Ha Hb. apply Qc_mul_nonneg; [exact Ha | now apply Qc_inv_nonneg]. Qed.

Lemma Qc_div_nonpos (a b : Qc) : (a <= 0 -> 0 <= b -> a / b <= 0)%Qc.
Proof.
  intros Ha Hb. apply Qcopp_le_compat in Ha.
  pose proof (Qc_div_nonneg (- a) b Ha Hb) as H.
  apply Qcopp_le_compat in H.
  replace (- (- a / b))%Qc with (a / b)%Qc in H by (unfold Qcdiv; ring).
  exact H.
Qed.

Lemma Qc_of_nat_nonneg (n : nat) : (0 <= Qc_of_nat n)%Qc.
Proof.
  unfold Qc_of_nat, Qc_of_Z, Qcle, Qle. simpl. lia.
Qed.

Lemma nonneg_not_NaN (x : num) : nonneg x -> JS.isNaN x = false.
Proof. now destruct x. Qed.

Lemma nonneg_geb (x : num) : nonneg x <-> (x >=? n0) = true.
Proof.
  destruct x as [| |q|]; simpl; try (split; [contradiction | discriminate]).
  - symmetry. apply Qcleb_le.
  - split; auto.
Qed.

Lemma nonneg_add (x y : num) : nonneg x -> nonneg y -> nonneg (x + y).
Proof.
  destruct x, y; simpl; try tauto. apply Qc_add_nonneg.
Qed.

(** A non-negative number times a positive rational. *)
Lemma nonneg_scale (x : num) (w : Qc) : nonneg x -> (0 < w)%Qc -> nonneg (x * Fin w).
Proof.
  intros Hx Hw.
  assert (Hs : (w ?= 0)%Qc = Gt) by now apply Qcgt_alt.
  destruct x as [| |q|]; simpl in *; try contradiction.
  - apply Qc_mul_nonneg; [exact Hx | now apply Qclt_le_weak].
  - now rewrite Hs.
Qed.

Lemma nonneg_Math_max_n0 (x : num) : JS.isNaN x = false -> nonneg (JS.Math_max n0 x).
Proof.
  destruct x as [| |q|]; simpl; try congruence; intros _.
  - apply Qcle_refl.
  - destruct (Qcltb 0 q) eqn:E; simpl.
    + apply Qclt_le_weak. now apply Qcltb_lt.
    + apply Qcle_refl.
  - exact I.
Qed.

Lemma or_zero_not_NaN (x : num) : JS.isNaN (JS.or_zero x) = false.
Proof. now destruct x. Qed.

End SignFacts.

(** ** Price change *)

Section PriceChangeProps.
Local Open Scope num_scope.
Import Api.

(** X6.  For a finite previous price and a current price that is a number,
    [calculatePriceChangePercent] is a number: the guard on a previous price
    of 0 leaves no division of zero by zero.  For a positive previous price
    it is at least 0 when the price did not fall and at most 0 when it did
    not rise. *)
Theorem calculatePriceChangePercent_sign (current previous : num) :
  JS.isNaN current = false ->
  JS.isFinite previous = true ->
  JS.isNaN (calculatePriceChangePercent current previous) = false /\
  ((previous >? n0) = true ->
   ((current >=? previous) = true ->
    (calculatePriceChangePercent current previous >=? n0) = true) /\
   ((current <=? previous) = true ->
    (calculatePriceChangePercent current previous <=? n0) = true)).
Proof.
  intros Hcurrent Hprevious.
  destruct previous as [| |b|]; try discriminate. clear Hprevious.
  unfold calculatePriceChangePercent.
  destruct (Qceqb b 0) eqn:Hzero.
  - split; [reflexivity|]. intros _. split; reflexivity.
  - assert (H100 : (0 <= Qc_of_Z 100)%Qc) by (unfold Qcle, Qle; simpl; lia).
    destruct current as [| |a|]; try discriminate; unfold JS.sub, JS.neg, JS.add, JS.div.
    + split; [now cbn; destruct (Qcltb b 0)|].
      intros Hpos. change (Qcltb 0 b = true) in Hpos.
      assert (Hneg : Qcltb b 0 = false).
      { apply Qcltb_false_le, Qclt_le_weak. now apply Qcltb_lt. }
      cbn. rewrite Hneg. split; [discriminate | reflexivity].
    + rewrite Hzero. split; [reflexivity|].
      intros Hpos. change (Qcltb 0 b = true) in Hpos.
      apply Qcltb_lt, Qclt_le_weak in Hpos.
      unfold n100, JS.of_Z, JS.mul, JS.geb, JS.leb, n0, JS.zero. split; intros Hle.
      * apply Qcleb_le in Hle. apply Qcleb_le.
        apply Qc_mul_nonneg; [|exact H100].
        apply Qc_div_nonneg; [|exact Hpos]. exact (proj1 (Qcle_minus_iff b a) Hle).
      * apply Qcleb_le in Hle. apply Qcleb_le.
        apply Qcopp_le_compat in H100.
        assert (Hquot : ((a + - b) / b <= 0)%Qc).
        { apply Qc_div_nonpos; [|exact Hpos].
          apply Qcle_minus_iff in Hle. apply Qcopp_le_compat in Hle.
          replace (- (b + - a))%Qc with (a + - b)%Qc in Hle by ring. exact Hle. }
        apply Qcopp_le_compat in Hquot.
        pose proof (Qc_mul_nonneg _ _ Hquot (Qcopp_le_compat _ _ H100)) as Hprod.
        apply Qcopp_le_compat in Hprod.
        replace (- (- ((a + - b) / b) * - - Qc_of_Z 100))%Qc
          with ((a + - b) / b * Qc_of_Z 100)%Qc in Hprod by ring.
        exact Hprod.
    + split; [now cbn; destruct (Qcltb b 0)|].
      intros Hpos. change (Qcltb 0 b = true) in Hpos.
      assert (Hneg : Qcltb b 0 = false).
      { apply Qcltb_false_le, Qclt_le_weak. now apply Qcltb_lt. }
      cbn. rewrite Hneg. split; [reflexivity | discriminate].
Qed.

Lemma calculatePriceChangePercent_sign_witness :
  JS.isNaN (JS.of_Z 110) = false /\
  JS.isFinite (JS.of_Z 100) = true /\
  JS.isNaN (calculatePriceChangePercent (JS.of_Z 110) (JS.of_Z 100)) = false /\
  ((JS.of_Z 100 >? n0) = true ->
   ((JS.of_Z 110 >=? JS.of_Z 100) = true ->
    (calculatePriceChangePercent (JS.of_Z 110) (JS.of_Z 100) >=? n0) = true) /\
   ((JS.of_Z 110 <=? JS.of_Z 100) = true ->
    (calculatePriceChangePercent (JS.of_Z 110) (JS.of_Z 100) <=? n0) = true)).
Proof.
  assert (H1 : JS.isNaN (JS.of_Z 110) = false) by reflexivity.
  assert (H2 : JS.isFinite (JS.of_Z 100) = true) by reflexivity.
  split; [exact H1|]. split; [exact H2|].
  exact (calculatePriceChangePercent_sign (JS.of_Z 110) (JS.of_Z 100) H1 H2).
Defined.

End PriceChangeProps.

(** ** Volatility: signs *)

Section VolatilityProps.
Context `{host : Host}.
Local Open Scope num_scope.

Lemma scaled_sqrt_nonneg (x : num) :
  (forall q, 0 <= q -> 0 <= sqrtQ q)%Qc ->
  exists q, finite_or_0 (n100 * JS.Math_sqrt sqrtQ x) = Fin q /\ (0 <= q)%Qc.
Proof.
  intros Hsqrt.
  assert (Hzero : exists q, n0 = Fin q /\ (0 <= q)%Qc)
    by (eexists; split; [reflexivity | apply Qcle_refl]).
  destruct x as [| |q|]; try exact Hzero. unfold JS.Math_sqrt.
  destruct (Qcltb q 0) eqn:Hq; [exact Hzero|].
  apply Qcltb_false_le in Hq.
  eexists. split; [reflexivity|].
  apply Qc_mul_nonneg; [|now apply Hsqrt].
  unfold Qcle, Qle. simpl. lia.
Qed.

(** X7.  Whatever the prices are (NaN, infinite, negative, too few), the
    rolling volatility [calculateVolatility] computes is a finite number,
    and it is not negative when the square root is not. *)
Theorem calculateVolatility_finite (prices : list num) :
  (forall q, 0 <= q -> 0 <= sqrtQ q)%Qc ->
  exists q, calculateVolatility prices = Fin q /\ (0 <= q)%Qc.
Proof.
  intros Hsqrt.
  assert (Hzero : exists q, n0 = Fin q /\ (0 <= q)%Qc)
    by (eexists; split; [reflexivity | apply Qcle_refl]).
  rewrite calculateVolatility_spec.
  destruct (length prices <? 2)%nat; [exact Hzero|].
  destruct (length (List.filter valid_price prices) <? 2)%nat; [exact Hzero|].
  unfold rolling_volatility.
  destruct (List.filter JS.isFinite (returns (List.filter valid_price prices)));
    [exact Hzero|].
  unfold stddev. now apply scaled_sqrt_nonneg.
Qed.

Lemma raw_volatility_nonneg (v : num) : nonneg (JS.Math_max n0 (JS.or_zero v)).
Proof. apply nonneg_Math_max_n0, or_zero_not_NaN. Qed.

Lemma enhanced_volatility_nonneg (data : list MarketData) (i : nat) (item : MarketData) :
  nonneg (enhanced_volatility data i item).
Proof.
  unfold enhanced_volatility.
  destruct (length (valid_closes (trailing_window data i)) <? 2)%nat;
    [apply raw_volatility_nonneg|].
  rewrite (mul_comm (Fin (qc 6 10))), (mul_comm (Fin (qc 4 10))).
  apply nonneg_add; apply nonneg_scale; try reflexivity.
  - apply raw_volatility_nonneg.
  - apply nonneg_Math_max_n0, rolling_volatility_number.
Qed.

(** X8.  On two records or more, every volatility the enhancer writes is a
    number that is at least 0 (it may be +Infinity), whatever volatility the
    record came with: a NaN or negative volatility does not survive. *)
Theorem enhanceVolatilityData_nonneg (data : list MarketData) :
  (2 <= length data)%nat ->
  Forall (fun item => nonneg (volatility item)) (enhanceVolatilityData data).
Proof.
  intros Hlen. unfold enhanceVolatilityData.
  destruct (Nat.ltb_spec (length data) 2) as [|_]; [lia|].
  apply Forall_lookup. intros i enhanced. rewrite list_lookup_imap.
  destruct (data !! i) as [item|] eqn:Hi; [|discriminate].
  cbn [fmap option_fmap option_map]. intros Henhanced.
  apply (inj Some) in Henhanced. rewrite <- Henhanced.
  rewrite (enhance_item data i item (lookup_lt_Some _ _ _ Hi)).
  apply enhanced_volatility_nonneg.
Qed.

End VolatilityProps.

Section VolatilityRuns.
#[local] Existing Instance UTC.host.
Local Open Scope num_scope.

Lemma sqrt_floor_nonneg (q : Qc) : (0 <= q -> 0 <= sqrt_floor q)%Qc.
Proof.
  intros _. unfold sqrt_floor, Qcle. cbn [this Q2Qc].
  rewrite (Qred_correct (Z.sqrt (Qnum (this q) * Z.pos (Qden (this q))) # Qden (this q))).
  unfold Qle. simpl. pose proof (Z.sqrt_nonneg (Qnum (this q) * Z.pos (Qden (this q)))).
  lia.
Qed.

Lemma calculateVolatility_finite_witness :
  (forall q, 0 <= q -> 0 <= sqrtQ q)%Qc /\
  exists q, calculateVolatility [JS.of_Z 100; JS.of_Z 110; JS.of_Z 99] = Fin q
            /\ (0 <= q)%Qc.
Proof.
  assert (H : (forall q, 0 <= q -> 0 <= sqrtQ q)%Qc) by exact sqrt_floor_nonneg.
  split; [exact H|].
  exact (calculateVolatility_finite [JS.of_Z 100; JS.of_Z 110; JS.of_Z 99] H).
Defined.

(** A NaN and a negative volatility, enhanced. *)
Lemma enhanceVolatilityData_nonneg_witness :
  let data := [ Sample.day "2024-01-01" NaN; Sample.day "2024-01-02" (JS.of_Z (-3)) ] in
  (2 <= length data)%nat /\
  Forall (fun item => nonneg (volatility item)) (enhanceVolatilityData data).
Proof.
  intros data.
  assert (H : (2 <= length data)%nat) by (simpl; lia).
  split; [exact H|]. exact (enhanceVolatilityData_nonneg data H).
Defined.

End VolatilityRuns.

(** ** Alerts: the operations of the panel *)

Section AlertOpsProps.
Context `{host : Host}.
Local Open Scope num_scope.
Import AlertSystem AlertOps.

(** An alert that was just evaluated is left as it is by an evaluation on
    the same record. *)
Lemma evaluateAlert_settles granted now symbol granted' now' symbol' latest alert :
  evaluateAlert granted' now' symbol' latest
    (snd (evaluateAlert granted now symbol latest alert))
  = ([], snd (evaluateAlert granted now symbol latest alert)).
Proof.
  unfold evaluateAlert.
  destruct (enabled alert) eqn:He; cbn [negb]; [|cbn [snd]; now rewrite He].
  destruct (shouldTrigger latest alert) eqn:Hs, (triggered alert) eqn:Ht;
    cbn [andb negb snd]; rewrite ?He, ?Hs, ?Ht; cbn [negb andb enabled triggered];
    try reflexivity.
  all: now rewrite ?He, andb_false_r.
Qed.

(** X9.  Evaluating the alerts again on the same data changes nothing and
    notifies nothing, whatever the permission, the clock and the symbol are
    by then: one evaluation settles the alerts. *)
Theorem evaluateAlerts_settles granted now symbol granted' now' symbol'
    (data : list MarketData) (alerts : list Alert) :
  evaluateAlerts granted' now' symbol' data
    (snd (evaluateAlerts granted now symbol data alerts))
  = ([], snd (evaluateAlerts granted now symbol data alerts)).
Proof.
  unfold evaluateAlerts.
  destruct (data !! (length data - 1)%nat) as [latest|]; cbn [snd]; [|reflexivity].
  induction alerts as [|alert alerts IH]; [reflexivity|].
  cbn [List.map List.concat]. injection IH as Hshown Hkept.
  rewrite (evaluateAlert_settles granted now symbol granted' now' symbol' latest alert).
  cbn [fst snd app]. now rewrite Hshown, Hkept.
Qed.

(** X10.  Switching an alert off and on again is resetting it: the alert is
    as enabled as before and its triggered flag is cleared, so that it can
    fire again; the other alerts are untouched. *)
Theorem toggleAlert_twice (id0 : string) (alerts : list Alert) :
  toggleAlert id0 (toggleAlert id0 alerts) = resetAlert id0 alerts.
Proof.
  unfold toggleAlert, resetAlert. rewrite List.map_map. apply map_ext.
  intros alert. destruct (String.eqb (id alert) id0) eqn:E; cbn [id]; rewrite E.
  - cbn [enabled lastTriggered type condition threshold].
    now rewrite negb_involutive.
  - reflexivity.
Qed.

Lemma removeAlert_fresh (id0 : string) (alerts : list Alert) :
  Forall (fun alert => id alert <> id0) alerts -> removeAlert id0 alerts = alerts.
Proof.
  unfold removeAlert. induction 1 as [|alert alerts Hid _ IH]; [reflexivity|].
  cbn [List.filter]. apply String.eqb_neq in Hid. rewrite Hid. cbn [negb].
  now rewrite IH.
Qed.

(** X11.  The id of a new alert is the clock reading.  Removing the alert
    that was just added gives back the alerts there were when none of them
    has that id; two alerts added within the same millisecond share their
    id, and removing one removes both. *)
Theorem removeAlert_addAlert (now : num) (first second : NewAlert) (alerts : list Alert) :
  Forall (fun alert => id alert <> num_to_string now) alerts ->
  removeAlert (num_to_string now) (addAlert now first alerts) = alerts /\
  removeAlert (num_to_string now) (addAlert now second (addAlert now first alerts))
  = alerts.
Proof.
  intros Hfresh. unfold addAlert.
  assert (Hdrop : forall (new : NewAlert) (others : list Alert),
            removeAlert (num_to_string now)
              (others ++
               [ {| id := num_to_string now; type := new_type new;
                    condition := new_condition new; threshold := new_threshold new;
                    enabled := true; triggered := false; lastTriggered := None |} ])
            = removeAlert (num_to_string now) others).
  { intros new others. unfold removeAlert. rewrite filter_app. cbn [List.filter id].
    rewrite String.eqb_refl. cbn [negb]. apply app_nil_r. }
  rewrite !Hdrop. split; now apply removeAlert_fresh.
Qed.

End AlertOpsProps.

Section AlertOpsRuns.
#[local] Existing Instance UTC.host.
Import AlertSystem AlertOps.

Lemma removeAlert_addAlert_witness :
  let now := JS.of_Z 1700000000001 in
  let new := {| new_type := Volume; new_condition := Below; new_threshold := JS.of_Z 5 |} in
  Forall (fun alert => id alert <> num_to_string now) [Sample.alert_above_2] /\
  removeAlert (num_to_string now) (addAlert now new [Sample.alert_above_2])
  = [Sample.alert_above_2] /\
  removeAlert (num_to_string now) (addAlert now new (addAlert now new [Sample.alert_above_2]))
  = [Sample.alert_above_2].
Proof.
  intros now new.
  assert (H : Forall (fun alert => id alert <> num_to_string now) [Sample.alert_above_2])
    by (repeat constructor; vm_compute; discriminate).
  split; [exact H|].
  exact (removeAlert_addAlert now new new [Sample.alert_above_2] H).
Defined.

End AlertOpsRuns.

(** ** The hook: what it requests and the state it leaves *)

Section HookStateProps.
Context `{host : Host}.
Local Open Scope num_scope.
Import Hook.

Lemma leb_refl (x : num) : JS.isNaN x = false -> (x <=? x) = true.
Proof.
  destruct x as [| |q|]; simpl; try congruence; intros _.
  apply Qcleb_le, Qcle_refl.
Qed.

Lemma Math_max_geb (x y : num) : (x >=? y) = true -> JS.Math_max x y = x.
Proof.
  intros Hge. unfold JS.geb in Hge.
  destruct (x <? y) eqn:Hlt; [apply ltb_leb_false in Hlt; congruence|].
  unfold JS.Math_max. rewrite Hlt. now destruct x, y.
Qed.

(** The start of the range is never before the launch date. *)
Lemma actualStartDate_launch (month : num) :
  JS.isNaN (actualStartDate month) = false ->
  (actualStartDate month >=? BINANCE_LAUNCH_DATE) = true.
Proof.
  unfold actualStartDate.
  destruct (subDays (startOfMonth month) (JS.of_Z 30) >? BINANCE_LAUNCH_DATE) eqn:E;
    intros Hnum.
  - now apply ltb_leb.
  - now apply leb_refl.
Qed.

(** The enhancer touches the volatility only. *)
Lemma enhanceVolatilityData_items (data : list MarketData) :
  Forall (fun enhanced =>
            exists item v, In item data /\ enhanced = with_volatility item v)
         (enhanceVolatilityData data).
Proof.
  unfold enhanceVolatilityData. destruct (length data <? 2)%nat.
  - apply Forall_forall. intros item Hin. exists item, (volatility item).
    split; [exact Hin | now destruct item].
  - apply Forall_lookup. intros i enhanced. rewrite list_lookup_imap.
    destruct (data !! i) as [item|] eqn:Hi; [|discriminate].
    cbn [fmap option_fmap option_map]. intros Henhanced.
    apply (inj Some) in Henhanced. rewrite <- Henhanced.
    rewrite (enhance_item data i item (lookup_lt_Some _ _ _ Hi)).
    exists item, (enhanced_volatility data i item).
    split; [|reflexivity]. apply list_elem_of_In. now apply list_elem_of_lookup_2 in Hi.
Qed.

(** X12.  Whatever the network answers, a run of [fetchData] ends with
    [loading] false, and with an error exactly when it ends with no data.
    The records it leaves are fetched rows of the month: their prices meet
    the price conditions, their volume is a number and their date lies
    between the start and the end of the month. *)
Theorem fetchData_state (net : request -> response) (symbol : string) (month : num) :
  let st := snd (fetchData net symbol month) in
  loading st = false /\
  (error st = None <-> data st <> []) /\
  Forall (fun item =>
            prices_valid item = true /\
            JS.isNaN (volume item) = false /\
            (Date_parse (date item) >=? startOfMonth month) = true /\
            (Date_parse (date item) <=? endOfMonth month) = true)
         (data st).
Proof.
  assert (Hfailed : forall message,
            loading (failed message) = false /\
            (error (failed message) = None <-> data (failed message) <> []) /\
            Forall (fun item =>
                      prices_valid item = true /\
                      JS.isNaN (volume item) = false /\
                      (Date_parse (date item) >=? startOfMonth month) = true /\
                      (Date_parse (date item) <=? endOfMonth month) = true)
                   (data (failed message))).
  { intros message. split; [reflexivity|]. split; [|constructor].
    split; [discriminate | intros H; now contradiction H]. }
  cbv zeta. unfold fetchData.
  destruct (month <? BINANCE_LAUNCH_DATE); [apply Hfailed|].
  destruct (JS.isNaN (actualStartDate month) || JS.isNaN (endOfMonth month));
    [apply Hfailed|].
  destruct (actualStartDate month >=? endOfMonth month); [apply Hfailed|].
  destruct (String.eqb symbol "" || (String.length symbol <? 6)%nat); [apply Hfailed|].
  destruct (differenceInDays (endOfMonth month) (actualStartDate month) >? JS.of_Z 1000);
    [apply Hfailed|].
  destruct (fetchBinanceKlineData net symbol (actualStartDate month) (endOfMonth month))
    as [requests [klineData|message]] eqn:Hfetch; [|apply Hfailed].
  destruct (length klineData =? 0)%nat; [apply Hfailed|].
  set (kept := List.filter _ (enhanceVolatilityData klineData)).
  destruct (length kept =? 0)%nat eqn:Hkept; [apply Hfailed|].
  cbn [snd loading error data].
  split; [reflexivity|]. split.
  - split; [|reflexivity]. intros _ Hnil. rewrite Hnil in Hkept. discriminate.
  - apply Forall_forall. intros enhanced Hin. subst kept.
    apply filter_In in Hin as [Hin Hmonth].
    pose proof (enhanceVolatilityData_items klineData) as Hitems.
    rewrite Forall_forall in Hitems.
    destruct (Hitems enhanced Hin) as (item & v & Hitem & ->).
    pose proof (fetch_Ok_rows _ _ _ _ _ _ Hfetch) as Hrows.
    rewrite Forall_forall in Hrows. destruct (Hrows item Hitem) as (kline & Hrow).
    apply parseKline_Some in Hrow
      as (fields & _ & _ & _ & _ & _ & _ & _ & Hvolume & Hvalid & _).
    split; [exact Hvalid|]. split; [exact Hvolume|].
    cbn [date with_volatility] in Hmonth |- *.
    destruct (JS.isNaN (Date_parse (date item))); [discriminate|].
    now apply andb_true_iff in Hmonth.
Qed.

(** X13.  A run of [fetchData] issues at most one request.  The request is
    for daily klines of the symbol as it was given, at most 1000 of them,
    from the start date to the end of the month, both rounded down to a
    millisecond; the symbol has six characters or more, the start date is
    not before the launch date and is before the end of the month. *)
Theorem fetchData_request (net : request -> response) (symbol : string) (month : num)
    (r : request) :
  In r (fst (fetchData net symbol month)) ->
  fst (fetchData net symbol month) = [r] /\
  r = {| req_symbol := symbol; req_interval := "1d";
         req_startTime := JS.Math_floor (actualStartDate month);
         req_endTime := JS.Math_floor (endOfMonth month);
         req_limit := 1000 |} /\
  (6 <= String.length symbol)%nat /\
  (actualStartDate month >=? BINANCE_LAUNCH_DATE) = true /\
  (actualStartDate month <? endOfMonth month) = true.
Proof.
  unfold fetchData.
  destruct (month <? BINANCE_LAUNCH_DATE); [intros []|].
  destruct (JS.isNaN (actualStartDate month) || JS.isNaN (endOfMonth month)) eqn:Hnum;
    [intros []|].
  apply orb_false_iff in Hnum as [Hstart Hend].
  destruct (actualStartDate month >=? endOfMonth month) eqn:Horder; [intros []|].
  destruct (String.eqb symbol "" || (String.length symbol <? 6)%nat) eqn:Hsymbol;
    [intros []|].
  apply orb_false_iff in Hsymbol as [_ Hsymbol]. apply Nat.ltb_ge in Hsymbol.
  destruct (differenceInDays (endOfMonth month) (actualStartDate month) >? JS.of_Z 1000);
    [intros []|].
  pose proof (actualStartDate_launch month Hstart) as Hlaunch.
  assert (Hbefore : (actualStartDate month <? endOfMonth month) = true).
  { unfold JS.geb in Horder. now apply leb_false_gtb in Horder. }
  assert (Hrequests :
            forall r,
              In r (fst (fetchBinanceKlineData net symbol (actualStartDate month)
                           (endOfMonth month))) ->
              fst (fetchBinanceKlineData net symbol (actualStartDate month)
                     (endOfMonth month)) = [r] /\
              r = {| req_symbol := symbol; req_interval := "1d";
                     req_startTime := JS.Math_floor (actualStartDate month);
                     req_endTime := JS.Math_floor (endOfMonth month);
                     req_limit := 1000 |}).
  { clear r. intros r. unfold fetchBinanceKlineData.
    rewrite (Math_max_geb _ _ Hlaunch).
    destruct (_ || _ || _); [intros []|].
    destruct (endOfMonth month <? BINANCE_LAUNCH_DATE); [intros []|].
    destruct (_ || _); [intros []|].
    destruct (net _) as [message|[|] status statusText [body|]];
      try (intros [<-|[]]; split; reflexivity).
    destruct body as [| | | | |klineData|];
      try (intros [<-|[]]; split; reflexivity).
    destruct (length klineData =? 0)%nat; intros [<-|[]]; split; reflexivity. }
  destruct (fetchBinanceKlineData net symbol (actualStartDate month) (endOfMonth month))
    as [requests [klineData|message]] eqn:Hfetch; cbn [fst] in Hrequests.
  - destruct (length klineData =? 0)%nat; [|destruct (_ =? _)%nat];
      cbn [fst]; intros Hin; destruct (Hrequests r Hin) as [Hone Hr]; auto.
  - cbn [fst]. intros Hin. destruct (Hrequests r Hin) as [Hone Hr]. auto.
Qed.

End HookStateProps.

Section HookStateRuns.
#[local] Existing Instance UTC.host.
Import Hook.

Lemma fetchData_request_witness :
  let r := {| req_symbol := "BTCUSDT"; req_interval := "1d";
              req_startTime := JS.of_Z 1498953600000;
              req_endTime := Sample.aug31; req_limit := 1000 |} in
  In r (fst (fetchData (Sample.serve [Sample.btc_row]) "BTCUSDT" (JS.of_Z Sample.aug17))) /\
  fst (fetchData (Sample.serve [Sample.btc_row]) "BTCUSDT" (JS.of_Z Sample.aug17)) = [r] /\
  r = {| req_symbol := "BTCUSDT"; req_interval := "1d";
         req_startTime := JS.Math_floor (actualStartDate (JS.of_Z Sample.aug17));
         req_endTime := JS.Math_floor (endOfMonth (JS.of_Z Sample.aug17));
         req_limit := 1000 |} /\
  (6 <= String.length "BTCUSDT")%nat /\
  (actualStartDate (JS.of_Z Sample.aug17) >=? BINANCE_LAUNCH_DATE)%num = true /\
  (actualStartDate (JS.of_Z Sample.aug17) <? endOfMonth (JS.of_Z Sample.aug17))%num = true.
Proof.
  intros r.
  assert (Hrun : fst (fetchData (Sample.serve [Sample.btc_row]) "BTCUSDT"
                        (JS.of_Z Sample.aug17)) = [r]) by by_compute.
  assert (H : In r (fst (fetchData (Sample.serve [Sample.btc_row]) "BTCUSDT"
                           (JS.of_Z Sample.aug17))))
    by (rewrite Hrun; left; reflexivity).
  split; [exact H|].
  exact (fetchData_request (Sample.serve [Sample.btc_row]) "BTCUSDT"
           (JS.of_Z Sample.aug17) r H).
Defined.

End HookStateRuns.

(** ** The comparison dialog and the dashboard *)

Section ParserProps.
Context `{host : Host}.
Local Open Scope num_scope.

(** X14.  The comparison dialog parses a kline as the hook's fetcher does,
    without the price and launch-date checks: every row the fetcher keeps
    the dialog keeps too, as the same record. *)
Theorem dialog_keeps_fetched_rows (kline : any) (r : MarketData) :
  parseKline kline = Some r -> Comparison.parseKline kline = Some r.
Proof.
  unfold parseKline, Comparison.parseKline.
  destruct kline as [| | | | |fields|]; try discriminate.
  destruct (length fields <? 11)%nat; [discriminate|].
  destruct (JS.isNaN (parseFloat (nth 1 fields Undefined))
            || JS.isNaN (parseFloat (nth 2 fields Undefined))
            || JS.isNaN (parseFloat (nth 3 fields Undefined))
            || JS.isNaN (parseFloat (nth 4 fields Undefined))
            || JS.isNaN (parseFloat (nth 5 fields Undefined))); [discriminate|].
  destruct (_ || _ || _ || _); [discriminate|].
  destruct (_ || _); [discriminate|].
  destruct (JS.isNaN (ToNumber (nth 0 fields Undefined))
            || (ToNumber (nth 0 fields Undefined) <=? n0)); [discriminate|].
  destruct (JS.isNaN (Date_of_time (ToNumber (nth 0 fields Undefined))));
    [discriminate|].
  destruct (Date_of_time (ToNumber (nth 0 fields Undefined)) <? BINANCE_LAUNCH_DATE);
    [discriminate|].
  intros H. exact H.
Qed.

End ParserProps.

Section ParserRuns.
#[local] Existing Instance UTC.host.

Lemma dialog_keeps_fetched_rows_witness :
  let r := {| date := "2017-08-17"; open := Fin (qc 426148 100);
              high := Fin (qc 448539 100); low := Fin (qc 420074 100);
              close := Fin (qc 428508 100); volume := Fin (qc 795150377 1000000);
              volatility := Fin (qc 2846500 426148) |} in
  parseKline Sample.btc_row = Some r /\ Comparison.parseKline Sample.btc_row = Some r.
Proof.
  intros r.
  assert (H : parseKline Sample.btc_row = Some r) by by_compute.
  split; [exact H|]. exact (dialog_keeps_fetched_rows Sample.btc_row r H).
Defined.

(** The dialog keeps the row the fetcher drops for its prices: a high below
    the open. *)
Example dialog_keeps_invalid_prices :
  parseKline (Sample.row Sample.aug17 "2" "1" "1" "1" "5") = None /\
  Comparison.parseKline (Sample.row Sample.aug17 "2" "1" "1" "1" "5")
  = Some {| date := "2017-08-17"; open := JS.of_Z 2; high := JS.of_Z 1;
            low := JS.of_Z 1; close := JS.of_Z 1; volume := JS.of_Z 5;
            volatility := n0 |}.
Proof. split; by_compute. Qed.

End ParserRuns.

Section MetricsProps.
Local Open Scope num_scope.

Lemma num_leb_trans (x y z : num) :
  (x <=? y) = true -> (y <=? z) = true -> (x <=? z) = true.
Proof.
  destruct x, y, z; simpl; intros Hxy Hyz; try congruence.
  apply Qcleb_le. apply Qcleb_le in Hxy, Hyz. eapply Qcle_trans; eauto.
Qed.

Lemma Math_max_ub (x y : num) :
  JS.isNaN x = false -> JS.isNaN y = false ->
  JS.isNaN (JS.Math_max x y) = false /\
  (x <=? JS.Math_max x y) = true /\ (y <=? JS.Math_max x y) = true.
Proof.
  intros Hx Hy. split; [now rewrite Math_max_NaN, Hx, Hy|].
  assert (Hmax : JS.Math_max x y = if x <? y then y else x)
    by (destruct x, y; try discriminate; reflexivity).
  rewrite Hmax. destruct (x <? y) eqn:Hlt.
  - split; [now apply ltb_leb | now apply leb_refl].
  - split; [now apply leb_refl | now apply ltb_false_geb].
Qed.

Lemma Math_min_lb (x y : num) :
  JS.isNaN x = false -> JS.isNaN y = false ->
  JS.isNaN (JS.Math_min x y) = false /\
  (JS.Math_min x y <=? x) = true /\ (JS.Math_min x y <=? y) = true.
Proof.
  intros Hx Hy. split; [now rewrite Math_min_NaN, Hx, Hy|].
  assert (Hmin : JS.Math_min x y = if y <? x then y else x)
    by (destruct x, y; try discriminate; reflexivity).
  rewrite Hmin. destruct (y <? x) eqn:Hlt.
  - split; [now apply ltb_leb | now apply leb_refl].
  - split; [now apply leb_refl | now apply ltb_false_geb].
Qed.

(** [Math.max(...xs)] of numbers is a number no element exceeds. *)
Lemma fold_Math_max_ub (xs : list num) :
  forall acc,
    JS.isNaN acc = false ->
    Forall (fun x => JS.isNaN x = false) xs ->
    JS.isNaN (fold_left JS.Math_max xs acc) = false /\
    (acc <=? fold_left JS.Math_max xs acc) = true /\
    Forall (fun x => (x <=? fold_left JS.Math_max xs acc) = true) xs.
Proof.
  induction xs as [|x xs IH]; intros acc Hacc Hxs; cbn [fold_left].
  - split; [exact Hacc|]. split; [now apply leb_refl | constructor].
  - inversion Hxs as [|? ? Hx Hrest]; subst.
    destruct (Math_max_ub acc x Hacc Hx) as (Hnum & Hl & Hr).
    destruct (IH (JS.Math_max acc x) Hnum Hrest) as (Hnum' & Hle & Hall).
    split; [exact Hnum'|]. split; [now apply (num_leb_trans _ (JS.Math_max acc x))|].
    constructor; [now apply (num_leb_trans _ (JS.Math_max acc x)) | exact Hall].
Qed.

Lemma fold_Math_min_lb (xs : list num) :
  forall acc,
    JS.isNaN acc = false ->
    Forall (fun x => JS.isNaN x = false) xs ->
    JS.isNaN (fold_left JS.Math_min xs acc) = false /\
    (fold_left JS.Math_min xs acc <=? acc) = true /\
    Forall (fun x => (fold_left JS.Math_min xs acc <=? x) = true) xs.
Proof.
  induction xs as [|x xs IH]; intros acc Hacc Hxs; cbn [fold_left].
  - split; [exact Hacc|]. split; [now apply leb_refl | constructor].
  - inversion Hxs as [|? ? Hx Hrest]; subst.
    destruct (Math_min_lb acc x Hacc Hx) as (Hnum & Hl & Hr).
    destruct (IH (JS.Math_min acc x) Hnum Hrest) as (Hnum' & Hle & Hall).
    split; [exact Hnum'|]. split; [now apply (num_leb_trans _ (JS.Math_min acc x))|].
    constructor; [now apply (num_leb_trans _ (JS.Math_min acc x)) | exact Hall].
Qed.

(** The high and the low of a record with valid prices are numbers, the low
    at most the high. *)
Lemma prices_valid_low_high (item : MarketData) :
  prices_valid item = true ->
  JS.isNaN (high item) = false /\ JS.isNaN (low item) = false /\
  (low item <=? high item) = true.
Proof.
  unfold prices_valid, price_conditions. intros H.
  repeat (apply andb_true_iff in H as [H ?]).
  match goal with
  | Ho : (open item >? n0) = true, Hc : (close item >? n0) = true,
    Hh : (high item >=? JS.Math_max _ _) = true,
    Hl : (low item <=? JS.Math_min _ _) = true |- _ =>
      apply ltb_not_NaN in Ho as [_ Ho]; apply ltb_not_NaN in Hc as [_ Hc];
      destruct (Math_max_ub _ _ Ho Hc) as (_ & Hmax & _);
      destruct (Math_min_lb _ _ Ho Hc) as (_ & Hmin & _);
      pose proof (leb_not_NaN _ _ Hh) as [_ Hhigh];
      pose proof (leb_not_NaN _ _ Hl) as [Hlow _];
      split; [exact Hhigh|]; split; [exact Hlow|];
      apply (num_leb_trans _ _ _ Hl), (num_leb_trans _ _ _ Hmin),
            (num_leb_trans _ _ _ Hmax), Hh
  end.
Qed.

(** X15.  On a non-empty selection of records with valid prices, as the
    fetcher returns them, the dashboard has metrics: [maxPrice] is a number
    no high exceeds, [minPrice] a number no low is below, and [minPrice] is
    at most [maxPrice]. *)
Theorem aggregatedMetrics_bounds (selected : list MarketData) :
  selected <> [] ->
  Forall (fun item => prices_valid item = true) selected ->
  exists m,
    Dashboard.aggregatedMetrics selected = Some m /\
    Dashboard.tradingDays m = length selected /\
    Forall (fun item =>
              (high item <=? Dashboard.maxPrice m) = true /\
              (Dashboard.minPrice m <=? low item) = true)
           selected /\
    (Dashboard.minPrice m <=? Dashboard.maxPrice m) = true.
Proof.
  intros Hne Hvalid. unfold Dashboard.aggregatedMetrics.
  destruct selected as [|first rest]; [congruence|]. cbn [length Nat.eqb].
  eexists. split; [reflexivity|].
  cbn [Dashboard.tradingDays Dashboard.maxPrice Dashboard.minPrice].
  split; [reflexivity|].
  assert (Hhighs : Forall (fun x => JS.isNaN x = false) (List.map high (first :: rest))).
  { apply Forall_forall. intros x Hx. apply in_map_iff in Hx as (item & <- & Hin).
    rewrite Forall_forall in Hvalid. now apply prices_valid_low_high, Hvalid. }
  assert (Hlows : Forall (fun x => JS.isNaN x = false) (List.map low (first :: rest))).
  { apply Forall_forall. intros x Hx. apply in_map_iff in Hx as (item & <- & Hin).
    rewrite Forall_forall in Hvalid. now apply prices_valid_low_high, Hvalid. }
  destruct (fold_Math_max_ub _ NInf eq_refl Hhighs) as (_ & _ & Hmax).
  destruct (fold_Math_min_lb _ PInf eq_refl Hlows) as (_ & _ & Hmin).
  fold (Math_max_list (List.map high (first :: rest))) in Hmax.
  fold (Math_min_list (List.map low (first :: rest))) in Hmin.
  rewrite Forall_forall in Hmax, Hmin.
  assert (Hall : forall item, In item (first :: rest) ->
            (high item <=? Math_max_list (List.map high (first :: rest))) = true /\
            (Math_min_list (List.map low (first :: rest)) <=? low item) = true).
  { intros item Hin. split; [apply Hmax | apply Hmin]; now apply in_map. }
  split; [now apply Forall_forall|].
  destruct (Hall first (or_introl eq_refl)) as [Hhigh Hlow].
  rewrite Forall_forall in Hvalid.
  destruct (prices_valid_low_high first (Hvalid first (or_introl eq_refl)))
    as (_ & _ & Hfirst).
  apply (num_leb_trans _ _ _ Hlow), (num_leb_trans _ _ _ Hfirst), Hhigh.
Qed.

Lemma aggregatedMetrics_bounds_witness :
  let selected := [Sample.day "2024-01-01" n0; Sample.day "2024-01-02" n0] in
  selected <> [] /\
  Forall (fun item => prices_valid item = true) selected /\
  exists m,
    Dashboard.aggregatedMetrics selected = Some m /\
    Dashboard.tradingDays m = length selected /\
    Forall (fun item =>
              (high item <=? Dashboard.maxPrice m) = true /\
              (Dashboard.minPrice m <=? low item) = true)
           selected /\
    (Dashboard.minPrice m <=? Dashboard.maxPrice m) = true.
Proof.
  intros selected.
  assert (H1 : selected <> []) by discriminate.
  assert (H2 : Forall (fun item => prices_valid item = true) selected)
    by (repeat constructor).
  split; [exact H1|]. split; [exact H2|].
  exact (aggregatedMetrics_bounds selected H1 H2).
Defined.

End MetricsProps.

(** ** From the calendar to the dashboard *)

Section SelectionProps.
Context `{host : Host}.
Context (toDateString : num -> string) (isFuture : num -> bool).
Local Open Scope num_scope.

(** X16.  A click on a week of the weekly view selects the range from the
    start to the end of the week, and the page hands it to the dashboard
    with no selected date.  The dashboard then shows the records of the
    week's row, and its total volume and total return are the row's volume
    and performance; the row's average volatility is the dashboard's, with 0
    for NaN.  The dashboard has no metrics exactly when the week has no
    record. *)
Theorem week_selection (data : list MarketData) (weekStart : num) (range : num * num) :
  CalendarOps.weekClick isFuture weekStart = Some range ->
  let week := Calendar.weekSummary data weekStart in
  let selected := Dashboard.selectedData toDateString None (Some range) data in
  selected = Calendar.weekData week /\
  match Dashboard.aggregatedMetrics selected with
  | None => Calendar.weekData week = []
  | Some m =>
      Calendar.weekData week <> [] /\
      Dashboard.tradingDays m = length (Calendar.weekData week) /\
      Dashboard.totalVolume m = Calendar.totalVolume week /\
      Dashboard.totalReturn m = Calendar.weekPerformance week /\
      JS.or_else (Dashboard.avgVolatility m) n0 = Calendar.avgVolatility week
  end.
Proof.
  unfold CalendarOps.weekClick.
  destruct (negb _); [|discriminate]. intros [= <-].
  cbv zeta. unfold Dashboard.selectedData, Calendar.weekSummary.
  cbn [Calendar.weekData Calendar.totalVolume Calendar.weekPerformance
       Calendar.avgVolatility].
  set (weekData := List.filter _ data).
  split; [reflexivity|].
  unfold Dashboard.aggregatedMetrics.
  destruct weekData as [|first rest]; [reflexivity|].
  cbn [length Nat.eqb Dashboard.tradingDays Dashboard.totalVolume
       Dashboard.totalReturn Dashboard.avgVolatility].
  split; [discriminate|]. repeat split.
Qed.

End SelectionProps.

Section SelectionRuns.
#[local] Existing Instance UTC.host.
Local Open Scope num_scope.

(** The week of 5 January 2020, seen from a clock before which nothing is
    in the future. *)
Lemma week_selection_witness :
  let weekStart := JS.of_Z 1578182400000 in
  let range := (weekStart, endOfWeek weekStart) in
  let week := Calendar.weekSummary Sample.january weekStart in
  let selected :=
    Dashboard.selectedData (fun d => format d "yyyy-MM-dd") None (Some range)
      Sample.january in
  CalendarOps.weekClick (fun _ => false) weekStart = Some range /\
  selected = Calendar.weekData week /\
  match Dashboard.aggregatedMetrics selected with
  | None => Calendar.weekData week = []
  | Some m =>
      Calendar.weekData week <> [] /\
      Dashboard.tradingDays m = length (Calendar.weekData week) /\
      Dashboard.totalVolume m = Calendar.totalVolume week /\
      Dashboard.totalReturn m = Calendar.weekPerformance week /\
      JS.or_else (Dashboard.avgVolatility m) n0 = Calendar.avgVolatility week
  end.
Proof.
  intros weekStart range week selected.
  assert (H : CalendarOps.weekClick (fun _ => false) weekStart = Some range)
    by by_compute.
  split; [exact H|].
  exact (week_selection (fun d => format d "yyyy-MM-dd") (fun _ => false)
           Sample.january weekStart range H).
Defined.

End SelectionRuns.

(** ** The page: the history of the pattern analysis *)

Section PageProps.
Context `{host : Host}.
Local Open Scope num_scope.
Import Hook.

(** A run of the hook ends with [loading] false, and with no error when it
    ends with data. *)
Lemma fetchData_settled (net : request -> response) (symbol : string) (month : num) :
  let st := snd (fetchData net symbol month) in
  loading st = false /\ (data st <> [] -> error st = None).
Proof.
  assert (Hfailed : forall message,
            loading (failed message) = false /\
            (data (failed message) <> [] -> error (failed message) = None)).
  { intros message. split; [reflexivity|]. intros H. now contradiction H. }
  cbv zeta. unfold fetchData.
  repeat match goal with
         | |- context [if ?c then (_, failed _) else _] =>
             destruct c; [apply Hfailed|]
         end.
  destruct (fetchBinanceKlineData _ _ _ _) as [requests [klineData|message]];
    [|apply Hfailed].
  repeat match goal with
         | |- context [if ?c then (_, failed _) else _] =>
             destruct c; [apply Hfailed|]
         end.
  split; [reflexivity|]. reflexivity.
Qed.

(** X17.  The history the page keeps for the pattern analysis never holds
    more than 180 records, whatever states the hook goes through. *)
Theorem history_bounded (states : list State) :
  (length (fold_left (fun prev st => Page.accumulate st prev) states []) <= 180)%nat.
Proof.
  assert (Hstep : forall st prev,
            (length prev <= 180)%nat -> (length (Page.accumulate st prev) <= 180)%nat).
  { intros st prev Hprev. unfold Page.accumulate.
    destruct (_ && _ && _); [|exact Hprev].
    cbv zeta. rewrite length_drop. lia. }
  assert (Hrun : forall prev,
            (length prev <= 180)%nat ->
            (length (fold_left (fun prev st => Page.accumulate st prev) states prev)
             <= 180)%nat).
  { induction states as [|st states IH]; intros prev Hprev; [exact Hprev|].
    cbn [fold_left]. apply IH, Hstep, Hprev. }
  apply Hrun. cbn [length]. lia.
Qed.

(** The analysis looks at the history followed by the data only. *)
Lemma patterns_allData (historicalData data : list MarketData) :
  PatternAnalyzer.patterns historicalData data
  = PatternAnalyzer.patterns [] (historicalData ++ data).
Proof. reflexivity. Qed.

(** X18.  When a run of the hook ends with data (of at most 180 records),
    the page appends the data to the history, and the analyzer, which is
    given both, appends the data to the history again: the analysis runs on
    a sequence that ends with the records of the month twice. *)
Theorem analysis_counts_data_twice (net : request -> response) (symbol : string)
    (month : num) (prev : list MarketData) :
  let st := snd (fetchData net symbol month) in
  data st <> [] ->
  (length (data st) <= 180)%nat ->
  exists older,
    Page.accumulate st prev = older ++ data st /\
    Page.analysed st (Page.accumulate st prev)
    = PatternAnalyzer.patterns [] (older ++ data st ++ data st).
Proof.
  intros st Hdata Hlen.
  destruct (fetchData_settled net symbol month) as [Hloading Herror].
  fold st in Hloading, Herror. specialize (Herror Hdata).
  assert (Hkeep : Page.accumulate st prev
                  = drop (length (prev ++ data st) - 180) (prev ++ data st)).
  { unfold Page.accumulate. rewrite Hloading, Herror. cbn [negb andb Page.no_error].
    destruct (data st); [congruence | reflexivity]. }
  exists (drop (length (prev ++ data st) - 180) prev).
  assert (Hsplit : drop (length (prev ++ data st) - 180) (prev ++ data st)
                   = drop (length (prev ++ data st) - 180) prev ++ data st).
  { rewrite drop_app.
    replace (length (prev ++ data st) - 180 - length prev)%nat with 0%nat
      by (rewrite length_app; lia).
    reflexivity. }
  split; [now rewrite Hkeep|].
  unfold Page.analysed. rewrite patterns_allData, Hkeep, Hsplit.
  now rewrite <- app_assoc.
Qed.

End PageProps.

Section PageRuns.
#[local] Existing Instance UTC.host.
Import Hook.

Lemma analysis_counts_data_twice_witness :
  let st := snd (fetchData (Sample.serve [Sample.btc_row]) "BTCUSDT" (JS.of_Z Sample.aug17)) in
  data st <> [] /\
  (length (data st) <= 180)%nat /\
  exists older,
    Page.accumulate st [] = older ++ data st /\
    Page.analysed st (Page.accumulate st [])
    = PatternAnalyzer.patterns [] (older ++ data st ++ data st).
Proof.
  intros st.
  assert (Hrun : data st
                 = [ {| date := "2017-08-17"; open := Fin (qc 426148 100);
                        high := Fin (qc 448539 100); low := Fin (qc 420074 100);
                        close := Fin (qc 428508 100);
                        volume := Fin (qc 795150377 1000000);
                        volatility := Fin (qc 2846500 426148) |} ]) by by_compute.
  assert (H1 : data st <> []) by (rewrite Hrun; discriminate).
  assert (H2 : (length (data st) <= 180)%nat) by (rewrite Hrun; simpl; lia).
  split; [exact H1|]. split; [exact H2|].
  exact (analysis_counts_data_twice (Sample.serve [Sample.btc_row]) "BTCUSDT"
           (JS.of_Z Sample.aug17) [] H1 H2).
Defined.

End PageRuns.

(** ** The pattern list: confidence and order *)

Section ConfidenceProps.
Context `{host : Host}.
Local Open Scope num_scope.
Import PatternAnalyzer.

Lemma Ok_inj {A : Type} (x y : A) : Ok x = Ok y -> x = y.
Proof. congruence. Qed.

Lemma Qc_mul_pos (a b : Qc) : (0 < a -> 0 < b -> 0 < a * b)%Qc.
Proof.
  unfold Qclt. intros Ha Hb.
  change (this (a * b)%Qc) with (Qred (this a * this b)).
  rewrite (Qred_correct (this a * this b)).
  now apply Qmult_lt_0_compat.
Qed.

Lemma Qc_inv_pos (a : Qc) : (0 < a -> 0 < / a)%Qc.
Proof.
  unfold Qclt. intros Ha.
  change (this (/ a)%Qc) with (Qred (/ this a)).
  rewrite (Qred_correct (/ this a)).
  now apply Qinv_lt_0_compat.
Qed.

Lemma Qc_of_Z_pos (z : Z) : (0 < z)%Z -> (0 < Qc_of_Z z)%Qc.
Proof. intros Hz. unfold Qc_of_Z, Qclt, Qlt. simpl. lia. Qed.

Lemma positive_of_Z (z : Z) : (0 < z)%Z -> positive (JS.of_Z z).
Proof. apply Qc_of_Z_pos. Qed.

Lemma positive_of_nat (n : nat) : (0 < n)%nat -> positive (JS.of_nat n).
Proof. intros Hn. apply Qc_of_Z_pos. lia. Qed.

Lemma positive_mul (x y : num) : positive x -> positive y -> positive (x * y).
Proof. destruct x, y; simpl; try tauto. apply Qc_mul_pos. Qed.

Lemma positive_div (x y : num) : positive x -> positive y -> positive (x / y).
Proof.
  destruct x as [| |a|], y as [| |b|]; simpl; try tauto. intros Ha Hb.
  destruct (Qceqb b 0) eqn:E.
  - apply Qceqb_eq in E. subst b. now apply Qclt_not_eq in Hb.
  - apply Qc_mul_pos; [exact Ha | now apply Qc_inv_pos].
Qed.

(** [Math.min(cap, x)] for a positive [x]. *)
Lemma Math_min_cap (cap : Z) (x : num) :
  (0 < cap)%Z -> positive x ->
  match JS.Math_min (JS.of_Z cap) x with
  | Fin q => (0 < q)%Qc /\ (q <= Qc_of_Z cap)%Qc
  | _ => False
  end.
Proof.
  intros Hcap Hx. destruct x as [| |q|]; try contradiction.
  unfold JS.Math_min, JS.of_Z, JS.ltb.
  destruct (Qcltb q (Qc_of_Z cap)) eqn:E.
  - split; [exact Hx|]. apply Qclt_le_weak. now apply Qcltb_lt.
  - split; [now apply Qc_of_Z_pos | apply Qcle_refl].
Qed.

Lemma weeklyPattern_confidence (allData : list MarketData) (weekly : list Pattern) :
  (0 < length allData)%nat ->
  weeklyPattern allData = Ok weekly ->
  Forall confidence_in_range weekly.
Proof.
  intros Hlen. unfold weeklyPattern.
  destruct (List.map _ _) as [|first rest]; [discriminate|].
  intros Heq. apply Ok_inj in Heq. rewrite <- Heq.
  destruct (_ && _) eqn:Hcond; [|constructor].
  apply andb_true_iff in Hcond as [_ Hcount]. apply Nat.leb_le in Hcount.
  constructor; [|constructor].
  apply (Math_min_cap 95); [lia|].
  repeat apply positive_mul; try (apply positive_of_Z; lia).
  apply positive_div; apply positive_of_nat; lia.
Qed.

Lemma monthlyPatterns_confidence (allData : list MarketData) :
  (0 < length allData)%nat ->
  Forall confidence_in_range (monthlyPatterns allData).
Proof.
  intros Hlen. unfold monthlyPatterns.
  apply Forall_forall. intros p Hin.
  apply in_flat_map in Hin as ([period periodData] & _ & Hin).
  destruct (_ && _) eqn:Hcond; [|destruct Hin].
  apply andb_true_iff in Hcond as [_ Hcount]. apply Nat.leb_le in Hcount.
  destruct Hin as [<-|[]].
  apply (Math_min_cap 90); [lia|].
  repeat apply positive_mul; try (apply positive_of_Z; lia).
  apply positive_div; apply positive_of_nat; lia.
Qed.

Lemma clusteringPattern_confidence (allData : list MarketData) :
  (0 < length allData)%nat ->
  Forall confidence_in_range (clusteringPattern allData).
Proof.
  intros Hlen. unfold clusteringPattern.
  destruct (Nat.leb_spec 3 (clusterCount allData)) as [Hcount|_]; [|constructor].
  constructor; [|constructor].
  apply (Math_min_cap 85); [lia|].
  apply positive_mul; [|apply positive_of_Z; lia].
  apply positive_div; [apply positive_of_nat; lia|].
  apply positive_div; [apply positive_of_nat; lia | apply positive_of_Z; lia].
Qed.

Lemma volumeSpikesPattern_confidence (allData : list MarketData) :
  (0 < length allData)%nat ->
  Forall confidence_in_range (volumeSpikesPattern allData).
Proof.
  intros Hlen. unfold volumeSpikesPattern.
  destruct (Nat.leb_spec 3 (length (List.filter
              (fun item => volume item >? sum_of volume allData
                                          / JS.of_nat (length allData) * n2)
              allData))) as [Hcount|_]; [|constructor].
  constructor; [|constructor].
  apply (Math_min_cap 80); [lia|].
  repeat apply positive_mul; try (apply positive_of_Z; lia).
  apply positive_div; apply positive_of_nat; lia.
Qed.

Lemma anomaliesPattern_confidence (allData : list MarketData) :
  (0 < length allData)%nat ->
  Forall confidence_in_range (anomaliesPattern allData).
Proof.
  intros Hlen. unfold anomaliesPattern.
  destruct (2 <=? length _)%nat eqn:Hcount; [|constructor].
  apply Nat.leb_le in Hcount.
  constructor; [|constructor].
  apply (Math_min_cap 75); [lia|].
  repeat apply positive_mul; try (apply positive_of_Z; lia).
  apply positive_div; apply positive_of_nat; lia.
Qed.

(** Sorting by [b.confidence - a.confidence] puts finite confidences in
    descending order. *)
Lemma sort_insert_by_confidence (p : Pattern) (sorted : list Pattern) :
  confidence_in_range p ->
  Forall confidence_in_range sorted ->
  by_confidence sorted ->
  by_confidence (sort_insert (fun a b => confidence b - confidence a) p sorted).
Proof.
  unfold by_confidence. intros Hp Hall Hsorted.
  induction Hsorted as [|q sorted Hsorted IH Hq]; cbn [sort_insert].
  - repeat constructor.
  - inversion Hall as [|? ? Hq_range Hrest]; subst.
    assert (Horder : if JS.gtb (confidence q - confidence p) n0
                     then (confidence q >=? confidence p) = true
                     else (confidence p >=? confidence q) = true).
    { unfold confidence_in_range in Hp, Hq_range.
      destruct (confidence p) as [| |a|], (confidence q) as [| |b|]; try contradiction.
      unfold JS.sub, JS.neg, JS.add, JS.gtb, JS.geb, JS.ltb, JS.leb, n0, JS.zero.
      destruct (Qcltb 0 (b + - a)) eqn:E.
      - apply Qcltb_lt in E. apply Qcleb_le, Qclt_le_weak.
        apply Qclt_minus_iff. exact E.
      - apply Qcltb_false_le in E. apply Qcleb_le.
        apply Qcle_minus_iff. 
        replace (a + - b)%Qc with (- (b + - a))%Qc by ring.
        now apply Qcopp_le_compat in E. }
    destruct (JS.gtb (confidence q - confidence p) n0).
    + constructor; [now apply IH|].
      apply sort_insert_Forall; [exact Horder | exact Hq].
    + constructor; [now constructor|]. constructor; [exact Horder|].
      eapply Forall_impl; [|exact Hq]. intros r Hr. cbv beta in Hr |- *.
      unfold JS.geb in *. now apply (num_leb_trans _ (confidence q)).
Qed.

Lemma sort_by_confidence (ps : list Pattern) :
  Forall confidence_in_range ps ->
  Forall confidence_in_range (sort (fun a b => confidence b - confidence a) ps) /\
  by_confidence (sort (fun a b => confidence b - confidence a) ps).
Proof.
  induction 1 as [|p ps Hp Hps [IHrange IHsorted]].
  - split; constructor.
  - unfold sort. cbn [fold_right].
    split; [now apply sort_insert_Forall | now apply sort_insert_by_confidence].
Qed.

(** X19.  [patterns] never throws.  On fewer than 30 records it detects
    nothing; otherwise every pattern it lists has a finite confidence above
    0 and at most the cap of its type (95, 90, 85, 80 and 75 for the weekly,
    monthly, volatility, volume and anomaly patterns), and the list is in
    descending order of confidence. *)
Theorem patterns_confidence (historicalData data : list MarketData) :
  exists detected,
    patterns historicalData data = Ok detected /\
    ((length (historicalData ++ data) < 30)%nat -> detected = []) /\
    Forall confidence_in_range detected /\
    by_confidence detected.
Proof.
  unfold patterns.
  destruct (Nat.ltb_spec (length (historicalData ++ data)) 30) as [Hfew|Hlen].
  - exists []. split; [reflexivity|]. split; [reflexivity|]. split; constructor.
  - destruct (weeklyPattern_Ok (historicalData ++ data)) as (weekly & Hweekly & _).
    { intros E. rewrite E in Hlen. cbn [length] in Hlen. lia. }
    rewrite Hweekly. eexists. split; [reflexivity|]. split; [lia|].
    apply sort_by_confidence.
    repeat (apply Forall_app; split).
    + apply (weeklyPattern_confidence (historicalData ++ data)); [lia | exact Hweekly].
    + apply monthlyPatterns_confidence. lia.
    + apply clusteringPattern_confidence. lia.
    + apply volumeSpikesPattern_confidence. lia.
    + apply anomaliesPattern_confidence. lia.
Qed.

End ConfidenceProps.

(** ** Objects used as maps: grouping *)

Section GroupProps.
Context {K A : Type} (key_eqb : K -> K -> bool) (key_index : K -> option Z).
Hypothesis key_eqb_eq : forall a b, key_eqb a b = true <-> a = b.

Lemma has_key_In (k : K) (entries : list (K * list A)) :
  has_key key_eqb k entries = true <-> In k (List.map fst entries).
Proof.
  unfold has_key. rewrite existsb_exists, in_map_iff. split.
  - intros (kv & Hin & Hk). apply key_eqb_eq in Hk. eauto.
  - intros (kv & Hk & Hin). exists kv. split; [exact Hin | now apply key_eqb_eq].
Qed.

(** A new key is put somewhere among the entries, with no element. *)
Lemma create_key_split (k : K) (entries : list (K * list A)) :
  exists pre post,
    entries = pre ++ post /\ create_key key_index k entries = pre ++ (k, []) :: post.
Proof.
  induction entries as [|[k' v'] rest (pre & post & Hrest & Hcreate)]; cbn [create_key].
  - now exists [], [].
  - destruct (key_index k) as [i|], (key_index k') as [j|];
      try (exists ((k', v') :: pre), post; cbn [app]; now rewrite <- Hrest, Hcreate);
      try (now exists [], ((k', v') :: rest)).
    destruct (i <? j)%Z.
    + now exists [], ((k', v') :: rest).
    + exists ((k', v') :: pre), post. cbn [app]. now rewrite <- Hrest, Hcreate.
Qed.

(** The entries a push works on: the key is there, once. *)
Lemma group_push_entries (acc : list (K * list A)) (k : K) :
  List.NoDup (List.map fst acc) ->
  let entries := if has_key key_eqb k acc then acc else create_key key_index k acc in
  List.NoDup (List.map fst entries) /\
  In k (List.map fst entries) /\
  List.concat (List.map snd entries) = List.concat (List.map snd acc) /\
  (forall kv, In kv entries -> In kv acc \/ kv = (k, [])).
Proof.
  intros Hkeys. cbv zeta. destruct (has_key key_eqb k acc) eqn:Hk.
  - split; [exact Hkeys|]. split; [now apply has_key_In|]. split; [reflexivity | auto].
  - assert (Hnew : ~ In k (List.map fst acc)).
    { intros Hin. apply has_key_In in Hin. congruence. }
    destruct (create_key_split k acc) as (pre & post & -> & ->).
    rewrite !List.map_app, !List.concat_app in *. cbn [List.map fst snd List.concat app].
    split; [|split; [|split]].
    + apply (Permutation_NoDup (l := k :: List.map fst pre ++ List.map fst post)).
      * apply Permutation_middle.
      * now constructor.
    + apply in_or_app. right. now left.
    + reflexivity.
    + intros kv Hin. apply in_app_or in Hin as [Hin|[<-|Hin]]; auto;
        left; apply in_or_app; auto.
Qed.

(** Pushing on the entry of a key that is there once. *)
Lemma push_items (k : K) (item : A) (entries : list (K * list A)) :
  List.NoDup (List.map fst entries) ->
  (In k (List.map fst entries) ->
   Permutation
     (List.concat
        (List.map snd
           (List.map (fun kv => if key_eqb (fst kv) k
                                then (fst kv, snd kv ++ [item]) else kv)
                     entries)))
     (item :: List.concat (List.map snd entries))) /\
  (~ In k (List.map fst entries) ->
   List.map (fun kv => if key_eqb (fst kv) k then (fst kv, snd kv ++ [item]) else kv)
            entries
   = entries).
Proof.
  induction entries as [|[k' v'] rest IH]; intros Hkeys.
  - split; [intros [] | reflexivity].
  - cbn [List.map fst snd] in Hkeys.
    inversion Hkeys as [|? ? Hfresh Hkeys']; subst.
    destruct (IH Hkeys') as [IHin IHout]. cbn [List.map fst snd List.concat].
    destruct (key_eqb k' k) eqn:Hk.
    + apply key_eqb_eq in Hk. subst k'. split.
      * intros _. rewrite IHout by exact Hfresh.
        cbn [snd]. rewrite <- app_assoc. cbn [app].
        symmetry. apply Permutation_middle.
      * intros Hout. contradiction Hout. now left.
    + assert (Hneq : k' <> k) by (intros Heq; apply key_eqb_eq in Heq; congruence).
      split.
      * intros [Heq|Hin]; [contradiction|]. cbn [snd].
        rewrite (IHin Hin). symmetry. apply Permutation_middle.
      * intros Hout. rewrite IHout; [reflexivity|]. intros Hin. apply Hout. now right.
Qed.

Lemma push_keys (k : K) (item : A) (entries : list (K * list A)) :
  List.map fst
    (List.map (fun kv => if key_eqb (fst kv) k then (fst kv, snd kv ++ [item]) else kv)
              entries)
  = List.map fst entries.
Proof.
  rewrite List.map_map. apply map_ext. intros kv. now destruct (key_eqb (fst kv) k).
Qed.

(** What a push keeps: distinct keys, groups with an element, and elements
    under their key; and what it adds: the element. *)
Lemma group_push_spec (key : A -> K) (acc : list (K * list A)) (item : A) :
  List.NoDup (List.map fst acc) ->
  Forall (fun kv => snd kv <> [] /\ Forall (fun x => key x = fst kv) (snd kv)) acc ->
  List.NoDup (List.map fst (group_push key_eqb key_index acc (key item) item)) /\
  Forall (fun kv => snd kv <> [] /\ Forall (fun x => key x = fst kv) (snd kv))
         (group_push key_eqb key_index acc (key item) item) /\
  Permutation
    (List.concat (List.map snd (group_push key_eqb key_index acc (key item) item)))
    (item :: List.concat (List.map snd acc)).
Proof.
  intros Hkeys Hgroups. unfold group_push.
  destruct (group_push_entries acc (key item) Hkeys) as (Hkeys' & Hin & Hitems & Hfrom).
  cbv zeta in Hkeys', Hin, Hitems, Hfrom.
  set (entries := if has_key key_eqb (key item) acc then acc
                  else create_key key_index (key item) acc) in *.
  split; [now rewrite push_keys|]. split.
  - apply Forall_forall. intros kv Hkv. apply in_map_iff in Hkv as (kv0 & <- & Hkv0).
    destruct (key_eqb (fst kv0) (key item)) eqn:Hk.
    + apply key_eqb_eq in Hk. cbn [fst snd]. split; [now destruct (snd kv0)|].
      apply Forall_app. split.
      * destruct (Hfrom kv0 Hkv0) as [Hold| ->]; [|constructor].
        rewrite Forall_forall in Hgroups. now apply Hgroups.
      * constructor; [now symmetry | constructor].
    + destruct (Hfrom kv0 Hkv0) as [Hold| ->].
      * rewrite Forall_forall in Hgroups. now apply Hgroups.
      * cbn [fst] in Hk. assert (key_eqb (key item) (key item) = true)
          by now apply key_eqb_eq. congruence.
  - rewrite <- Hitems. now apply push_items.
Qed.

Lemma fold_group_push_spec (key : A -> K) (items : list A) :
  forall acc,
    List.NoDup (List.map fst acc) ->
    Forall (fun kv => snd kv <> [] /\ Forall (fun x => key x = fst kv) (snd kv)) acc ->
    let groups :=
      fold_left (fun acc item => group_push key_eqb key_index acc (key item) item)
                items acc in
    List.NoDup (List.map fst groups) /\
    Forall (fun kv => snd kv <> [] /\ Forall (fun x => key x = fst kv) (snd kv)) groups /\
    Permutation (List.concat (List.map snd groups))
                (List.concat (List.map snd acc) ++ items).
Proof.
  induction items as [|item items IH]; intros acc Hkeys Hgroups; cbn [fold_left].
  - split; [exact Hkeys|]. split; [exact Hgroups|]. now rewrite app_nil_r.
  - destruct (group_push_spec key acc item Hkeys Hgroups) as (Hkeys' & Hgroups' & Hitems).
    destruct (IH _ Hkeys' Hgroups') as (Hk & Hg & Hp).
    split; [exact Hk|]. split; [exact Hg|].
    cbv zeta in Hp. rewrite Hp, Hitems. cbn [app]. apply Permutation_middle.
Qed.

End GroupProps.

(** ** Monthly aggregation *)

Section MonthlyProps.
Context `{host : Host}.
Context (isFuture : num -> bool).
Local Open Scope num_scope.
Import CalendarOps.

Lemma String_eqb_eq (a b : string) : String.eqb a b = true <-> a = b.
Proof. apply String.eqb_eq. Qed.

(** Once [format] has thrown, the reduction is over. *)
Lemma monthlyData_Throw (data : list MarketData) (message : string) :
  fold_left
    (fun acc item =>
       match acc, monthKey item with
       | Throw message, _ => Throw message
       | Ok _, Throw message => Throw message
       | Ok acc, Ok month => Ok (group_push String.eqb string_key_index acc month item)
       end)
    data (Throw message)
  = Throw message.
Proof. induction data as [|item data IH]; [reflexivity | exact IH]. Qed.

(** The months of records with valid dates, and the exception for the first
    record with an invalid date. *)
Lemma monthlyData_fold (data : list MarketData) :
  forall acc,
    fold_left
      (fun acc item =>
         match acc, monthKey item with
         | Throw message, _ => Throw message
         | Ok _, Throw message => Throw message
         | Ok acc, Ok month => Ok (group_push String.eqb string_key_index acc month item)
         end)
      data (Ok acc)
    = if forallb (fun item => negb (JS.isNaN (Date_parse (date item)))) data
      then Ok (fold_left
                 (fun acc item =>
                    group_push String.eqb string_key_index acc
                      (format (Date_parse (date item)) "yyyy-MM") item)
                 data acc)
      else Throw "Invalid time value".
Proof.
  induction data as [|item data IH]; intros acc; [reflexivity|].
  cbn [fold_left forallb].
  assert (Hkey : monthKey item
                 = if JS.isNaN (Date_parse (date item)) then Throw "Invalid time value"
                   else Ok (format (Date_parse (date item)) "yyyy-MM")) by reflexivity.
  rewrite Hkey. clear Hkey.
  destruct (JS.isNaN (Date_parse (date item))); cbn [negb andb].
  - apply monthlyData_Throw.
  - apply IH.
Qed.

Lemma sum_Permutation (xs ys : list num) : Permutation xs ys -> sum xs = sum ys.
Proof.
  induction 1 as [|x xs ys _ IH|x y xs|xs ys zs _ IH1 _ IH2].
  - reflexivity.
  - change (x + sum xs = x + sum ys). now rewrite IH.
  - change (y + (x + sum xs) = x + (y + sum xs)).
    now rewrite !add_assoc, (add_comm y x).
  - now rewrite IH1.
Qed.

Lemma sum_concat (groups : list (list num)) :
  sum (List.map sum groups) = sum (List.concat groups).
Proof.
  induction groups as [|g groups IH]; [reflexivity|].
  cbn [List.map List.concat]. rewrite sum_app, <- IH. reflexivity.
Qed.

(** X20.  The monthly view throws when a record has an invalid date, and
    otherwise splits the records into months: every record is in exactly one
    month, the month its date is formatted to; no month is listed twice and
    none is empty. *)
Theorem monthlyView_partition (data : list MarketData) :
  if forallb (fun item => negb (JS.isNaN (Date_parse (date item)))) data
  then
    exists months,
      monthlyView isFuture data = Ok months /\
      Permutation (List.concat (List.map monthData months)) data /\
      List.NoDup (List.map month months) /\
      Forall (fun m =>
                monthData m <> [] /\
                Forall (fun item => format (Date_parse (date item)) "yyyy-MM" = month m)
                       (monthData m))
             months
  else monthlyView isFuture data = Throw "Invalid time value".
Proof.
  unfold monthlyView, monthlyData. rewrite monthlyData_fold.
  destruct (forallb _ data); [|reflexivity].
  destruct (fold_group_push_spec String.eqb string_key_index String_eqb_eq
              (fun item => format (Date_parse (date item)) "yyyy-MM") data []
              (List.NoDup_nil _) (Forall_nil _))
    as (Hkeys & Hgroups & Hitems).
  cbv zeta in Hkeys, Hgroups, Hitems. cbn [List.map List.concat app] in Hitems.
  set (entries := fold_left _ data []) in *.
  eexists. split; [reflexivity|].
  assert (Hdata : List.map monthData (List.map (monthSummary isFuture) entries)
                  = List.map snd entries).
  { rewrite List.map_map. apply map_ext. now intros [m items]. }
  assert (Hmonth : List.map month (List.map (monthSummary isFuture) entries)
                   = List.map fst entries).
  { rewrite List.map_map. apply map_ext. now intros [m items]. }
  rewrite Hdata, Hmonth. split; [exact Hitems|]. split; [exact Hkeys|].
  apply Forall_forall. intros m Hm. apply in_map_iff in Hm as ([k items] & <- & Hin).
  rewrite Forall_forall in Hgroups. exact (Hgroups _ Hin).
Qed.

(** X21.  With the additions exact, the volumes of the months of the monthly
    view add up to the volume of all the records, whatever their dates are,
    as long as they are valid. *)
Theorem monthly_volume_round_trip (data : list MarketData) (months : list MonthSummary) :
  monthlyView isFuture data = Ok months ->
  sum (List.map totalVolume months) = sum (List.map volume data).
Proof.
  unfold monthlyView, monthlyData. rewrite monthlyData_fold.
  destruct (forallb _ data); [|discriminate].
  destruct (fold_group_push_spec String.eqb string_key_index String_eqb_eq
              (fun item => format (Date_parse (date item)) "yyyy-MM") data []
              (List.NoDup_nil _) (Forall_nil _))
    as (_ & _ & Hitems).
  cbv zeta in Hitems. cbn [List.map List.concat app] in Hitems.
  set (entries := fold_left _ data []) in *.
  intros Heq. apply Ok_inj in Heq. rewrite <- Heq.
  rewrite <- (sum_Permutation _ _ (Permutation_map volume Hitems)).
  rewrite concat_map, <- sum_concat, !List.map_map.
  f_equal. apply map_ext. intros [m items].
  unfold monthSummary. cbn [totalVolume snd].
  now rewrite fold_left_add, add_n0_l.
Qed.

End MonthlyProps.

Section MonthlyRuns.
#[local] Existing Instance UTC.host.
Import CalendarOps.

Example monthlyView_history :
  List.map (fun m => (month m, length (monthData m)))
    (match monthlyView (fun _ => false) (Sample.january ++ Sample.history) with
     | Ok months => months
     | Throw _ => []
     end)
  = [("2020-01", 3%nat); ("2024-01", 30%nat)].
Proof. by_compute. Qed.

Lemma monthly_volume_round_trip_witness :
  exists months,
    monthlyView (fun _ => false) Sample.january = Ok months /\
    sum (List.map totalVolume months) = sum (List.map volume Sample.january).
Proof.
  eexists. 
  assert (H : monthlyView (fun _ => false) Sample.january
              = Ok (List.map (monthSummary (fun _ => false))
                      [("2020-01", Sample.january)])) by by_compute.
  split; [exact H|].
  exact (monthly_volume_round_trip (fun _ => false) Sample.january _ H).
Defined.

End MonthlyRuns.

(** ** The pattern list: one pattern of each kind *)

Section PatternIdProps.
Context `{host : Host}.
Local Open Scope num_scope.
Import PatternAnalyzer.

Lemma period_eqb_eq (p q : period) : period_eqb p q = true <-> p = q.
Proof. destruct p, q; simpl; split; congruence. Qed.

Lemma ids_in_app (allowed allowed' : list string) (ps ps' : list Pattern) :
  ids_in allowed ps -> ids_in allowed' ps' -> ids_in (allowed ++ allowed') (ps ++ ps').
Proof.
  intros H H'. apply Forall_app. split.
  - eapply Forall_impl; [|exact H]. intros p Hp. apply in_or_app. now left.
  - eapply Forall_impl; [|exact H']. intros p Hp. apply in_or_app. now right.
Qed.

(** Patterns with ids in lists that share no id have distinct ids. *)
Lemma ids_app_NoDup (allowed allowed' : list string) (ps ps' : list Pattern) :
  ids_in allowed ps -> ids_in allowed' ps' ->
  (forall x, In x allowed -> In x allowed' -> False) ->
  List.NoDup (List.map id ps) -> List.NoDup (List.map id ps') ->
  List.NoDup (List.map id (ps ++ ps')).
Proof.
  intros H H' Hdisjoint Hps Hps'. rewrite List.map_app.
  apply List.NoDup_app; [exact Hps | exact Hps'|].
  intros x Hx Hx'.
  apply in_map_iff in Hx as (p & <- & Hp). apply in_map_iff in Hx' as (p' & Heq & Hp').
  unfold ids_in in H, H'. rewrite Forall_forall in H, H'.
  apply (Hdisjoint (id p)); [now apply H | rewrite <- Heq; now apply H'].
Qed.

Lemma single_NoDup (ps : list Pattern) : (length ps <= 1)%nat -> List.NoDup (List.map id ps).
Proof.
  destruct ps as [|p [|q ps]]; cbn [length List.map]; intros Hlen.
  - constructor.
  - constructor; [intros [] | constructor].
  - lia.
Qed.

Lemma weeklyPattern_ids (allData : list MarketData) (weekly : list Pattern) :
  weeklyPattern allData = Ok weekly ->
  ids_in ["weekly-volatility"] weekly /\ (length weekly <= 1)%nat.
Proof.
  unfold weeklyPattern. destruct (List.map _ _) as [|first rest]; [discriminate|].
  intros Heq. apply Ok_inj in Heq. rewrite <- Heq.
  destruct (_ && _); split; try constructor; cbn [length]; try lia.
  - now left.
  - constructor.
Qed.

Lemma monthlyPatterns_ids (allData : list MarketData) :
  ids_in ["monthly-early"; "monthly-mid"; "monthly-late"] (monthlyPatterns allData) /\
  List.NoDup (List.map id (monthlyPatterns allData)).
Proof.
  unfold monthlyPatterns.
  destruct (fold_group_push_spec period_eqb (fun _ => None) period_eqb_eq
              (fun item =>
                 if getDate (Date_parse (date item)) <=? JS.of_Z 10 then Early
                 else if getDate (Date_parse (date item)) <=? JS.of_Z 20 then Mid
                      else Late)
              allData [] (List.NoDup_nil _) (Forall_nil _))
    as (Hkeys & _ & _).
  cbv zeta in Hkeys. set (monthlyData := fold_left _ allData []) in *.
  clearbody monthlyData.
  induction monthlyData as [|[period periodData] rest IH]; cbn [flat_map].
  - split; constructor.
  - cbn [List.map fst] in Hkeys. inversion Hkeys as [|? ? Hfresh Hrest]; subst.
    destruct (IH Hrest) as [IHids IHdistinct].
    destruct (_ && _); cbn [app]; [|now split].
    split.
    + constructor; [|exact IHids]. cbn [id].
      destruct period; cbn; auto.
    + cbn [List.map id]. constructor; [|exact IHdistinct].
      intros Hin. apply in_map_iff in Hin as (p & Hid & Hp).
      apply in_flat_map in Hp as ([period' periodData'] & Hentry & Hp).
      destruct (_ && _); [|destruct Hp]. destruct Hp as [<-|[]]. cbn [id] in Hid.
      assert (period' = period)
        by (destruct period, period'; try reflexivity; vm_compute in Hid; discriminate).
      subst period'. apply Hfresh. apply in_map_iff.
      now exists (period, periodData').
Qed.

Lemma clusteringPattern_ids (allData : list MarketData) :
  ids_in ["volatility-clustering"] (clusteringPattern allData) /\
  (length (clusteringPattern allData) <= 1)%nat.
Proof.
  unfold clusteringPattern. destruct (_ <=? _)%nat; split; try constructor;
    cbn [length]; try lia; [now left | constructor].
Qed.

Lemma volumeSpikesPattern_ids (allData : list MarketData) :
  ids_in ["volume-spikes"] (volumeSpikesPattern allData) /\
  (length (volumeSpikesPattern allData) <= 1)%nat.
Proof.
  unfold volumeSpikesPattern. destruct (_ <=? _)%nat; split; try constructor;
    cbn [length]; try lia; [now left | constructor].
Qed.

Lemma anomaliesPattern_ids (allData : list MarketData) :
  ids_in ["price-anomalies"] (anomaliesPattern allData) /\
  (length (anomaliesPattern allData) <= 1)%nat.
Proof.
  unfold anomaliesPattern. destruct (_ <=? _)%nat; split; try constructor;
    cbn [length]; try lia; [now left | constructor].
Qed.

(** X22.  The patterns [patterns] lists have distinct ids, taken from the
    seven ids of the detectors: the list never holds two patterns of the
    same kind, and never more than seven patterns. *)
Theorem patterns_distinct (historicalData data : list MarketData)
    (detected : list Pattern) :
  patterns historicalData data = Ok detected ->
  List.NoDup (List.map id detected) /\
  ids_in pattern_ids detected /\
  (length detected <= 7)%nat.
Proof.
  unfold patterns. set (allData := historicalData ++ data).
  assert (Hcount : forall ps,
            List.NoDup (List.map id ps) -> ids_in pattern_ids ps ->
            (length ps <= 7)%nat).
  { intros ps Hdistinct Hids. rewrite <- (length_map id).
    change 7%nat with (length pattern_ids).
    apply List.NoDup_incl_length; [exact Hdistinct|].
    intros x Hx. apply in_map_iff in Hx as (p & <- & Hp).
    unfold ids_in in Hids. rewrite Forall_forall in Hids. now apply Hids. }
  destruct (length allData <? 30)%nat.
  { intros Heq. apply Ok_inj in Heq. subst detected.
    split; [constructor|]. split; [constructor | cbn [length]; lia]. }
  destruct (weeklyPattern allData) as [weekly|message] eqn:Hweekly; [|discriminate].
  intros Heq. apply Ok_inj in Heq.
  destruct (weeklyPattern_ids allData weekly Hweekly) as [Hw Hw1].
  destruct (monthlyPatterns_ids allData) as [Hm Hm1].
  destruct (clusteringPattern_ids allData) as [Hc Hc1].
  destruct (volumeSpikesPattern_ids allData) as [Hv Hv1].
  destruct (anomaliesPattern_ids allData) as [Ha Ha1].
  pose proof (ids_in_app _ _ _ _ Hv Ha) as Hva.
  pose proof (ids_in_app _ _ _ _ Hc Hva) as Hcva.
  pose proof (ids_in_app _ _ _ _ Hm Hcva) as Hmcva.
  pose proof (ids_in_app _ _ _ _ Hw Hmcva) as Hall.
  assert (Hdistinct :
            List.NoDup
              (List.map id
                 (weekly ++ monthlyPatterns allData ++ clusteringPattern allData
                  ++ volumeSpikesPattern allData ++ anomaliesPattern allData))).
  { apply (ids_app_NoDup _ _ _ _ Hw Hmcva);
      [cbn; intuition (subst; discriminate) | now apply single_NoDup |].
    apply (ids_app_NoDup _ _ _ _ Hm Hcva);
      [cbn; intuition (subst; discriminate) | exact Hm1 |].
    apply (ids_app_NoDup _ _ _ _ Hc Hva);
      [cbn; intuition (subst; discriminate) | now apply single_NoDup |].
    apply (ids_app_NoDup _ _ _ _ Hv Ha);
      [cbn; intuition (subst; discriminate) | now apply single_NoDup
       | now apply single_NoDup]. }
  set (sorted := sort _ _) in Heq.
  assert (Hperm : Permutation sorted
            (weekly ++ monthlyPatterns allData ++ clusteringPattern allData
             ++ volumeSpikesPattern allData ++ anomaliesPattern allData))
    by apply sort_Permutation.
  rewrite <- Heq.
  assert (Hids : ids_in pattern_ids sorted).
  { unfold ids_in. apply Forall_forall. intros p Hp.
    unfold ids_in in Hall. rewrite Forall_forall in Hall. apply Hall.
    now apply (Permutation_in _ Hperm). }
  assert (Hsorted : List.NoDup (List.map id sorted)).
  { apply (Permutation_NoDup (Permutation_sym (Permutation_map id Hperm))).
    exact Hdistinct. }
  split; [exact Hsorted|]. split; [exact Hids|]. now apply Hcount.
Qed.

End PatternIdProps.

Section PatternIdRuns.
#[local] Existing Instance UTC.host.
Import PatternAnalyzer.

Lemma patterns_distinct_witness :
  exists detected,
    patterns (firstn 10 Sample.history) (skipn 10 Sample.history) = Ok detected /\
    List.NoDup (List.map id detected) /\
    ids_in pattern_ids detected /\
    (length detected <= 7)%nat.
Proof.
  eexists. split; [exact patterns_history|].
  exact (patterns_distinct _ _ _ patterns_history).
Defined.

End PatternIdRuns.

(** ** The pattern list: the average impact is a number *)

Section ImpactProps.
Context `{host : Host}.
Local Open Scope num_scope.
Import PatternAnalyzer.

(** Numbers above a number add up to a number that is not NaN. *)
Lemma sum_above (t : num) (xs : list num) :
  Forall (fun x => (x >? t) = true) xs -> finite_or_PInf (sum xs).
Proof.
  induction 1 as [|x xs Hx _ IH]; [exact I|].
  change (finite_or_PInf (x + sum xs)).
  destruct x, t; try discriminate; destruct (sum xs); simpl in *; tauto.
Qed.

Lemma weeklyPattern_avgImpact (allData : list MarketData) (weekly : list Pattern) :
  weeklyPattern allData = Ok weekly ->
  Forall (fun p => JS.isNaN (avgImpact p) = false) weekly.
Proof.
  unfold weeklyPattern. destruct (List.map _ _) as [|first rest]; [discriminate|].
  intros Heq. apply Ok_inj in Heq. rewrite <- Heq.
  destruct (_ && _) eqn:Hcond; [|constructor].
  apply andb_true_iff in Hcond as [Habove _].
  constructor; [|constructor]. cbn [avgImpact].
  now apply ltb_not_NaN in Habove as [_ Habove].
Qed.

Lemma monthlyPatterns_avgImpact (allData : list MarketData) :
  Forall (fun p => JS.isNaN (avgImpact p) = false) (monthlyPatterns allData).
Proof.
  unfold monthlyPatterns. apply Forall_forall. intros p Hin.
  apply in_flat_map in Hin as ([period periodData] & _ & Hin).
  destruct (_ && _) eqn:Hcond; [|destruct Hin].
  apply andb_true_iff in Hcond as [Habove _]. destruct Hin as [<-|[]].
  cbn [avgImpact]. now apply ltb_not_NaN in Habove as [_ Habove].
Qed.

Lemma clusteringPattern_avgImpact (allData : list MarketData) :
  Forall (fun p => JS.isNaN (avgImpact p) = false) (clusteringPattern allData).
Proof.
  rewrite clusteringPattern_spec.
  destruct (Nat.leb_spec 3 (clusters allData)) as [Hemit|_]; [|constructor].
  constructor; [|constructor].
  assert (Hhigh : List.filter high_volatility allData <> [])
    by (apply clusters_high; lia).
  cbn [avgImpact clustering_pattern_of]. unfold mean. rewrite length_map.
  apply div_count_not_NaN.
  - apply sum_above_2, Forall_forall. intros x Hx.
    apply in_map_iff in Hx as (r & <- & Hr).
    now apply filter_In in Hr as [_ Hr].
  - destruct (List.filter high_volatility allData); [congruence | discriminate].
Qed.

Lemma anomaliesPattern_avgImpact (allData : list MarketData) :
  Forall (fun p => JS.isNaN (avgImpact p) = false) (anomaliesPattern allData).
Proof.
  unfold anomaliesPattern.
  set (anomalies := List.filter _ allData).
  destruct (Nat.leb_spec 2 (length anomalies)) as [Hcount|_]; [|constructor].
  constructor; [|constructor]. cbn [avgImpact]. rewrite sum_of_sum.
  apply div_count_not_NaN; [|lia].
  eapply sum_above, Forall_forall. intros x Hx.
  apply in_map_iff in Hx as (item & <- & Hitem).
  apply filter_In in Hitem as [_ Habove]. exact Habove.
Qed.

(** X23.  Every weekly, monthly, volatility and anomaly pattern [patterns]
    lists has an [avgImpact] that is a number: the detectors emit these
    patterns only when the average they report, or every term of it, has
    passed a comparison, which NaN fails.  The volume pattern is left out:
    its [avgImpact] divides one mean by another. *)
Theorem patterns_avgImpact (historicalData data : list MarketData)
    (detected : list Pattern) :
  patterns historicalData data = Ok detected ->
  Forall (fun p => type p <> Volume -> JS.isNaN (avgImpact p) = false) detected.
Proof.
  assert (Hweaker : forall ps,
            Forall (fun p => JS.isNaN (avgImpact p) = false) ps ->
            Forall (fun p => type p <> Volume -> JS.isNaN (avgImpact p) = false) ps).
  { intros ps Hps. eapply Forall_impl; [|exact Hps]. auto. }
  unfold patterns.
  destruct (length (historicalData ++ data) <? 30)%nat.
  { intros Heq. apply Ok_inj in Heq. subst detected. constructor. }
  destruct (weeklyPattern (historicalData ++ data)) as [weekly|message] eqn:Hweekly;
    [|discriminate].
  intros Heq. apply Ok_inj in Heq. rewrite <- Heq.
  apply sort_Forall. repeat (apply Forall_app; split).
  - now apply Hweaker, (weeklyPattern_avgImpact (historicalData ++ data)).
  - apply Hweaker, monthlyPatterns_avgImpact.
  - apply Hweaker, clusteringPattern_avgImpact.
  - unfold volumeSpikesPattern. destruct (_ <=? _)%nat; [|constructor].
    constructor; [|constructor]. cbn [type]. congruence.
  - apply Hweaker, anomaliesPattern_avgImpact.
Qed.

End ImpactProps.

Section ImpactRuns.
#[local] Existing Instance UTC.host.
Import PatternAnalyzer.

Lemma patterns_avgImpact_witness :
  exists detected,
    patterns (firstn 10 Sample.history) (skipn 10 Sample.history) = Ok detected /\
    Forall (fun p => type p <> Volume -> JS.isNaN (avgImpact p) = false) detected.
Proof.
  eexists. split; [exact patterns_history|].
  exact (patterns_avgImpact _ _ _ patterns_history).
Defined.

End ImpactRuns.

(** ** Keyboard navigation *)

Section KeyboardProps.
Context `{host : Host}.
Context (isFuture : num -> bool) (isSameMonth : num -> num -> bool).
Local Open Scope num_scope.
Import CalendarOps.

Lemma of_Z_add (a b : Z) : JS.of_Z a + JS.of_Z b = JS.of_Z (a + b).
Proof.
  unfold JS.of_Z, JS.add. f_equal. apply Qc_is_canon.
  unfold Qc_of_Z, Qcplus. cbn [this Q2Qc]. rewrite !Qred_correct.
  unfold Qeq, inject_Z. simpl. lia.
Qed.

Lemma of_Z_sub (a b : Z) : JS.of_Z a - JS.of_Z b = JS.of_Z (a - b).
Proof.
  unfold JS.of_Z, JS.sub, JS.neg, JS.add. f_equal. apply Qc_is_canon.
  unfold Qc_of_Z, Qcplus, Qcopp. cbn [this Q2Qc]. rewrite !Qred_correct.
  unfold Qeq, inject_Z. simpl. lia.
Qed.

(** A whole number of milliseconds within the range of [Date] is a time
    value. *)
Lemma Date_of_time_Z (w : Z) :
  (Z.abs w <= 8640000000000000)%Z -> Date_of_time (JS.of_Z w) = JS.of_Z w.
Proof.
  intros Hw. unfold Date_of_time, JS.of_Z at 1.
  assert (Hthis : this (Qc_of_Z w) = (w # 1)%Q) by reflexivity.
  rewrite Hthis. cbn [Qnum Qden]. rewrite Z.quot_1_r.
  destruct (Z.leb_spec (Z.abs w) 8640000000000000); [reflexivity | lia].
Qed.

(** X24.  From a selected date within the range of [Date], an arrow key
    moves the selection by exactly 1 or 7 times 24 hours of time, back or
    forth, and only to a date that is neither in the future nor before the
    launch date; the month changes only together with the selection, to the
    new date. *)
Theorem handleKeyDown_moves (z : Z) (currentMonth : num) (k : key) :
  (Z.abs z <= 8640000000000000 - 604800000)%Z ->
  let callbacks := handleKeyDown isFuture isSameMonth (Some (JS.of_Z z)) currentMonth k in
  (forall d,
     In (OnDateSelect (Some d)) callbacks ->
     exists days,
       key_days k = Some days /\ d = JS.of_Z (z + days * 86400000) /\
       isFuture d = false /\ (d <? BINANCE_LAUNCH_DATE) = false) /\
  (forall m,
     In (OnMonthChange m) callbacks ->
     In (OnDateSelect (Some m)) callbacks /\ isSameMonth m currentMonth = false).
Proof.
  intros Hz. cbv zeta. unfold handleKeyDown.
  assert (Hweek : JS.of_Z 7 * msPerDay = JS.of_Z 604800000) by by_compute.
  assert (Hday : msPerDay = JS.of_Z 86400000) by by_compute.
  rewrite Hweek, Hday, !of_Z_add, !of_Z_sub.
  rewrite !Date_of_time_Z by lia.
  assert (Hmove : forall days,
            (Z.abs days <= 7)%Z ->
            key_days k = Some days ->
            let newDate := JS.of_Z (z + days * 86400000) in
            let callbacks :=
              if isFuture newDate || (newDate <? BINANCE_LAUNCH_DATE) then [PreventDefault]
              else [PreventDefault; OnDateSelect (Some newDate)]
                   ++ (if negb (isSameMonth newDate currentMonth)
                       then [OnMonthChange newDate] else []) in
            (forall d,
               In (OnDateSelect (Some d)) callbacks ->
               exists days,
                 key_days k = Some days /\ d = JS.of_Z (z + days * 86400000) /\
                 isFuture d = false /\ (d <? BINANCE_LAUNCH_DATE) = false) /\
            (forall m,
               In (OnMonthChange m) callbacks ->
               In (OnDateSelect (Some m)) callbacks /\ isSameMonth m currentMonth = false)).
  { intros days _ Hkey. cbv zeta.
    destruct (isFuture _ || _) eqn:Hguard.
    - split; [intros d [Hd|[]] | intros m [Hm|[]]]; discriminate.
    - apply orb_false_iff in Hguard as [Hfuture Hlaunch].
      destruct (isSameMonth _ currentMonth) eqn:Hsame; cbn [negb app].
      + split.
        * intros d [Hd|[Hd|[]]]; [discriminate|]. injection Hd as <-.
          exists days. auto.
        * intros m [Hm|[Hm|[]]]; discriminate.
      + split.
        * intros d [Hd|[Hd|[Hd|[]]]]; try discriminate. injection Hd as <-.
          exists days. auto.
        * intros m [Hm|[Hm|[Hm|[]]]]; try discriminate. injection Hm as <-.
          split; [right; now left | exact Hsame]. }
  destruct k.
  - replace (z - 86400000)%Z with (z + -1 * 86400000)%Z by lia.
    apply (Hmove (-1)%Z); [lia | reflexivity].
  - replace (z + 86400000)%Z with (z + 1 * 86400000)%Z by lia.
    apply (Hmove 1%Z); [lia | reflexivity].
  - replace (z - 604800000)%Z with (z + -7 * 86400000)%Z by lia.
    apply (Hmove (-7)%Z); [lia | reflexivity].
  - replace (z + 604800000)%Z with (z + 7 * 86400000)%Z by lia.
    apply (Hmove 7%Z); [lia | reflexivity].
  - split; [intros d [Hd|[]] | intros m [Hm|[]]]; discriminate.
  - split; [intros d [] | intros m []].
Qed.

End KeyboardProps.

Section KeyboardRuns.
#[local] Existing Instance UTC.host.
Import CalendarOps.

(** 17 August 2017, and the arrow to the right. *)
Lemma handleKeyDown_moves_witness :
  let callbacks :=
    handleKeyDown (fun _ => false) (fun _ _ => true) (Some (JS.of_Z Sample.aug17))
      (JS.of_Z Sample.aug17) ArrowRight in
  (Z.abs Sample.aug17 <= 8640000000000000 - 604800000)%Z /\
  callbacks = [PreventDefault; OnDateSelect (Some (JS.of_Z (Sample.aug17 + 86400000)))] /\
  (forall d,
     In (OnDateSelect (Some d)) callbacks ->
     exists days,
       key_days ArrowRight = Some days /\ d = JS.of_Z (Sample.aug17 + days * 86400000) /\
       false = false /\ (d <? BINANCE_LAUNCH_DATE)%num = false).
Proof.
  intros callbacks.
  assert (H : (Z.abs Sample.aug17 <= 8640000000000000 - 604800000)%Z)
    by (vm_compute; discriminate).
  split; [exact H|]. split; [by_compute|].
  exact (proj1 (handleKeyDown_moves (fun _ => false) (fun _ _ => true)
                  Sample.aug17 (JS.of_Z Sample.aug17) ArrowRight H)).
Defined.

End KeyboardRuns.

(** ** Runs of the scenario *)

Section ScenarioRuns.
#[local] Existing Instance UTC.host.

(** The trading pairs of the scenario: the pair that does not trade and the
    pair in another quote asset are left out, the others are sorted. *)
Example trading_pairs_scenario :
  Api.getAvailableTradingPairs (Scenario.api Scenario.exchangeInfo) 0
    Scenario.two_per_second
  = ([RateLimiter.Push 0],
     {| RateLimiter.requests := [0]; RateLimiter.maxRequests := 2;
        RateLimiter.timeWindow := 1000 |},
     [ {| Api.api_url := "https://api.binance.com/api/v3/exchangeInfo";
          Api.api_params := [] |} ],
     ["BTCUSDC"; "BTCUSDT"; "ETHUSDT"]).
Proof. by_compute. Qed.

(** A body without symbols. *)
Example trading_pairs_no_symbols :
  snd (Api.getAvailableTradingPairs (Scenario.api (AObj [])) 0 Scenario.two_per_second)
  = [].
Proof. reflexivity. Qed.

(** Three calls within a second on a limiter of two: the third one is
    suspended until the first is a second old, and 100 ms more. *)
Example three_calls_scenario :
  fst (Api.run_calls [1000; 1005; 1010] Scenario.two_per_second)
  = [ [RateLimiter.Push 1000]; [RateLimiter.Push 1005];
      [RateLimiter.Suspend (Some 1090); RateLimiter.Push 1010] ].
Proof. reflexivity. Qed.

(** The symbols of the control panel are valid symbols. *)
Example control_panel_symbols :
  forallb validateTradingSymbol Scenario.CRYPTO_SYMBOLS = true.
Proof. reflexivity. Qed.

End ScenarioRuns.

(** ** Alerts: the indicator *)

Section ActiveAlertProps.
Import AlertSystem AlertOps.

(** X25.  Resetting an alert, and switching it on or off, takes it off the
    alerts the indicator counts, and leaves the other active alerts there:
    the active alerts are those there were, without the ones of that id. *)
Theorem activeAlerts_reset (id0 : string) (alerts : list Alert) :
  activeAlerts (resetAlert id0 alerts) = removeAlert id0 (activeAlerts alerts) /\
  activeAlerts (toggleAlert id0 alerts) = removeAlert id0 (activeAlerts alerts).
Proof.
  unfold activeAlerts, resetAlert, toggleAlert, removeAlert.
  induction alerts as [|alert alerts [IHreset IHtoggle]]; [split; reflexivity|].
  cbn [List.map List.filter].
  destruct (String.eqb (id alert) id0) eqn:Hid;
    cbn [enabled triggered]; rewrite ?andb_false_r.
  - destruct (enabled alert && triggered alert); cbn [List.filter];
      rewrite ?Hid; cbn [negb]; now split.
  - destruct (enabled alert && triggered alert); cbn [List.filter];
      rewrite ?Hid; cbn [negb]; split; congruence.
Qed.

End ActiveAlertProps.

(** ** The comparison dialog: what it fetches *)

Section DialogProps.
Context `{host : Host}.
Local Open Scope num_scope.

(** What a row the dialog keeps went through. *)
Lemma dialog_parseKline_Some (kline : any) (r : MarketData) :
  Comparison.parseKline kline = Some r ->
  JS.isNaN (open r) = false /\ JS.isNaN (high r) = false /\
  JS.isNaN (low r) = false /\ JS.isNaN (close r) = false /\
  JS.isNaN (volume r) = false /\ (volatility r <? n0) = false.
Proof.
  unfold Comparison.parseKline. destruct kline as [| | | | |fields|]; try discriminate.
  destruct (length fields <? 11)%nat; [discriminate|].
  set (o := parseFloat (nth 1 fields Undefined)).
  set (h := parseFloat (nth 2 fields Undefined)).
  set (l := parseFloat (nth 3 fields Undefined)).
  set (c := parseFloat (nth 4 fields Undefined)).
  set (v := parseFloat (nth 5 fields Undefined)).
  destruct (JS.isNaN o || JS.isNaN h || JS.isNaN l || JS.isNaN c || JS.isNaN v)
    eqn:Hnan; [discriminate|].
  repeat (apply orb_false_iff in Hnan as [Hnan ?]).
  destruct (_ || _); [discriminate|].
  destruct (JS.isNaN (Date_of_time _)); [discriminate|].
  pose proof (Math_max_n0_not_neg (if o >? n0 then ((h - l) / o) * n100 else n0))
    as Hvolatility.
  intros Heq. apply (inj Some) in Heq. rewrite <- Heq.
  cbn [open high low close volume volatility]. auto 10.
Qed.

(** X26.  A fetch of the comparison dialog issues one request, for daily
    klines of the symbol between the two times as they were given, limit
    1000.  The records it returns have an open, a high, a low, a close and a
    volume that are numbers, and a volatility that is not negative. *)
Theorem dialog_records (net : request -> response) (symbol : string)
    (startTime endTime : num) (requests : list request) (records : list MarketData) :
  Comparison.fetchBinanceData net symbol startTime endTime = (requests, Ok records) ->
  requests = [ {| req_symbol := symbol; req_interval := "1d";
                  req_startTime := startTime; req_endTime := endTime;
                  req_limit := 1000 |} ] /\
  Forall (fun r =>
            JS.isNaN (open r) = false /\ JS.isNaN (high r) = false /\
            JS.isNaN (low r) = false /\ JS.isNaN (close r) = false /\
            JS.isNaN (volume r) = false /\ (volatility r <? n0) = false)
         records.
Proof.
  unfold Comparison.fetchBinanceData.
  destruct (net _) as [message|[|] status statusText [body|]]; try discriminate.
  destruct body as [| | | | |klineData|]; try discriminate.
  intros Heq. injection Heq as <- <-. split; [reflexivity|].
  apply Forall_forall. intros r Hin.
  apply list_elem_of_In in Hin. unfold filter_not_null in Hin.
  apply list_elem_of_omap in Hin as (y & Hy & Hid).
  apply list_elem_of_In, in_map_iff in Hy as (kline & <- & _).
  now apply (dialog_parseKline_Some kline).
Qed.

End DialogProps.

Section DialogRuns.
#[local] Existing Instance UTC.host.

Lemma dialog_records_witness :
  let records :=
    [ {| date := "2017-08-17"; open := JS.of_Z 2; high := JS.of_Z 1;
         low := JS.of_Z 1; close := JS.of_Z 1; volume := JS.of_Z 5;
         volatility := n0 |} ] in
  Comparison.fetchBinanceData
    (Sample.serve [Sample.row Sample.aug17 "2" "1" "1" "1" "5"; Sample.no_volume_row])
    "BTCUSDT" Sample.aug01 Sample.aug31
  = ([Sample.august], Ok records) /\
  Forall (fun r =>
            JS.isNaN (open r) = false /\ JS.isNaN (high r) = false /\
            JS.isNaN (low r) = false /\ JS.isNaN (close r) = false /\
            JS.isNaN (volume r) = false /\ (volatility r <? n0)%num = false)
         records.
Proof.
  intros records.
  assert (H : Comparison.fetchBinanceData
                (Sample.serve [Sample.row Sample.aug17 "2" "1" "1" "1" "5";
                               Sample.no_volume_row])
                "BTCUSDT" Sample.aug01 Sample.aug31
              = ([Sample.august], Ok records)) by by_compute.
  split; [exact H|]. exact (proj2 (dialog_records _ _ _ _ _ _ H)).
Defined.

End DialogRuns.

(** ** The hook: the volatility it leaves *)

Section HookVolatilityProps.
Context `{host : Host}.
Local Open Scope num_scope.
Import Hook.

Lemma nonneg_not_negative (x : num) : nonneg x -> (x <? n0) = false.
Proof.
  destruct x as [| |q|]; simpl; try contradiction; try reflexivity.
  intros Hq. now apply Qcltb_false_le.
Qed.

(** The volatilities the enhancer returns for fetched rows. *)
Lemma enhanced_rows_volatility (klineData : list MarketData) :
  Forall (fun r => exists kline, parseKline kline = Some r) klineData ->
  Forall (fun item => (volatility item <? n0) = false) (enhanceVolatilityData klineData) /\
  ((2 <= length klineData)%nat ->
   Forall (fun item => nonneg (volatility item)) (enhanceVolatilityData klineData)).
Proof.
  intros Hrows.
  assert (Henhanced : (2 <= length klineData)%nat ->
            Forall (fun item => nonneg (volatility item))
                   (enhanceVolatilityData klineData)).
  { intros Hlen. unfold enhanceVolatilityData.
    destruct (Nat.ltb_spec (length klineData) 2) as [|_]; [lia|].
    apply Forall_lookup. intros i enhanced. rewrite list_lookup_imap.
    destruct (klineData !! i) as [item|] eqn:Hi; [|discriminate].
    cbn [fmap option_fmap option_map]. intros Heq.
    apply (inj Some) in Heq. rewrite <- Heq.
    rewrite (enhance_item klineData i item (lookup_lt_Some _ _ _ Hi)).
    apply enhanced_volatility_nonneg. }
  split; [|exact Henhanced].
  destruct (Nat.lt_ge_cases (length klineData) 2) as [Hfew|Hlen].
  - unfold enhanceVolatilityData.
    destruct (Nat.ltb_spec (length klineData) 2) as [_|]; [|lia].
    eapply Forall_impl; [|exact Hrows]. intros r (kline & Hrow).
    apply parseKline_Some in Hrow
      as (fields & _ & _ & _ & _ & _ & _ & _ & _ & _ & Hvolatility & _).
    rewrite Hvolatility. apply Math_max_n0_not_neg.
  - eapply Forall_impl; [|exact (Henhanced Hlen)].
    intros item. apply nonneg_not_negative.
Qed.

(** X27.  No record a run of [fetchData] leaves has a negative volatility;
    and when the run leaves two records or more, every volatility is a
    number that is at least 0: a NaN volatility can only be left on a single
    record. *)
Theorem fetchData_volatility (net : request -> response) (symbol : string) (month : num) :
  let st := snd (fetchData net symbol month) in
  Forall (fun item => (volatility item <? n0) = false) (data st) /\
  ((2 <= length (data st))%nat ->
   Forall (fun item => nonneg (volatility item)) (data st)).
Proof.
  assert (Hfailed : forall message,
            Forall (fun item => (volatility item <? n0) = false) (data (failed message)) /\
            ((2 <= length (data (failed message)))%nat ->
             Forall (fun item => nonneg (volatility item)) (data (failed message)))).
  { intros message. split; constructor. }
  cbv zeta. unfold fetchData.
  repeat match goal with
         | |- context [if ?c then (_, failed _) else _] =>
             destruct c; [apply Hfailed|]
         end.
  destruct (fetchBinanceKlineData net symbol (actualStartDate month) (endOfMonth month))
    as [requests [klineData|message]] eqn:Hfetch; [|apply Hfailed].
  destruct (length klineData =? 0)%nat; [apply Hfailed|].
  set (kept := List.filter _ (enhanceVolatilityData klineData)).
  destruct (length kept =? 0)%nat; [apply Hfailed|].
  cbn [snd data].
  destruct (enhanced_rows_volatility klineData (fetch_Ok_rows _ _ _ _ _ _ Hfetch))
    as [Hnever Hnumber].
  assert (Hsub : forall P : MarketData -> Prop,
            Forall P (enhanceVolatilityData klineData) -> Forall P kept).
  { intros P HP. apply Forall_forall. intros item Hin. subst kept.
    apply filter_In in Hin as [Hin _]. rewrite Forall_forall in HP. now apply HP. }
  split; [now apply Hsub|].
  intros Hlen. apply Hsub, Hnumber.
  assert (Hkept : (length kept <= length (enhanceVolatilityData klineData))%nat)
    by apply filter_length_le.
  assert (Hsame : length (enhanceVolatilityData klineData) = length klineData).
  { unfold enhanceVolatilityData. destruct (length klineData <? 2)%nat; [reflexivity|].
    apply length_imap. }
  lia.
Qed.

End HookVolatilityProps.

(** ** The pattern list: occurrences *)

Section OccurrenceProps.
Context `{host : Host}.
Local Open Scope num_scope.
Import PatternAnalyzer.

Lemma num_key_eqb_eq (a b : num) : num_key_eqb a b = true <-> a = b.
Proof.
  destruct a as [| |a|], b as [| |b|]; simpl; try (split; congruence).
  rewrite Qceqb_eq. split; congruence.
Qed.

Lemma length_concat_In {A : Type} (x : list A) (l : list (list A)) :
  In x l -> (length x <= length (List.concat l))%nat.
Proof.
  induction l as [|y l IH]; [intros []|].
  cbn [List.concat]. rewrite length_app. intros [->|Hin]; [lia|].
  specialize (IH Hin). lia.
Qed.

(** A group is no longer than the list that was grouped. *)
Lemma group_length {K : Type} (key_eqb : K -> K -> bool) (key_index : K -> option Z)
    (key : MarketData -> K) (allData : list MarketData) (entry : K * list MarketData) :
  (forall a b, key_eqb a b = true <-> a = b) ->
  In entry (fold_left (fun acc item => group_push key_eqb key_index acc (key item) item)
                      allData []) ->
  (length (snd entry) <= length allData)%nat.
Proof.
  intros Heqb Hin.
  destruct (fold_group_push_spec key_eqb key_index Heqb key allData []
              (List.NoDup_nil _) (Forall_nil _)) as (_ & _ & Hitems).
  cbv zeta in Hitems. cbn [List.map List.concat app] in Hitems.
  rewrite <- (Permutation_length Hitems).
  apply length_concat_In. now apply in_map.
Qed.

(** The day [reduce] picks is one of the days. *)
Lemma most_volatile_In (rest : list DayVolatility) (first : DayVolatility) :
  In (fold_left
        (fun max current =>
           if dayAvgVolatility current >? dayAvgVolatility max then current else max)
        rest first)
     (first :: rest).
Proof.
  revert first. induction rest as [|d rest IH]; intros first; [now left|].
  cbn [fold_left].
  destruct (dayAvgVolatility d >? dayAvgVolatility first).
  - right. apply IH.
  - destruct (IH first) as [Heq|Hin]; [now left | right; now right].
Qed.

Lemma weeklyPattern_occurrences (allData : list MarketData) (weekly : list Pattern) :
  weeklyPattern allData = Ok weekly ->
  Forall (fun p => (occurrences_min (type p) <= occurrences p <= length allData)%nat)
         weekly.
Proof.
  unfold weeklyPattern.
  set (weeklyData := fold_left _ allData []).
  destruct (List.map _ weeklyData) as [|first rest] eqn:Hdays; [discriminate|].
  intros Heq. apply Ok_inj in Heq. rewrite <- Heq.
  destruct (_ && _) eqn:Hcond; [|constructor].
  apply andb_true_iff in Hcond as [_ Hcount]. apply Nat.leb_le in Hcount.
  constructor; [|constructor]. cbn [type occurrences occurrences_min].
  split; [exact Hcount|].
  pose proof (most_volatile_In rest first) as Hin. rewrite <- Hdays in Hin.
  apply in_map_iff in Hin as ([day dayData] & Hday & Hentry).
  rewrite <- Hday. cbn [count].
  apply (group_length num_key_eqb num_key_index
           (fun item => getDay (Date_parse (date item))) allData (day, dayData)
           num_key_eqb_eq Hentry).
Qed.

Lemma monthlyPatterns_occurrences (allData : list MarketData) :
  Forall (fun p => (occurrences_min (type p) <= occurrences p <= length allData)%nat)
         (monthlyPatterns allData).
Proof.
  unfold monthlyPatterns. apply Forall_forall. intros p Hin.
  apply in_flat_map in Hin as ([period periodData] & Hentry & Hin).
  destruct (_ && _) eqn:Hcond; [|destruct Hin].
  apply andb_true_iff in Hcond as [_ Hcount]. apply Nat.leb_le in Hcount.
  destruct Hin as [<-|[]]. cbn [type occurrences occurrences_min].
  split; [exact Hcount|].
  apply (group_length period_eqb (fun _ => None)
           (fun item =>
              if getDate (Date_parse (date item)) <=? JS.of_Z 10 then Early
              else if getDate (Date_parse (date item)) <=? JS.of_Z 20 then Mid
                   else Late)
           allData (period, periodData) period_eqb_eq Hentry).
Qed.

(** The loop of the clustering detector counts at most one cluster per
    iteration. *)
Lemma clusterCount_le (allData : list MarketData) :
  (clusterCount allData <= length allData)%nat.
Proof.
  unfold clusterCount, clusterLoop.
  assert (Hloop : forall (indices : list nat) (state : nat * bool),
            (fst (fold_left
                    (fun (state : nat * bool) (i : nat) =>
                       let '(clusterCount, inCluster) := state in
                       let current := volatility_at allData i in
                       let previous := volatility_at allData (i - 1) in
                       if (current >? n2) && (previous >? n2) then
                         if negb inCluster then (S clusterCount, true)
                         else (clusterCount, inCluster)
                       else (clusterCount, false))
                    indices state)
             <= fst state + length indices)%nat).
  { induction indices as [|i indices IH]; intros [count inCluster]; cbn [fold_left length].
    - cbn [fst]. lia.
    - cbv zeta.
      destruct ((volatility_at allData i >? n2) && (volatility_at allData (i - 1) >? n2));
        [destruct (negb inCluster)|];
        match goal with |- (fst (fold_left _ _ ?s) <= _)%nat => specialize (IH s) end;
        cbn [fst] in *; lia. }
  specialize (Hloop (seq 1 (length allData - 1)) (0%nat, false)).
  rewrite length_seq in Hloop. cbn [fst] in Hloop. lia.
Qed.

(** X28.  The occurrences of every pattern [patterns] lists are at least the
    number its detector asks for (4 for the weekly pattern, 5 for a monthly
    one, 3 for the volatility and the volume patterns, 2 for the anomalies)
    and at most the number of records analysed. *)
Theorem patterns_occurrences (historicalData data : list MarketData)
    (detected : list Pattern) :
  patterns historicalData data = Ok detected ->
  Forall (fun p =>
            (occurrences_min (type p) <= occurrences p
             <= length (historicalData ++ data))%nat)
         detected.
Proof.
  unfold patterns.
  destruct (length (historicalData ++ data) <? 30)%nat.
  { intros Heq. apply Ok_inj in Heq. subst detected. constructor. }
  destruct (weeklyPattern (historicalData ++ data)) as [weekly|message] eqn:Hweekly;
    [|discriminate].
  intros Heq. apply Ok_inj in Heq. rewrite <- Heq.
  apply sort_Forall. repeat (apply Forall_app; split).
  - now apply weeklyPattern_occurrences.
  - apply monthlyPatterns_occurrences.
  - unfold clusteringPattern.
    destruct (Nat.leb_spec 3 (clusterCount (historicalData ++ data))) as [Hcount|_];
      [|constructor].
    constructor; [|constructor]. cbn [type occurrences occurrences_min].
    split; [exact Hcount | apply clusterCount_le].
  - unfold volumeSpikesPattern.
    destruct (3 <=? length _)%nat eqn:Hcount; [|constructor].
    apply Nat.leb_le in Hcount.
    constructor; [|constructor]. cbn [type occurrences occurrences_min].
    split; [exact Hcount | apply filter_length_le].
  - unfold anomaliesPattern.
    destruct (2 <=? length _)%nat eqn:Hcount; [|constructor].
    apply Nat.leb_le in Hcount.
    constructor; [|constructor]. cbn [type occurrences occurrences_min].
    split; [exact Hcount | apply filter_length_le].
Qed.

End OccurrenceProps.

Section OccurrenceRuns.
#[local] Existing Instance UTC.host.
Import PatternAnalyzer.

Lemma patterns_occurrences_witness :
  exists detected,
    patterns (firstn 10 Sample.history) (skipn 10 Sample.history) = Ok detected /\
    Forall (fun p =>
              (occurrences_min (type p) <= occurrences p
               <= length (firstn 10 Sample.history ++ skipn 10 Sample.history))%nat)
           detected.
Proof.
  eexists. split; [exact patterns_history|].
  exact (patterns_occurrences _ _ _ patterns_history).
Defined.

End OccurrenceRuns.
